(** * Dreambooks: the analysis strategies, the analysis registry and the
      orchestration loop, embedded from [src/src/analyzers.py] and
      [src/src/cli.py].

    The Python code is a thin layer over pandas and scipy.  The pandas
    operations the strategies call ([dropna], [to_numeric], [astype],
    [value_counts], [sort_index], [head], [isna], [groupby/size/unstack])
    are written out below on lists, each with the behaviour pandas
    documents for it; the analyzers are then the same compositions of
    these operations as in the source, line by line.

    The strategies are given twice.  First as functions of the table,
    which is what their results are about.  Then, in [InStore], on a
    reference to a table kept in a store, where an operation can change
    a table where it stands, as the assignment
    [df['publication date'] = ...] of the loader does: this is the form
    in which it is proved that a strategy changes no table, and that it
    returns what the function of the table says.  The other assignment
    of the source, [top_languages['Other'] = other_count], is made on
    the copy that [result.head(10).copy()] returns.  The state that the
    program keeps in the fields of the [CLI] object is passed
    explicitly through the loop.

    Floating-point results (the regression and the [:.2f] format) are
    not computed here: they are parameters of the trend strategy. *)

From Stdlib Require Import ZArith QArith List String Ascii Bool Lia.
From Stdlib Require Import Sorted Permutation.
Import ListNotations.

Close Scope Q_scope.
Local Open Scope string_scope.
Local Open Scope list_scope.
Local Open Scope Z_scope.

(* ================================================================== *)
(** * Scalars *)

(** A numeric cell is a float64 that is not NaN: a finite value, kept
    exactly as a rational, or one of the two infinities.  NaN is the
    missing marker and is [Missing] below. *)
Inductive num : Type :=
| NegInf
| Fin (q : Q)
| PosInf.

(** A cell of the table: a number, a string, or the missing marker
    (None / NaN). *)
Inductive cell : Type :=
| Num (x : num)
| Str (s : string)
| Missing.

Definition isna (c : cell) : bool :=
  match c with Missing => true | _ => false end.

Definition notna (c : cell) : bool := negb (isna c).

(** Order of numbers: -inf below every finite value, +inf above. *)
Definition num_compare (a b : num) : comparison :=
  match a, b with
  | NegInf, NegInf => Eq
  | NegInf, _ => Lt
  | Fin _, NegInf => Gt
  | Fin p, Fin q => Qcompare p q
  | Fin _, PosInf => Lt
  | PosInf, PosInf => Eq
  | PosInf, _ => Gt
  end.

(** Order in which pandas sorts group keys: numbers before strings
    (strings by code point, which is the byte order of their UTF-8
    encoding), missing values last. *)
Definition cell_compare (a b : cell) : comparison :=
  match a, b with
  | Num x, Num y => num_compare x y
  | Num _, _ => Lt
  | Str _, Num _ => Gt
  | Str s, Str t => String.compare s t
  | Str _, Missing => Lt
  | Missing, Missing => Eq
  | Missing, _ => Gt
  end.

Definition cell_eqb (a b : cell) : bool :=
  match cell_compare a b with Eq => true | _ => false end.

Definition cell_leb (a b : cell) : bool :=
  match cell_compare a b with Gt => false | _ => true end.

Definition cell_ltb (a b : cell) : bool :=
  match cell_compare a b with Lt => true | _ => false end.

(** Keys of a two-level group: lexicographic order. *)
Definition pair_compare (a b : cell * cell) : comparison :=
  match cell_compare (fst a) (fst b) with
  | Eq => cell_compare (snd a) (snd b)
  | c => c
  end.

Definition pair_eqb (a b : cell * cell) : bool :=
  match pair_compare a b with Eq => true | _ => false end.

Definition pair_leb (a b : cell * cell) : bool :=
  match pair_compare a b with Gt => false | _ => true end.

(* ================================================================== *)
(** * Exceptions *)

Inductive exn : Type :=
| KeyError (key : string)
| IntCastingNaNError
| ValueError (msg : string)
| TypeError
| EOFError.

(** A value, or the exception raised instead. *)
Inductive exc (A : Type) : Type :=
| Ok (a : A)
| Raise (e : exn).

Arguments Ok {A} a.
Arguments Raise {A} e.

Definition bind {A B : Type} (m : exc A) (k : A -> exc B) : exc B :=
  match m with
  | Ok a => k a
  | Raise e => Raise e
  end.

Notation "x <- m ;; k" := (bind m (fun x => k))
  (at level 61, m at next level, right associativity).

Definition raises {A : Type} (m : exc A) : bool :=
  match m with Ok _ => false | Raise _ => true end.

(* ================================================================== *)
(** * The table *)

(** A row maps a column name to a cell; the frame fixes the column set. *)
Definition row : Type := string -> cell.

Record DataFrame : Type := {
  columns : list string;
  rows : list row
}.

Definition has_column (df : DataFrame) (c : string) : bool :=
  existsb (String.eqb c) (columns df).

(** A row given by its (column, value) pairs; the first pair of a
    column wins, a column not listed is missing. *)
Fixpoint mkrow (kvs : list (string * cell)) : row :=
  fun c =>
    match kvs with
    | [] => Missing
    | (k, v) :: rest => if String.eqb k c then v else mkrow rest c
    end.

(** A count series: an ordered mapping from a key to a count.  The
    counts are int64 in pandas; they are bounded by the number of rows
    of a table in memory, so none of them wraps round and they are
    integers here. *)
Definition Series (K : Type) : Type := list (K * Z).

Definition index {K : Type} (s : Series K) : list K := map fst s.
Definition values {K : Type} (s : Series K) : list Z := map snd s.
Definition empty {K : Type} (s : Series K) : bool :=
  match s with [] => true | _ => false end.

Definition sum (l : list Z) : Z := fold_right Z.add 0 l.

(* ================================================================== *)
(** * pandas operations *)

Module pd.

(** [len(data)] *)
Definition len (df : DataFrame) : Z := Z.of_nat (List.length (rows df)).

(** [data[c]]: the column, or KeyError when the frame has no such
    column. *)
Definition getitem (df : DataFrame) (c : string) : exc (list cell) :=
  if has_column df c then Ok (map (fun r : row => r c) (rows df))
  else Raise (KeyError c).

(** [data.dropna(subset=[c])]: a new frame without the rows whose [c] is
    missing; KeyError when the frame has no such column.  The argument
    is left as it is. *)
Definition dropna (df : DataFrame) (c : string) : exc DataFrame :=
  if has_column df c
  then Ok {| columns := columns df;
             rows := filter (fun r : row => notna (r c)) (rows df) |}
  else Raise (KeyError c).

Section ToNumeric.

(** The conversion of a string to a number that [pd.to_numeric] uses;
    [None] when the string is not a number (or spells NaN). *)
Variable str_to_num : string -> option num.

(** [pd.to_numeric(col, errors='coerce')]: what is not a number becomes
    NaN, here [None]. *)
Definition to_numeric (col : list cell) : list (option num) :=
  map (fun c => match c with
                | Num x => Some x
                | Str s => str_to_num s
                | Missing => None
                end) col.

End ToNumeric.

(** [Series.dropna()] on a float series. *)
Fixpoint dropna_values (col : list (option num)) : list num :=
  match col with
  | [] => []
  | Some x :: rest => x :: dropna_values rest
  | None :: rest => dropna_values rest
  end.

Definition int64_min : Z := - 2 ^ 63.
Definition int64_max : Z := 2 ^ 63 - 1.

(** The cast of one finite float to int64: truncation toward zero.  A
    value outside the int64 range is not an error; the cast then yields
    the most negative int64 (the result of the conversion instruction
    on x86-64). *)
Definition cast_int64 (q : Q) : Z :=
  let z := Z.quot (Qnum q) (Zpos (Qden q)) in
  if (int64_min <=? z) && (z <=? int64_max) then z else int64_min.

Definition isfinite (x : num) : bool :=
  match x with Fin _ => true | _ => false end.

(** [Series.astype(int)] on a float series: raises IntCastingNaNError
    ("Cannot convert non-finite values (NA or inf) to integer") when a
    value is not finite, otherwise casts every value. *)
Definition astype_int (col : list num) : exc (list Z) :=
  if forallb isfinite col
  then Ok (map (fun x => match x with Fin q => cast_int64 q | _ => 0 end) col)
  else Raise IntCastingNaNError.

Section Counting.

Context {K : Type}.
Variable eqb : K -> K -> bool.

(** One more occurrence of [k]: its count goes up where it stands, a new
    key is added at the end. *)
Fixpoint bump (k : K) (acc : Series K) : Series K :=
  match acc with
  | [] => [(k, 1)]
  | (k', n) :: rest =>
      if eqb k' k then (k', n + 1) :: rest else (k', n) :: bump k rest
  end.

(** The counts of the distinct values, in the order in which the values
    are first met. *)
Definition tally (xs : list K) : Series K :=
  fold_left (fun acc k => bump k acc) xs [].

End Counting.

Section Sorting.

Context {A : Type}.
Variable leb : A -> A -> bool.

(** Stable insertion: [x] goes before the first element that it does not
    have to follow. *)
Fixpoint insert (x : A) (l : list A) : list A :=
  match l with
  | [] => [x]
  | y :: rest => if leb x y then x :: y :: rest else y :: insert x rest
  end.

Definition sort (l : list A) : list A := fold_right insert [] l.

End Sorting.

(** [Series.sort_values(ascending=False)] on the counts; entries with
    equal counts keep their relative order. *)
Definition sort_values_desc {K : Type} (s : Series K) : Series K :=
  sort (fun a b => snd b <=? snd a) s.

(** [Series.value_counts()]: counts of the distinct values, most frequent
    first, ties in the order in which the values are first met. *)
Definition value_counts {K : Type} (eqb : K -> K -> bool) (xs : list K)
  : Series K :=
  sort_values_desc (tally eqb xs).

(** [Series.sort_index()]: ascending by key. *)
Definition sort_index {K : Type} (leb : K -> K -> bool) (s : Series K)
  : Series K :=
  sort (fun a b => leb (fst a) (fst b)) s.

(** [Series.head(n)] *)
Definition head {A : Type} (n : nat) (s : list A) : list A := firstn n s.

(** [Series.iloc[n:]] *)
Definition iloc_from {A : Type} (n : nat) (s : list A) : list A := skipn n s.

(** [col.isna().sum()] *)
Definition isna_sum (col : list cell) : Z :=
  Z.of_nat (List.length (filter isna col)).

(** [col.value_counts()] on a column of cells: missing values are not
    counted. *)
Definition value_counts_cells (col : list cell) : Series cell :=
  value_counts cell_eqb (filter notna col).

(** [series[key] = v]: the value of an existing label is replaced where
    it stands, a new label is added at the end. *)
Fixpoint setitem (s : Series cell) (key : cell) (v : Z) : Series cell :=
  match s with
  | [] => [(key, v)]
  | (k, n) :: rest =>
      if cell_eqb k key then (k, v) :: rest else (k, n) :: setitem rest key v
  end.

(** A two-dimensional table of counts. *)
Record Grid : Type := {
  grid_index : list cell;
  grid_columns : list cell;
  grid_values : list (list Z)
}.

(** The distinct values of a list of keys, ascending. *)
Fixpoint insert_level (k : cell) (l : list cell) : list cell :=
  match l with
  | [] => [k]
  | k' :: rest =>
      match cell_compare k k' with
      | Lt => k :: k' :: rest
      | Eq => k' :: rest
      | Gt => k' :: insert_level k rest
      end
  end.

Definition levels (ks : list cell) : list cell :=
  fold_left (fun acc k => insert_level k acc) ks [].

(** A series of counts under a two-level index (a MultiIndex): the
    values of each level, and one entry for each pair of keys. *)
Record GroupSizes : Type := {
  level0 : list cell;
  level1 : list cell;
  entries : Series (cell * cell)
}.

(** [data.groupby([c1, c2]).size()]: the number of rows of each pair of
    key values, rows with a missing key left out, in ascending order of
    the pair.  Each key column is factorised by itself, so that a level
    of the index holds every value of its column, ascending, also a
    value that only stands in rows whose other key is missing. *)
Definition groupby_size (df : DataFrame) (c1 c2 : string) : exc GroupSizes :=
  k1 <- getitem df c1 ;;
  k2 <- getitem df c2 ;;
  let keys := filter (fun p => notna (fst p) && notna (snd p)) (combine k1 k2) in
  Ok {| level0 := levels (filter notna k1);
        level1 := levels (filter notna k2);
        entries := sort_index pair_leb (tally pair_eqb keys) |}.

(** [MultiIndex.remove_unused_levels()], on one level whose keys are
    [codes], entry by entry: a level all of whose values are in use
    stays as it is; a level with a value that no entry uses is rebuilt
    from the values in use, in the order in which the entries first use
    them. *)
Definition remove_unused_level (level codes : list cell) : list cell :=
  let uniques := index (tally cell_eqb codes) in
  if forallb (fun v => existsb (fun u => cell_eqb u v) uniques) level
  then level
  else uniques.

Definition lookup_pair (s : Series (cell * cell)) (k : cell * cell)
  : option Z :=
  option_map snd (find (fun e => pair_eqb (fst e) k) s).

(** [series.unstack(fill_value=v)]: the second key level becomes the
    columns; a combination that has no entry gets [v].  [unstack] first
    removes the unused values of the levels, and the lines and columns
    of the result follow the levels so obtained. *)
Definition unstack (fill_value : Z) (s : GroupSizes) : Grid :=
  let idx :=
    remove_unused_level (level0 s) (map (fun e => fst (fst e)) (entries s)) in
  let cols :=
    remove_unused_level (level1 s) (map (fun e => snd (fst e)) (entries s)) in
  {| grid_index := idx;
     grid_columns := cols;
     grid_values :=
       map (fun y => map (fun l => match lookup_pair (entries s) (y, l) with
                                   | Some n => n
                                   | None => fill_value
                                   end) cols) idx |}.

End pd.

(* ================================================================== *)
(** * Analysis results *)

(** What [scipy.stats.linregress] returns. *)
Record LinregressResult (float : Type) : Type := {
  lr_slope : float;
  lr_intercept : float;
  lr_rvalue : float;
  lr_pvalue : float;
  lr_stderr : float
}.

Arguments lr_slope {float} _.
Arguments lr_intercept {float} _.
Arguments lr_rvalue {float} _.
Arguments lr_pvalue {float} _.
Arguments lr_stderr {float} _.

Record TrendLine (float : Type) : Type := {
  slope : float;
  intercept : float;
  r_value : float;
  description : string
}.

Arguments slope {float} _.
Arguments intercept {float} _.
Arguments r_value {float} _.
Arguments description {float} _.

(** The dict [{"counts": ..., "trend_line": ...}]; [None] is the absent
    trend line. *)
Record TrendResult (float : Type) : Type := {
  counts : Series Z;
  trend_line : option (TrendLine float)
}.

Arguments counts {float} _.
Arguments trend_line {float} _.

(** The three shapes an analysis returns: a pandas Series, the trend
    dict, a pandas DataFrame. *)
Inductive AnalysisResult (float : Type) : Type :=
| CountSeries (s : Series cell)
| Trend (t : TrendResult float)
| GridResult (g : pd.Grid).

Arguments CountSeries {float} s.
Arguments Trend {float} t.
Arguments GridResult {float} g.

(** The interface of [src/src/interfaces.py]. *)
Record IAnalyzer (float : Type) : Type := {
  name : string;
  analyze : DataFrame -> exc (AnalysisResult float)
}.

Arguments name {float} _.
Arguments analyze {float} _ _.

(* ================================================================== *)
(** * The analysis strategies ([src/src/analyzers.py]) *)

Module PublicationTrendAnalyzer.

Section Scipy.

Variable str_to_num : string -> option num.

(** Floating-point results of the regression, and what the code does
    with them: [scipy.stats.linregress], [r_value**2] and the format
    [:.2f]. *)
Variable float : Type.
Variable linregress : list Z -> list Z -> exc (LinregressResult float).
Variable square : float -> float.
Variable format_2f : float -> string.

Definition name : string := "Publication Trends Over Time".

Definition analyze (data : DataFrame) : exc (TrendResult float) :=
  data <- pd.dropna data "publication date" ;;
  col <- pd.getitem data "publication date" ;;
  years <- pd.astype_int (pd.dropna_values (pd.to_numeric str_to_num col)) ;;
  let years := filter (fun y => (1000 <? y) && (y <? 2100)) years in
  let trends := pd.sort_index Z.leb (pd.value_counts Z.eqb years) in
  if negb (empty trends) then
    let x := index trends in
    let y := values trends in
    r <- linregress x y ;;
    Ok {| counts := trends;
          trend_line :=
            Some {| slope := lr_slope r;
                    intercept := lr_intercept r;
                    r_value := lr_rvalue r;
                    description :=
                      "Linear Trend: y = " ++ format_2f (lr_slope r)
                      ++ "x + " ++ format_2f (lr_intercept r)
                      ++ " (R2=" ++ format_2f (square (lr_rvalue r))
                      ++ ")" |} |}
  else Ok {| counts := trends; trend_line := None |}.

End Scipy.

End PublicationTrendAnalyzer.

Module AuthorsAnalyzer.

Definition name : string := "Top 5 Most Prolific Authors".

Definition analyze (data : DataFrame) : exc (Series cell) :=
  col <- pd.getitem data "author" ;;
  let authors := pd.head 5 (pd.value_counts_cells col) in
  Ok authors.

End AuthorsAnalyzer.

Module LanguageDistributionAnalyzer.

Definition name : string := "Language Distribution".

Definition analyze (data : DataFrame) : exc (Series cell) :=
  col <- pd.getitem data "language" ;;
  let languages := pd.value_counts_cells col in
  Ok languages.

End LanguageDistributionAnalyzer.

Module PublisherAnalyzer.

Definition name : string := "Number of books published by each publisher".

Definition analyze (data : DataFrame) : exc (Series cell) :=
  col <- pd.getitem data "book publisher" ;;
  let publishers := pd.value_counts_cells col in
  Ok publishers.

End PublisherAnalyzer.

Module MissingISBNAnalyzer.

Definition name : string := "Missing ISBN Analysis".

Definition analyze (data : DataFrame) : exc (Series cell) :=
  let total := pd.len data in
  col <- pd.getitem data "ISBN" ;;
  let missing_count := pd.isna_sum col in
  let present_count := total - missing_count in
  Ok [(Str "Missing ISBN", missing_count); (Str "With ISBN", present_count)].

End MissingISBNAnalyzer.

Module LanguageYearAnalyzer.

Definition name : string :=
  "Number of books published per year categorized by language".

Definition analyze (data : DataFrame) : exc pd.Grid :=
  sizes <- pd.groupby_size data "publication date" "language" ;;
  let grouped := pd.unstack 0 sizes in
  Ok grouped.

End LanguageYearAnalyzer.

(* ================================================================== *)
(** * The registry ([AnalysisContext]) *)

Module AnalysisContext.

Section Registry.

Context {V : Type}.

(** A Python dict with string keys: insertion-ordered, one entry per
    key. *)
Definition t : Type := list (string * V).

(** [__init__] *)
Definition init : t := [].

(** [self._analyzers[key] = analyzer] *)
Fixpoint register_analyzer (self : t) (key : string) (analyzer : V) : t :=
  match self with
  | [] => [(key, analyzer)]
  | (k, a) :: rest =>
      if String.eqb k key then (k, analyzer) :: rest
      else (k, a) :: register_analyzer rest key analyzer
  end.

(** [self._analyzers.get(key)]: [None] for a key that is not there. *)
Definition get_analyzer (self : t) (key : string) : option V :=
  option_map snd (find (fun e => String.eqb (fst e) key) self).

(** [list(self._analyzers.keys())] *)
Definition get_available_analyses (self : t) : list string := map fst self.

End Registry.

Arguments t V : clear implicits.

End AnalysisContext.

(* ================================================================== *)
(** * The orchestration loop ([src/src/cli.py]) *)

Definition lower_ascii (c : ascii) : ascii :=
  let n := nat_of_ascii c in
  if ((65 <=? n) && (n <=? 90))%nat then ascii_of_nat (n + 32) else c.

(** [str.lower()], on the ASCII letters; this is all that the comparison
    with ['q'] and ['v'] can see. *)
Fixpoint lower (s : string) : string :=
  match s with
  | EmptyString => EmptyString
  | String c rest => String (lower_ascii c) (lower rest)
  end.

(** The line feed that some of the printed lines start with. *)
Definition nl : string := String (ascii_of_nat 10) EmptyString.

(** [series[key]] *)
Definition lookup_label (s : Series cell) (key : cell) : option Z :=
  option_map snd (find (fun e => cell_eqb (fst e) key) s).

Module CLI.

Section Session.

Variable str_to_num : string -> option num.
Variable float : Type.
Variable linregress : list Z -> list Z -> exc (LinregressResult float).
Variable square : float -> float.
Variable format_2f : float -> string.

Definition publication_trend : IAnalyzer float :=
  {| name := PublicationTrendAnalyzer.name;
     analyze := fun data =>
       r <- PublicationTrendAnalyzer.analyze
              str_to_num float linregress square format_2f data ;;
       Ok (Trend r) |}.

Definition authors : IAnalyzer float :=
  {| name := AuthorsAnalyzer.name;
     analyze := fun data =>
       r <- AuthorsAnalyzer.analyze data ;; Ok (CountSeries r) |}.

Definition language_distribution : IAnalyzer float :=
  {| name := LanguageDistributionAnalyzer.name;
     analyze := fun data =>
       r <- LanguageDistributionAnalyzer.analyze data ;; Ok (CountSeries r) |}.

Definition publisher : IAnalyzer float :=
  {| name := PublisherAnalyzer.name;
     analyze := fun data =>
       r <- PublisherAnalyzer.analyze data ;; Ok (CountSeries r) |}.

Definition missing_isbn : IAnalyzer float :=
  {| name := MissingISBNAnalyzer.name;
     analyze := fun data =>
       r <- MissingISBNAnalyzer.analyze data ;; Ok (CountSeries r) |}.

Definition language_year : IAnalyzer float :=
  {| name := LanguageYearAnalyzer.name;
     analyze := fun data =>
       r <- LanguageYearAnalyzer.analyze data ;; Ok (GridResult r) |}.

(** The fields of the [CLI] object; [data] is [None] until [run] has
    loaded the table. *)
Record t : Type := {
  file_path : string;
  analyzers : AnalysisContext.t (IAnalyzer float);
  data : option DataFrame;
  viz_type : string
}.

(** [__init__] *)
Definition init (path : string) : t :=
  let a := AnalysisContext.init in
  let a := AnalysisContext.register_analyzer a "1" publication_trend in
  let a := AnalysisContext.register_analyzer a "2" authors in
  let a := AnalysisContext.register_analyzer a "3" language_distribution in
  let a := AnalysisContext.register_analyzer a "4" publisher in
  let a := AnalysisContext.register_analyzer a "5" missing_isbn in
  let a := AnalysisContext.register_analyzer a "6" language_year in
  {| file_path := path; analyzers := a; data := None;
     viz_type := "matplotlib" |}.

(** What the loop writes and draws. *)
Inductive event : Type :=
| Print (line : string)
| PrintLoaded (n : Z)
| PrintLoadError (e : exn)
| PrintCounts (s : Series Z)
| PrintResult (r : AnalysisResult float)
| PrintToString (r : AnalysisResult float)
| PrintTotal (total : Z)
| PrintShare (label : string) (count total : Z)
| Visualize (viz : string) (r : AnalysisResult float)
    (title : string) (chart_type : string).

(** The collapsing of choice 3: the first ten entries and the sum of the
    others under the label ['Other']. *)
Definition top_languages (result : Series cell) : Series cell :=
  if 10 <? Z.of_nat (List.length result) then
    let top_languages := pd.head 10 result in
    let other_count := sum (values (pd.iloc_from 10 result)) in
    pd.setitem top_languages (Str "Other") other_count
  else result.

(** The same code again, for choice 4. *)
Definition top_publishers (result : Series cell) : Series cell :=
  if 10 <? Z.of_nat (List.length result) then
    let top_publishers := pd.head 10 result in
    let other_count := sum (values (pd.iloc_from 10 result)) in
    pd.setitem top_publishers (Str "Other") other_count
  else result.

Definition menu (self : t) : list event :=
  [ Print (nl ++ "--- Dream Book Shop Data Analysis (Visualizer: "
           ++ viz_type self ++ ") ---");
    Print "v. Toggle Visualizer";
    Print "1. Publication Trends Over Time";
    Print "2. Top 5 Most Prolific Authors";
    Print "3. Language Distribution";
    Print "4. Number of books published by each publisher";
    Print "5. Missing ISBN Analysis";
    Print "6. Number of books published per year categorized by language";
    Print "q. Quit" ].

(** The textual summary of a result. *)
Definition summary (choice : string) (result : AnalysisResult float)
  : list event :=
  match result with
  | Trend r =>
      PrintCounts (counts r)
      :: match trend_line r with
         | Some tl => [Print (description tl)]
         | None => []
         end
  | _ =>
      if (choice =? "4")%string then [PrintToString result]
      else if negb (choice =? "6")%string then [PrintResult result]
      else []
  end.

(** The chart of a result, with what choice 5 and 6 print before it, and
    the exception that ends the branch, if any.  The series-only
    branches are reached with a series, since the registry binds 3, 4
    and 5 to series analyzers. *)
Definition visualization (self : t) (choice : string) (title : string)
  (result : AnalysisResult float) : list event * option exn :=
  if (choice =? "1")%string then
    ([Visualize (viz_type self) result title "line"], None)
  else if (choice =? "2")%string then
    ([Visualize (viz_type self) result title "bar"], None)
  else if (choice =? "3")%string then
    match result with
    | CountSeries s =>
        ([Visualize (viz_type self) (CountSeries (top_languages s))
            title "bar"], None)
    | _ => ([Visualize (viz_type self) result title "bar"], None)
    end
  else if (choice =? "4")%string then
    match result with
    | CountSeries s =>
        ([Visualize (viz_type self) (CountSeries (top_publishers s))
            title "bar"], None)
    | _ => ([Visualize (viz_type self) result title "bar"], None)
    end
  else if (choice =? "5")%string then
    match result with
    | CountSeries s =>
        let total := sum (values s) in
        match lookup_label s (Str "Missing ISBN") with
        | None => ([], Some (KeyError "Missing ISBN"))
        | Some missing =>
            let printed :=
              [PrintTotal total; PrintShare "Missing ISBN" missing total] in
            match lookup_label s (Str "With ISBN") with
            | None => (printed, Some (KeyError "With ISBN"))
            | Some present =>
                (printed ++ [PrintShare "With ISBN" present total;
                             Visualize (viz_type self) result title "pie"],
                 None)
            end
        end
    | _ => ([], Some (KeyError "Missing ISBN"))
    end
  else if (choice =? "6")%string then
    ([PrintToString result; Visualize (viz_type self) result title "line"],
     None)
  else ([], None).

(** How one pass of the [while True] body ends. *)
Inductive outcome : Type :=
| Next (self : t)
| Break (self : t)
| Uncaught (e : exn).

(** One pass of the loop body on one line of input. *)
Definition iteration (self : t) (choice : string) : list event * outcome :=
  if (lower choice =? "q")%string then (menu self, Break self)
  else if (lower choice =? "v")%string then
    if (viz_type self =? "matplotlib")%string then
      (menu self,
       Next {| file_path := file_path self; analyzers := analyzers self;
               data := data self; viz_type := "plotly" |})
    else
      (menu self,
       Next {| file_path := file_path self; analyzers := analyzers self;
               data := data self; viz_type := "matplotlib" |})
  else
    match AnalysisContext.get_analyzer (analyzers self) choice with
    | Some analyzer =>
        let performing :=
          menu self
          ++ [Print (nl ++ "Performing: " ++ name analyzer ++ "...")] in
        match data self with
        | None => (performing, Uncaught TypeError)
        | Some df =>
            match analyze analyzer df with
            | Raise e => (performing, Uncaught e)
            | Ok result =>
                let text :=
                  performing ++ [Print (nl ++ "--- Textual Summary ---")]
                  ++ summary choice result in
                match visualization self choice (name analyzer) result with
                | (drawn, Some e) => (text ++ drawn, Uncaught e)
                | (drawn, None) => (text ++ drawn, Next self)
                end
            end
        end
    | None => (menu self ++ [Print "Invalid selection."], Next self)
    end.

(** The [while True] loop over the lines typed; [input] raises EOFError
    when there is no line left. *)
Fixpoint loop (self : t) (inputs : list string) : list event * outcome :=
  match inputs with
  | [] => (menu self, Uncaught EOFError)
  | choice :: rest =>
      match iteration self choice with
      | (evs, Next self') =>
          let (evs', o) := loop self' rest in (evs ++ evs', o)
      | stop => stop
      end
  end.

(** [run], given what [self.loader.load_data(self.file_path)] did. *)
Definition run (self : t) (loaded : exc DataFrame) (inputs : list string)
  : list event * outcome :=
  match loaded with
  | Raise e => ([Print "Loading data..."; PrintLoadError e], Break self)
  | Ok df =>
      let self := {| file_path := file_path self;
                     analyzers := analyzers self;
                     data := Some df; viz_type := viz_type self |} in
      let (evs, o) := loop self inputs in
      (Print "Loading data..." :: PrintLoaded (pd.len df) :: evs, o)
  end.

End Session.

End CLI.

(* ================================================================== *)
(** * Concrete instances, for the examples *)

Definition digit_of (c : ascii) : option Z :=
  let n := Z.of_nat (nat_of_ascii c) in
  if (48 <=? n) && (n <=? 57) then Some (n - 48) else None.

(** An unsigned decimal literal [ddd] or [ddd.ddd], read left to right:
    [mant / scale] is the value so far. *)
Fixpoint parse_unsigned (s : string) (mant : Z) (scale : positive)
  (in_frac : bool) (ndigits : nat) : option Q :=
  match s with
  | EmptyString =>
      match ndigits with O => None | _ => Some (Qmake mant scale) end
  | String c rest =>
      if Ascii.eqb c "."%char then
        if in_frac then None else parse_unsigned rest mant scale true ndigits
      else
        match digit_of c with
        | Some d =>
            parse_unsigned rest (mant * 10 + d)
              (if in_frac then scale * 10 else scale)%positive
              in_frac (S ndigits)
        | None => None
        end
  end.

(** A string-to-number conversion for plain decimal literals with an
    optional sign, and for the spellings [inf] and [-inf]. *)
Definition decimal_str_to_num (s : string) : option num :=
  if (s =? "inf")%string then Some PosInf
  else if (s =? "-inf")%string then Some NegInf
  else
    match s with
    | String "-"%char rest =>
        option_map (fun q => Fin (Qopp q)) (parse_unsigned rest 0 1 false O)
    | String "+"%char rest =>
        option_map Fin (parse_unsigned rest 0 1 false O)
    | _ => option_map Fin (parse_unsigned s 0 1 false O)
    end.

(** [np.amax] and [np.amin] of a non-empty array (0 on the empty one,
    where numpy raises and [linregress] has raised before). *)
Definition amax (x : list Z) : Z :=
  match x with [] => 0 | a :: rest => fold_left Z.max rest a end.

Definition amin (x : list Z) : Z :=
  match x with [] => 0 | a :: rest => fold_left Z.min rest a end.

(** The exceptions of [scipy.stats.linregress], with the floating-point
    values of the result erased: it raises ValueError on empty input and
    when there are several x values and all are identical. *)
Definition linregress_shape (x y : list Z) : exc (LinregressResult unit) :=
  match x, y with
  | [], _ | _, [] => Raise (ValueError "Inputs must not be empty.")
  | _, _ =>
      if negb (Nat.eqb (List.length x) (List.length y)) then
        Raise (ValueError "all the input array dimensions must match")
      else if (amax x =? amin x) && (1 <? Z.of_nat (List.length x)) then
        Raise (ValueError
          "Cannot calculate a linear regression if all x values are identical")
      else Ok {| lr_slope := tt; lr_intercept := tt; lr_rvalue := tt;
                 lr_pvalue := tt; lr_stderr := tt |}
  end.

Definition book (date author language publisher isbn : cell) : row :=
  mkrow [("publication date", date); ("author", author);
         ("language", language); ("book publisher", publisher);
         ("ISBN", isbn)].

Definition book_columns : list string :=
  ["publication date"; "author"; "language"; "book publisher"; "ISBN"].

(** The fixture of [src/tests/test_analysis_logic.py]. *)
Definition sample_data : DataFrame :=
  {| columns := book_columns;
     rows :=
       [ book (Str "2020") (Str "Author A") (Str "English") (Str "Pub 1") (Str "123");
         book (Str "2021") (Str "Author B") (Str "Tamil") (Str "Pub 2") (Str "456");
         book (Str "2020") (Str "Author A") (Str "English") (Str "Pub 1") Missing;
         book (Str "Invalid") (Str "Author C") (Str "French") (Str "Pub 3") (Str "789");
         book Missing (Str "Author A") (Str "English") (Str "Pub 1") Missing;
         book (Str "2022") (Str "Author B") (Str "Tamil") (Str "Pub 2") (Str "012");
         book (Str "1900") (Str "Author D") (Str "Spanish") (Str "Pub 4") (Str "345");
         book (Str "2150") (Str "Author E") (Str "German") (Str "Pub 5") (Str "678") ] |}.

(** A table with the expected columns and no row. *)
Definition empty_data : DataFrame := {| columns := book_columns; rows := [] |}.

(* ================================================================== *)
(** * Vocabulary of the statements *)

Section Occurrences.

Context {K : Type}.
Variable eqb : K -> K -> bool.

(** The number of elements of [xs] equal to [k]. *)
Definition occurrences (k : K) (xs : list K) : Z :=
  Z.of_nat (List.length (filter (fun x => eqb x k) xs)).

(** The sum of the counts that a series holds for [k]. *)
Definition total (k : K) (s : Series K) : Z :=
  sum (values (filter (fun e => eqb (fst e) k) s)).

(** [k1] is met in [xs] before [k2] is. *)
Fixpoint met_before (k1 k2 : K) (xs : list K) : bool :=
  match xs with
  | [] => false
  | x :: rest =>
      if eqb x k2 then false
      else if eqb x k1 then true
      else met_before k1 k2 rest
  end.

(** No two entries of a series have equal keys. *)
Definition distinct_keys (s : Series K) : Prop :=
  StronglySorted (fun a b => eqb (fst a) (fst b) = false) s.

End Occurrences.

(** The counts of a series never go up. *)
Definition non_increasing (l : list Z) : Prop :=
  StronglySorted (fun a b => b <= a) l.

(** [a] stands before [b] in [l]. *)
Definition before {A : Type} (a b : A) (l : list A) : Prop :=
  exists l1 l2 l3, l = l1 ++ a :: l2 ++ b :: l3.

(** The cells of a column, row by row. *)
Definition column (df : DataFrame) (c : string) : list cell :=
  map (fun r : row => r c) (rows df).

(** The number of rows that satisfy [p]. *)
Definition count_rows (p : row -> bool) (df : DataFrame) : Z :=
  Z.of_nat (List.length (filter p (rows df))).

(** The registry after the registrations [regs], made in that order on a
    new registry. *)
Definition registered {V : Type} (regs : list (string * V))
  : AnalysisContext.t V :=
  fold_left (fun self e => AnalysisContext.register_analyzer self (fst e) (snd e))
    regs AnalysisContext.init.

(** The analyzer of the last registration under [key]. *)
Definition last_registered {V : Type} (key : string) (regs : list (string * V))
  : option V :=
  option_map snd (find (fun e => String.eqb (fst e) key) (rev regs)).

Section YearVocabulary.

Variable str_to_num : string -> option num.

(** The number a cell stands for, if any. *)
Definition numeric_value (c : cell) : option num :=
  match c with
  | Num x => Some x
  | Str s => str_to_num s
  | Missing => None
  end.

(** The integer part of a rational, toward zero. *)
Definition truncate (q : Q) : Z := Z.quot (Qnum q) (Zpos (Qden q)).

(** The year a publication date counts for: the integer part of its
    numeric value, when that lies strictly between 1000 and 2100. *)
Definition year_of (c : cell) : option Z :=
  match numeric_value c with
  | Some (Fin q) =>
      let y := truncate q in
      if (1000 <? y) && (y <? 2100) then Some y else None
  | _ => None
  end.

Definition year_cell (c : cell) : list Z :=
  match year_of c with Some y => [y] | None => [] end.

(** The years of the rows that survive, row by row. *)
Definition years_of (df : DataFrame) : list Z :=
  flat_map (fun r : row => year_cell (r "publication date")) (rows df).

(** The number of surviving rows of year [y]. *)
Definition rows_of_year (df : DataFrame) (y : Z) : Z :=
  count_rows (fun r => match year_of (r "publication date") with
                       | Some y' => y' =? y
                       | None => false
                       end) df.

Definition is_infinite (c : cell) : bool :=
  match numeric_value c with
  | Some PosInf | Some NegInf => true
  | _ => false
  end.

(** Some publication date is an infinity. *)
Definition has_infinite_date (df : DataFrame) : bool :=
  existsb (fun r : row => is_infinite (r "publication date")) (rows df).

End YearVocabulary.

(** A table whose only publication date is the float infinity. *)
Definition infinite_date_data : DataFrame :=
  {| columns := book_columns;
     rows := [ book (Num PosInf) (Str "Author A") (Str "English")
                 (Str "Pub 1") (Str "123") ] |}.

(** A table without a 'publication date' column. *)
Definition no_date_data : DataFrame :=
  {| columns := ["author"; "language"; "book publisher"; "ISBN"];
     rows := [ mkrow [("author", Str "Author A"); ("language", Str "English");
                      ("book publisher", Str "Pub 1"); ("ISBN", Str "123")] ] |}.

(** [a] is strictly below [b] in the order of keys. *)
Definition cell_lt (a b : cell) : Prop := cell_compare a b = Lt.

(** Some key of [l] is equal to [k]. *)
Definition mem (k : cell) (l : list cell) : bool :=
  existsb (fun k' => cell_eqb k' k) l.

(** The row has both a publication date and a language. *)
Definition both_present (r : row) : bool :=
  notna (r "publication date") && notna (r "language").

(** The row has the publication date [y] and the language [l]. *)
Definition has_pair (y l : cell) (r : row) : bool :=
  cell_eqb (r "publication date") y && cell_eqb (r "language") l.

(** The cell in row [i] and column [j] of a grid. *)
Definition grid_cell (g : pd.Grid) (i j : nat) : option Z :=
  match nth_error (pd.grid_values g) i with
  | Some line => nth_error line j
  | None => None
  end.

(** The sum of all cells of a grid. *)
Definition grid_total (g : pd.Grid) : Z := sum (map sum (pd.grid_values g)).

(** A table in which one publication date has no language. *)
Definition no_language_data : DataFrame :=
  {| columns := book_columns;
     rows :=
       [ book (Num (Fin (Qmake 2020 1))) (Str "Author A") (Str "English")
           (Str "Pub 1") (Str "123");
         book (Num (Fin (Qmake 2021 1))) (Str "Author B") Missing
           (Str "Pub 2") (Str "456") ] |}.

(** A table in which one language, French, only stands in a row that
    has no publication date. *)
Definition unused_language_data : DataFrame :=
  {| columns := book_columns;
     rows :=
       [ book (Num (Fin (Qmake 1900 1))) (Str "Author A") (Str "Spanish")
           (Str "Pub 1") (Str "123");
         book (Num (Fin (Qmake 2020 1))) (Str "Author B") (Str "English")
           (Str "Pub 2") (Str "456");
         book Missing (Str "Author C") (Str "French")
           (Str "Pub 3") (Str "789") ] |}.

(** The group keys of the rows that have both a publication date and a
    language, row by row. *)
Definition group_keys (df : DataFrame) : list (cell * cell) :=
  map (fun r : row => (r "publication date", r "language"))
    (filter both_present (rows df)).

(** What [groupby(['publication date', 'language']).size()] gives on a
    table that has the two columns. *)
Definition group_sizes (df : DataFrame) : pd.GroupSizes :=
  {| pd.level0 := pd.levels (filter notna (column df "publication date"));
     pd.level1 := pd.levels (filter notna (column df "language"));
     pd.entries :=
       pd.sort_index pair_leb (pd.tally pair_eqb (group_keys df)) |}.

(** No two keys of [l] are equal. *)
Definition distinct (l : list cell) : Prop :=
  StronglySorted (fun a b => cell_eqb a b = false) l.

(** The keys of [l] never go down. *)
Definition ascending (l : list cell) : Prop :=
  StronglySorted (fun a b => cell_leb a b = true) l.

(** The session after the lines [inputs], when none of them ended the
    loop. *)
Fixpoint after {float : Type} (self : CLI.t float) (inputs : list string)
  : option (CLI.t float) :=
  match inputs with
  | [] => Some self
  | choice :: rest =>
      match CLI.iteration float self choice with
      | (_, CLI.Next _ self') => after self' rest
      | _ => None
      end
  end.

(** A distribution of eleven languages in which 'Other' is the most
    frequent one. *)
Definition other_series : Series cell :=
  [ (Str "Other", 11); (Str "English", 10); (Str "Tamil", 9);
    (Str "French", 8); (Str "Spanish", 7); (Str "German", 6);
    (Str "Hindi", 5); (Str "Sinhala", 4); (Str "Arabic", 3);
    (Str "Latin", 2); (Str "Greek", 1) ].

(* ================================================================== *)
(** * The loader ([src/src/data_loader.py]) *)

Module CSVDataLoader.

(** What [pd.read_csv(file_path, nrows=limit)] and the stripping of the
    column names give: the table with its stripped names, or the
    exception raised on the way.  Reading the file is outside this
    development; a table with two columns of one name is outside
    [DataFrame]. *)
Inductive read_result : Type :=
| ReadOk (df : DataFrame)
| ReadFileNotFound
| ReadFailed (text : string).

(** How [load_data] ends: the table, or one of the two exceptions it
    raises, with the message. *)
Inductive load_result : Type :=
| Loaded (df : DataFrame)
| FileNotFoundError (message : string)
| LoadException (message : string).

Record t : Type := { limit : nat }.

(** [__init__], with its default limit. *)
Definition init (limit : option nat) : t :=
  {| limit := match limit with Some n => n | None => 5000%nat end |}.

Section Loader.

Variable str_to_num : string -> option num.
Variable read_csv : string -> nat -> read_result.

(** An element of a float series, as a cell of the table: NaN is the
    missing marker. *)
Definition to_cell (x : option num) : cell :=
  match x with Some v => Num v | None => Missing end.

(** [df[c] = series]: the column [c] of every row is replaced by the
    element of the series in the same position; a new column is added
    after the others. *)
Definition setcolumn (df : DataFrame) (c : string) (series : list cell)
  : DataFrame :=
  {| columns := if has_column df c then columns df else columns df ++ [c];
     rows :=
       map (fun (rv : row * cell) (c' : string) =>
              if (c' =? c)%string then snd rv else fst rv c')
         (combine (rows df) series) |}.

(** The cleaning of the publication dates:
    [if 'publication date' in df.columns:
       df['publication date'] =
         pd.to_numeric(df['publication date'], errors='coerce')]. *)
Definition coerce_publication_date (df : DataFrame) : DataFrame :=
  if has_column df "publication date" then
    setcolumn df "publication date"
      (map to_cell
         (pd.to_numeric str_to_num
            (map (fun r : row => r "publication date") (rows df))))
  else df.

Definition load_data (self : t) (file_path : string) : load_result :=
  match read_csv file_path (limit self) with
  | ReadOk df => Loaded (coerce_publication_date df)
  | ReadFileNotFound =>
      FileNotFoundError ("The file " ++ file_path ++ " was not found.")
  | ReadFailed text => LoadException ("Error loading data: " ++ text)
  end.

End Loader.

End CSVDataLoader.

(* ================================================================== *)
(** * Tables as objects *)

(** In the program a table is an object: [self.data] and the parameter
    [data] of a strategy name one and the same DataFrame, and pandas
    can change a DataFrame where it stands, as the loader does with
    [df['publication date'] = ...].  To state what a strategy does to
    the table it is given, the tables are kept in a store here and
    named by references, and an operation takes the store and gives
    back the store it leaves. *)

Module Store.

Definition ref : Type := nat.

(** The tables of the process; a reference is the position of its
    table. *)
Definition t : Type := list DataFrame.

(** A computation on the store: its value or the exception it raises,
    and the store it leaves. *)
Definition M (A : Type) : Type := t -> exc A * t.

Definition ret {A : Type} (a : A) : M A := fun s => (Ok a, s).

Definition bind {A B : Type} (m : M A) (k : A -> M B) : M B :=
  fun s =>
    match m s with
    | (Ok a, s') => k a s'
    | (Raise e, s') => (Raise e, s')
    end.

(** A step that does not look at the store. *)
Definition lift {A : Type} (m : exc A) : M A := fun s => (m, s).

(** A new table: it gets a reference that names nothing yet. *)
Definition new (df : DataFrame) : M ref :=
  fun s => (Ok (List.length s), s ++ [df]).

(** The table that a reference names.  A reference of the program
    always names a table; on one that does not, the step raises. *)
Definition get (r : ref) : M DataFrame :=
  fun s =>
    match nth_error s r with
    | Some df => (Ok df, s)
    | None => (Raise TypeError, s)
    end.

(** The table that [r] names is replaced where it stands: every name
    of it sees the new contents. *)
Fixpoint replace (s : t) (r : ref) (df : DataFrame) : t :=
  match s, r with
  | [], _ => []
  | _ :: rest, O => df :: rest
  | d :: rest, S r' => d :: replace rest r' df
  end.

Definition put (r : ref) (df : DataFrame) : M unit :=
  fun s => (Ok tt, replace s r df).

End Store.

Notation "x <~ m ;; k" := (Store.bind m (fun x => k))
  (at level 61, m at next level, right associativity).

(** The pandas operations on a table, on the table that a reference
    names. *)
Module pdStore.

(** [len(data)] *)
Definition len (data : Store.ref) : Store.M Z :=
  df <~ Store.get data ;;
  Store.ret (pd.len df).

(** ['c' in data.columns] *)
Definition has_column (data : Store.ref) (c : string) : Store.M bool :=
  df <~ Store.get data ;;
  Store.ret (has_column df c).

(** [data[c]]: the cells of the column as they are now. *)
Definition getitem (data : Store.ref) (c : string) : Store.M (list cell) :=
  df <~ Store.get data ;;
  Store.lift (pd.getitem df c).

(** [data.dropna(subset=[c])], without [inplace=True]: the result is a
    new table, the table that [data] names stays as it is. *)
Definition dropna (data : Store.ref) (c : string) : Store.M Store.ref :=
  df <~ Store.get data ;;
  dropped <~ Store.lift (pd.dropna df c) ;;
  Store.new dropped.

(** [data.groupby([c1, c2]).size()] *)
Definition groupby_size (data : Store.ref) (c1 c2 : string)
  : Store.M pd.GroupSizes :=
  df <~ Store.get data ;;
  Store.lift (pd.groupby_size df c1 c2).

(** [data[c] = series]: the table that [data] names is changed where
    it stands. *)
Definition setitem (data : Store.ref) (c : string) (series : list cell)
  : Store.M unit :=
  df <~ Store.get data ;;
  Store.put data (CSVDataLoader.setcolumn df c series).

End pdStore.

(** The strategies of [src/src/analyzers.py] once more, line by line,
    on a reference to the table.  A column that [data[c]] takes out of
    the table is only read: [to_numeric], [dropna], [astype], the
    boolean mask, [value_counts], [sort_index], [head], [isna] and
    [sum] all build a new series. *)
Module InStore.

Module PublicationTrendAnalyzer.

Section Scipy.

Variable str_to_num : string -> option num.
Variable float : Type.
Variable linregress : list Z -> list Z -> exc (LinregressResult float).
Variable square : float -> float.
Variable format_2f : float -> string.

(** The first line binds the local name [data] to the table that
    [dropna] returns; the table of the caller is not renamed. *)
Definition analyze (data : Store.ref) : Store.M (TrendResult float) :=
  data <~ pdStore.dropna data "publication date" ;;
  col <~ pdStore.getitem data "publication date" ;;
  years <~ Store.lift
            (pd.astype_int
               (pd.dropna_values (pd.to_numeric str_to_num col))) ;;
  let years := filter (fun y => (1000 <? y) && (y <? 2100)) years in
  let trends := pd.sort_index Z.leb (pd.value_counts Z.eqb years) in
  if negb (empty trends) then
    let x := index trends in
    let y := values trends in
    r <~ Store.lift (linregress x y) ;;
    Store.ret
      {| counts := trends;
         trend_line :=
           Some {| slope := lr_slope r;
                   intercept := lr_intercept r;
                   r_value := lr_rvalue r;
                   description :=
                     "Linear Trend: y = " ++ format_2f (lr_slope r)
                     ++ "x + " ++ format_2f (lr_intercept r)
                     ++ " (R2=" ++ format_2f (square (lr_rvalue r))
                     ++ ")" |} |}
  else Store.ret {| counts := trends; trend_line := None |}.

End Scipy.

End PublicationTrendAnalyzer.

Module AuthorsAnalyzer.

Definition analyze (data : Store.ref) : Store.M (Series cell) :=
  col <~ pdStore.getitem data "author" ;;
  let authors := pd.head 5 (pd.value_counts_cells col) in
  Store.ret authors.

End AuthorsAnalyzer.

Module LanguageDistributionAnalyzer.

Definition analyze (data : Store.ref) : Store.M (Series cell) :=
  col <~ pdStore.getitem data "language" ;;
  let languages := pd.value_counts_cells col in
  Store.ret languages.

End LanguageDistributionAnalyzer.

Module PublisherAnalyzer.

Definition analyze (data : Store.ref) : Store.M (Series cell) :=
  col <~ pdStore.getitem data "book publisher" ;;
  let publishers := pd.value_counts_cells col in
  Store.ret publishers.

End PublisherAnalyzer.

Module MissingISBNAnalyzer.

Definition analyze (data : Store.ref) : Store.M (Series cell) :=
  total <~ pdStore.len data ;;
  col <~ pdStore.getitem data "ISBN" ;;
  let missing_count := pd.isna_sum col in
  let present_count := total - missing_count in
  Store.ret
    [(Str "Missing ISBN", missing_count); (Str "With ISBN", present_count)].

End MissingISBNAnalyzer.

Module LanguageYearAnalyzer.

Definition analyze (data : Store.ref) : Store.M pd.Grid :=
  sizes <~ pdStore.groupby_size data "publication date" "language" ;;
  let grouped := pd.unstack 0 sizes in
  Store.ret grouped.

End LanguageYearAnalyzer.

(** The interface of [src/src/interfaces.py], on a reference. *)
Record IAnalyzer (float : Type) : Type := {
  name : string;
  analyze : Store.ref -> Store.M (AnalysisResult float)
}.

Arguments name {float} _.
Arguments analyze {float} _ _.

Module CSVDataLoader.

(** How [load_data] ends: a reference to the table, or one of the two
    exceptions it raises, with the message. *)
Inductive load_result : Type :=
| Loaded (df : Store.ref)
| FileNotFoundError (message : string)
| LoadException (message : string).

Section Loader.

Variable str_to_num : string -> option num.
Variable read_csv : string -> nat -> CSVDataLoader.read_result.

(** [str(e)], for the message of the second [except] clause. *)
Variable str : exn -> string.

(** [read_csv] makes a new table, which [df] names; the cleaning pass
    then assigns the converted publication dates into that table,
    where it stands. *)
Definition load_data (self : CSVDataLoader.t) (file_path : string)
  (s : Store.t) : load_result * Store.t :=
  match read_csv file_path (CSVDataLoader.limit self) with
  | CSVDataLoader.ReadOk frame =>
      let body :=
        df <~ Store.new frame ;;
        present <~ pdStore.has_column df "publication date" ;;
        if present then
          col <~ pdStore.getitem df "publication date" ;;
          _ <~ pdStore.setitem df "publication date"
                 (map CSVDataLoader.to_cell
                    (pd.to_numeric str_to_num col)) ;;
          Store.ret df
        else Store.ret df in
      match body s with
      | (Ok df, s') => (Loaded df, s')
      | (Raise e, s') =>
          (LoadException ("Error loading data: " ++ str e), s')
      end
  | CSVDataLoader.ReadFileNotFound =>
      (FileNotFoundError ("The file " ++ file_path ++ " was not found."), s)
  | CSVDataLoader.ReadFailed text =>
      (LoadException ("Error loading data: " ++ text), s)
  end.

End Loader.

End CSVDataLoader.

Module CLI.

Section Session.

Variable str_to_num : string -> option num.
Variable float : Type.
Variable linregress : list Z -> list Z -> exc (LinregressResult float).
Variable square : float -> float.
Variable format_2f : float -> string.

Definition publication_trend : IAnalyzer float :=
  {| name := PublicationTrendAnalyzer.name;
     analyze := fun data =>
       r <~ PublicationTrendAnalyzer.analyze
              str_to_num float linregress square format_2f data ;;
       Store.ret (Trend r) |}.

Definition authors : IAnalyzer float :=
  {| name := AuthorsAnalyzer.name;
     analyze := fun data =>
       r <~ AuthorsAnalyzer.analyze data ;; Store.ret (CountSeries r) |}.

Definition language_distribution : IAnalyzer float :=
  {| name := LanguageDistributionAnalyzer.name;
     analyze := fun data =>
       r <~ LanguageDistributionAnalyzer.analyze data ;;
       Store.ret (CountSeries r) |}.

Definition publisher : IAnalyzer float :=
  {| name := PublisherAnalyzer.name;
     analyze := fun data =>
       r <~ PublisherAnalyzer.analyze data ;; Store.ret (CountSeries r) |}.

Definition missing_isbn : IAnalyzer float :=
  {| name := MissingISBNAnalyzer.name;
     analyze := fun data =>
       r <~ MissingISBNAnalyzer.analyze data ;; Store.ret (CountSeries r) |}.

Definition language_year : IAnalyzer float :=
  {| name := LanguageYearAnalyzer.name;
     analyze := fun data =>
       r <~ LanguageYearAnalyzer.analyze data ;; Store.ret (GridResult r) |}.

(** The registrations of [__init__]. *)
Definition analyzers : AnalysisContext.t (IAnalyzer float) :=
  let a := AnalysisContext.init in
  let a := AnalysisContext.register_analyzer a "1" publication_trend in
  let a := AnalysisContext.register_analyzer a "2" authors in
  let a := AnalysisContext.register_analyzer a "3" language_distribution in
  let a := AnalysisContext.register_analyzer a "4" publisher in
  let a := AnalysisContext.register_analyzer a "5" missing_isbn in
  let a := AnalysisContext.register_analyzer a "6" language_year in
  a.

End Session.

End CLI.

End InStore.

(** The store after the strategies [invoked] have run on [data], one
    after the other, whatever each of them returned or raised. *)
Fixpoint store_after {float : Type} (invoked : list (InStore.IAnalyzer float))
  (data : Store.ref) (s : Store.t) : Store.t :=
  match invoked with
  | [] => s
  | analyzer :: rest =>
      store_after rest data (snd (InStore.analyze analyzer data s))
  end.

(** The analyzer is one that [__init__] registers. *)
Definition is_registered {float : Type}
  (analyzers : AnalysisContext.t (InStore.IAnalyzer float))
  (analyzer : InStore.IAnalyzer float) : Prop :=
  exists key, AnalysisContext.get_analyzer analyzers key = Some analyzer.

(** The strategy on a reference does what the strategy on the table
    says: on a store in which [data] names the table [df] it returns
    what [p] returns on [df], and leaves a store that holds the tables
    it held, unchanged, and after them the tables made on the way. *)
Definition refines {float : Type} (a : InStore.IAnalyzer float)
  (p : IAnalyzer float) : Prop :=
  InStore.name a = name p
  /\ forall data df s,
       nth_error s data = Some df ->
       exists made, InStore.analyze a data s = (analyze p df, s ++ made).

(* ================================================================== *)
(** * More vocabulary *)

(** The cell is a number or missing. *)
Definition numeric_or_missing (c : cell) : bool :=
  match c with Str _ => false | _ => true end.

(** The number of rows in which column [c] is present. *)
Definition count_present (df : DataFrame) (c : string) : Z :=
  count_rows (fun r => notna (r c)) df.

(** The number of toggle commands among the lines typed. *)
Definition toggles (inputs : list string) : nat :=
  List.length (filter (fun choice => (lower choice =? "v")%string) inputs).

(** The line is a quit command. *)
Definition is_quit (choice : string) : bool := (lower choice =? "q")%string.

(** The fixture with its rows in reverse order. *)
Definition sample_data_reversed : DataFrame :=
  {| columns := columns sample_data; rows := rev (rows sample_data) |}.

(** A reader that finds one file, holding the fixture, and gives at
    most the rows asked for. *)
Definition read_sample (file_path : string) (nrows : nat)
  : CSVDataLoader.read_result :=
  if (file_path =? "Dataset Books.csv")%string
  then CSVDataLoader.ReadOk
         {| columns := columns sample_data;
            rows := firstn nrows (rows sample_data) |}
  else CSVDataLoader.ReadFileNotFound.

(** A distribution of twelve languages, none of them called 'Other'. *)
Definition twelve_languages : Series cell :=
  [ (Str "English", 12); (Str "Tamil", 11); (Str "French", 10);
    (Str "Spanish", 9); (Str "German", 8); (Str "Hindi", 7);
    (Str "Sinhala", 6); (Str "Arabic", 5); (Str "Latin", 4);
    (Str "Greek", 3); (Str "Dutch", 2); (Str "Malay", 1) ].


(** A session on the fixture, as [run] has it after the load. *)
Definition sample_session : CLI.t unit :=
  {| CLI.file_path := "Dataset Books.csv";
     CLI.analyzers :=
       CLI.analyzers unit
         (CLI.init decimal_str_to_num unit linregress_shape
            (fun r => r) (fun _ => "nan") "Dataset Books.csv");
     CLI.data := Some sample_data;
     CLI.viz_type := "matplotlib" |}.

(** A session on the table with the infinite publication date. *)
Definition infinite_session : CLI.t unit :=
  {| CLI.file_path := "Dataset Books.csv";
     CLI.analyzers := CLI.analyzers unit sample_session;
     CLI.data := Some infinite_date_data;
     CLI.viz_type := "matplotlib" |}.

(* ================================================================== *)
(** * The order of cells *)

Lemma string_compare_refl (s : string) : String.compare s s = Eq.
Proof.
  induction s as [|c s IH]; simpl; [reflexivity|].
  unfold Ascii.compare. now rewrite N.compare_refl.
Qed.

Lemma string_compare_lt_trans (s t u : string) :
  String.compare s t = Lt -> String.compare t u = Lt ->
  String.compare s u = Lt.
Proof.
  revert t u. induction s as [|a s IH]; intros [|b t] [|c u]; simpl;
    try discriminate; try reflexivity.
  unfold Ascii.compare.
  destruct (N.compare (N_of_ascii a) (N_of_ascii b)) eqn:Hab; try discriminate;
    destruct (N.compare (N_of_ascii b) (N_of_ascii c)) eqn:Hbc;
    try discriminate; intros H1 H2.
  - apply N.compare_eq_iff in Hab, Hbc.
    rewrite Hab, Hbc, N.compare_refl. eauto.
  - apply N.compare_eq_iff in Hab. now rewrite Hab, Hbc.
  - apply N.compare_eq_iff in Hbc. now rewrite <- Hbc, Hab.
  - assert (Hac : (N_of_ascii a ?= N_of_ascii c)%N = Lt).
    { apply N.compare_lt_iff.
      apply N.lt_trans with (N_of_ascii b); now apply N.compare_lt_iff. }
    now rewrite Hac.
Qed.

Lemma num_compare_refl (a : num) : num_compare a a = Eq.
Proof. destruct a; simpl; try reflexivity. now apply Qeq_alt. Qed.

Lemma num_compare_antisym (a b : num) :
  num_compare b a = CompOpp (num_compare a b).
Proof.
  destruct a, b; simpl; try reflexivity. symmetry. apply Qcompare_antisym.
Qed.

Lemma num_compare_lt_trans (a b c : num) :
  num_compare a b = Lt -> num_compare b c = Lt -> num_compare a c = Lt.
Proof.
  destruct a, b, c; simpl; try discriminate; try reflexivity.
  rewrite <- !Qlt_alt. apply Qlt_trans.
Qed.

Lemma num_compare_eq_l (a b c : num) :
  num_compare a b = Eq -> num_compare a c = num_compare b c.
Proof.
  destruct a, b, c; simpl; try discriminate; try reflexivity.
  intros H. apply Qeq_alt in H. now rewrite H.
Qed.

Lemma cell_compare_refl (a : cell) : cell_compare a a = Eq.
Proof.
  destruct a; simpl; auto using num_compare_refl, string_compare_refl.
Qed.

Lemma cell_compare_antisym (a b : cell) :
  cell_compare b a = CompOpp (cell_compare a b).
Proof.
  destruct a, b; simpl; try reflexivity.
  - apply num_compare_antisym.
  - apply String.compare_antisym.
Qed.

Lemma cell_compare_lt_trans (a b c : cell) :
  cell_compare a b = Lt -> cell_compare b c = Lt -> cell_compare a c = Lt.
Proof.
  destruct a, b, c; simpl; try discriminate; try reflexivity.
  - apply num_compare_lt_trans.
  - apply string_compare_lt_trans.
Qed.

Lemma cell_compare_eq_l (a b c : cell) :
  cell_compare a b = Eq -> cell_compare a c = cell_compare b c.
Proof.
  destruct a, b, c; simpl; try discriminate; try reflexivity.
  - apply num_compare_eq_l.
  - intros H. apply String.compare_eq_iff in H. now subst.
Qed.

Lemma cell_compare_eq_r (a b c : cell) :
  cell_compare a b = Eq -> cell_compare c a = cell_compare c b.
Proof.
  intros H. rewrite (cell_compare_antisym a c), (cell_compare_antisym b c).
  f_equal. now apply cell_compare_eq_l.
Qed.

(** A missing value is equal only to a missing value. *)
Lemma cell_compare_eq_isna (a b : cell) :
  cell_compare a b = Eq -> isna a = isna b.
Proof. destruct a, b; simpl; try discriminate; reflexivity. Qed.

Lemma cell_eqb_refl (a : cell) : cell_eqb a a = true.
Proof. unfold cell_eqb. now rewrite cell_compare_refl. Qed.

Lemma cell_eqb_sym (a b : cell) : cell_eqb a b = cell_eqb b a.
Proof.
  unfold cell_eqb. rewrite (cell_compare_antisym a b).
  now destruct (cell_compare a b).
Qed.

Lemma cell_eqb_true (a b : cell) :
  cell_eqb a b = true <-> cell_compare a b = Eq.
Proof. unfold cell_eqb. destruct (cell_compare a b); split; congruence. Qed.

Lemma cell_eqb_trans (a b c : cell) :
  cell_eqb a b = true -> cell_eqb b c = true -> cell_eqb a c = true.
Proof.
  rewrite !cell_eqb_true. intros H1 H2.
  now rewrite (cell_compare_eq_l a b c H1).
Qed.

Lemma pair_compare_refl (a : cell * cell) : pair_compare a a = Eq.
Proof. unfold pair_compare. now rewrite !cell_compare_refl. Qed.

Lemma pair_compare_eq (a b : cell * cell) :
  pair_compare a b = Eq <->
  cell_compare (fst a) (fst b) = Eq /\ cell_compare (snd a) (snd b) = Eq.
Proof.
  unfold pair_compare.
  destruct (cell_compare (fst a) (fst b)); split;
    try (intros [? ?]); try intros ?; try discriminate; auto.
Qed.

Lemma pair_compare_eq_l (a b c : cell * cell) :
  pair_compare a b = Eq -> pair_compare a c = pair_compare b c.
Proof.
  intros H. apply pair_compare_eq in H. destruct H as [H1 H2].
  unfold pair_compare.
  rewrite (cell_compare_eq_l _ _ (fst c) H1).
  now rewrite (cell_compare_eq_l _ _ (snd c) H2).
Qed.

Lemma pair_eqb_true (a b : cell * cell) :
  pair_eqb a b = true <-> pair_compare a b = Eq.
Proof. unfold pair_eqb. destruct (pair_compare a b); split; congruence. Qed.

Lemma pair_eqb_cells (a b : cell * cell) :
  pair_eqb a b = cell_eqb (fst a) (fst b) && cell_eqb (snd a) (snd b).
Proof.
  unfold pair_eqb, pair_compare, cell_eqb.
  destruct (cell_compare (fst a) (fst b)); reflexivity.
Qed.

Lemma pair_eqb_refl (a : cell * cell) : pair_eqb a a = true.
Proof. apply pair_eqb_true, pair_compare_refl. Qed.

Lemma pair_eqb_sym (a b : cell * cell) : pair_eqb a b = pair_eqb b a.
Proof.
  rewrite !pair_eqb_cells.
  now rewrite (cell_eqb_sym (fst a)), (cell_eqb_sym (snd a)).
Qed.

Lemma pair_eqb_trans (a b c : cell * cell) :
  pair_eqb a b = true -> pair_eqb b c = true -> pair_eqb a c = true.
Proof.
  rewrite !pair_eqb_true. intros H1 H2.
  now rewrite (pair_compare_eq_l a b c H1).
Qed.

(* ================================================================== *)
(** * Counting *)

Lemma sum_app (l1 l2 : list Z) : sum (l1 ++ l2) = sum l1 + sum l2.
Proof. induction l1 as [|a l1 IH]; simpl; lia. Qed.

Lemma StronglySorted_and {A : Type} (R1 R2 : A -> A -> Prop) (l : list A) :
  StronglySorted R1 l -> StronglySorted R2 l ->
  StronglySorted (fun a b => R1 a b /\ R2 a b) l.
Proof.
  induction l as [|a l IH]; intros H1 H2; constructor;
    inversion H1; inversion H2; subst; auto.
  rewrite Forall_forall in *. auto.
Qed.

Lemma StronglySorted_impl {A : Type} (R1 R2 : A -> A -> Prop) (l : list A) :
  (forall a b, R1 a b -> R2 a b) ->
  StronglySorted R1 l -> StronglySorted R2 l.
Proof.
  intros HR. induction 1 as [|a l Hs IH Hf]; constructor; auto.
  eapply Forall_impl; [|exact Hf]. auto.
Qed.

Lemma StronglySorted_map {A B : Type} (f : A -> B) (R : B -> B -> Prop)
  (l : list A) :
  StronglySorted (fun a b => R (f a) (f b)) l -> StronglySorted R (map f l).
Proof.
  induction 1 as [|a l Hs IH Hf]; simpl; constructor; auto.
  rewrite Forall_forall in *. intros y Hy.
  apply in_map_iff in Hy. destruct Hy as [x [<- Hx]]. auto.
Qed.

Lemma StronglySorted_perm_sym {A : Type} (R : A -> A -> Prop) (l l' : list A) :
  (forall a b, R a b -> R b a) ->
  Permutation l l' -> StronglySorted R l -> StronglySorted R l'.
Proof.
  intros Hsym. induction 1 as [|x l l' Hp IH|x y l|l l' l'' H1 IH1 H2 IH2];
    intros Hs; auto.
  - inversion Hs; subst. constructor; auto.
    eapply Permutation_Forall; eassumption.
  - inversion Hs as [|? ? Hs' Hf]; subst.
    inversion Hs' as [|? ? Hs'' Hf']; subst.
    inversion Hf; subst.
    repeat constructor; auto.
Qed.

Lemma In_firstn {A : Type} (n : nat) (l : list A) (x : A) :
  In x (firstn n l) -> In x l.
Proof.
  intros H. rewrite <- (firstn_skipn n l). apply in_or_app. now left.
Qed.

Lemma StronglySorted_firstn {A : Type} (R : A -> A -> Prop) (n : nat)
  (l : list A) :
  StronglySorted R l -> StronglySorted R (firstn n l).
Proof.
  revert l. induction n as [|n IH]; intros [|a l] Hs; simpl;
    try constructor.
  - inversion Hs; subst. auto.
  - inversion Hs; subst. rewrite Forall_forall in *.
    intros y Hy. eauto using In_firstn.
Qed.

Section CountingFacts.

Context {K : Type}.
Variable eqb : K -> K -> bool.
Hypothesis eqb_refl : forall a, eqb a a = true.
Hypothesis eqb_sym : forall a b, eqb a b = eqb b a.
Hypothesis eqb_trans :
  forall a b c, eqb a b = true -> eqb b c = true -> eqb a c = true.

Lemma eqb_congr_l (a b c : K) : eqb a b = true -> eqb a c = eqb b c.
Proof.
  intros H. destruct (eqb b c) eqn:E.
  - eauto.
  - destruct (eqb a c) eqn:E'; [|reflexivity].
    rewrite <- E. symmetry. apply eqb_trans with a; [|assumption].
    now rewrite eqb_sym.
Qed.

Lemma total_cons (k : K) (e : K * Z) (s : Series K) :
  total eqb k (e :: s) = (if eqb (fst e) k then snd e else 0) + total eqb k s.
Proof. unfold total, values. simpl. destruct (eqb (fst e) k); simpl; lia. Qed.

Lemma total_bump (k x : K) (s : Series K) :
  total eqb k (pd.bump eqb x s) = total eqb k s + (if eqb x k then 1 else 0).
Proof.
  induction s as [|[k' n] s IH]; simpl.
  - rewrite total_cons. unfold total; simpl. destruct (eqb x k); lia.
  - destruct (eqb k' x) eqn:E.
    + rewrite !total_cons; simpl.
      rewrite (eqb_congr_l k' x k E). destruct (eqb x k); lia.
    + rewrite !total_cons, IH; simpl. lia.
Qed.

Lemma occurrences_cons (k x : K) (xs : list K) :
  occurrences eqb k (x :: xs) =
  (if eqb x k then 1 else 0) + occurrences eqb k xs.
Proof.
  unfold occurrences; simpl. destruct (eqb x k); simpl List.length; lia.
Qed.

Lemma occurrences_nonneg (k : K) (xs : list K) : 0 <= occurrences eqb k xs.
Proof. unfold occurrences. lia. Qed.

Lemma total_fold_bump (k : K) (xs : list K) (acc : Series K) :
  total eqb k (fold_left (fun a x => pd.bump eqb x a) xs acc) =
  total eqb k acc + occurrences eqb k xs.
Proof.
  revert acc. induction xs as [|x xs IH]; intros acc; simpl.
  - unfold occurrences; simpl. lia.
  - rewrite IH, total_bump, occurrences_cons. lia.
Qed.

Lemma total_tally (k : K) (xs : list K) :
  total eqb k (pd.tally eqb xs) = occurrences eqb k xs.
Proof. unfold pd.tally. rewrite total_fold_bump. reflexivity. Qed.

Lemma bump_keys (P : K -> Prop) (x : K) (s : Series K) :
  P x -> Forall (fun e => P (fst e)) s ->
  Forall (fun e => P (fst e)) (pd.bump eqb x s).
Proof.
  intros Hx. induction 1 as [|[k' n] s Hk Hs IH]; simpl.
  - repeat constructor. exact Hx.
  - destruct (eqb k' x); constructor; auto.
Qed.

Lemma bump_distinct (x : K) (s : Series K) :
  distinct_keys eqb s -> distinct_keys eqb (pd.bump eqb x s).
Proof.
  unfold distinct_keys. induction 1 as [|[k' n] s Hs IH Hf]; simpl.
  - repeat constructor.
  - destruct (eqb k' x) eqn:E.
    + constructor; auto.
    + constructor; auto.
      apply (bump_keys (fun k => eqb k' k = false)); assumption.
Qed.

Lemma tally_distinct (xs : list K) : distinct_keys eqb (pd.tally eqb xs).
Proof.
  unfold pd.tally.
  assert (H : distinct_keys eqb (@nil (K * Z))) by constructor.
  revert H. generalize (@nil (K * Z)).
  induction xs as [|x xs IH]; intros acc Hacc; simpl; auto.
  apply IH, bump_distinct, Hacc.
Qed.

Lemma bump_positive (x : K) (s : Series K) :
  Forall (fun e => 0 < snd e) s ->
  Forall (fun e => 0 < snd e) (pd.bump eqb x s).
Proof.
  induction 1 as [|[k' n] s Hk Hs IH]; simpl.
  - repeat constructor.
  - simpl in Hk. destruct (eqb k' x); constructor; simpl; auto; lia.
Qed.

Lemma tally_positive (xs : list K) :
  Forall (fun e => 0 < snd e) (pd.tally eqb xs).
Proof.
  unfold pd.tally.
  assert (H : Forall (fun e : K * Z => 0 < snd e) []) by constructor.
  revert H. generalize (@nil (K * Z)).
  induction xs as [|x xs IH]; intros acc Hacc; simpl; auto.
  apply IH, bump_positive, Hacc.
Qed.

Lemma total_absent (k : K) (s : Series K) :
  Forall (fun e => eqb k (fst e) = false) s -> total eqb k s = 0.
Proof.
  induction 1 as [|e s He Hs IH].
  - reflexivity.
  - rewrite total_cons, IH. rewrite eqb_sym, He. reflexivity.
Qed.

(** In a series with distinct keys the count stored for a key is the
    total for that key. *)
Lemma total_distinct (k : K) (n : Z) (s : Series K) :
  distinct_keys eqb s -> In (k, n) s -> total eqb k s = n.
Proof.
  unfold distinct_keys. induction 1 as [|e s Hs IH Hf]; intros Hin.
  - contradiction.
  - rewrite total_cons. destruct Hin as [->|Hin]; simpl.
    + rewrite eqb_refl, total_absent; [lia | exact Hf].
    + rewrite Forall_forall in Hf. specialize (Hf _ Hin). simpl in Hf.
      rewrite Hf, IH by assumption. lia.
Qed.

Lemma distinct_perm (s s' : Series K) :
  Permutation s s' -> distinct_keys eqb s -> distinct_keys eqb s'.
Proof.
  apply StronglySorted_perm_sym. intros a b H. now rewrite eqb_sym.
Qed.

(** A key with a positive total has an entry. *)
Lemma total_positive_entry (k : K) (s : Series K) :
  0 < total eqb k s -> exists e, In e s /\ eqb (fst e) k = true.
Proof.
  induction s as [|e s IH]; intros H.
  - unfold total in H; simpl in H. lia.
  - rewrite total_cons in H. destruct (eqb (fst e) k) eqn:E.
    + exists e. split; [now left | exact E].
    + destruct IH as [e' [Hin He']]; [lia|].
      exists e'. split; [now right | exact He'].
Qed.

Lemma occurrences_positive (k : K) (xs : list K) :
  0 < occurrences eqb k xs <-> exists x, In x xs /\ eqb x k = true.
Proof.
  unfold occurrences. split.
  - intros H. destruct (filter (fun x => eqb x k) xs) as [|x l] eqn:E.
    + simpl in H. lia.
    + assert (Hin : In x (filter (fun x => eqb x k) xs))
        by (rewrite E; now left).
      apply filter_In in Hin. exists x. exact Hin.
  - intros [x [Hin Hx]].
    assert (Hf : In x (filter (fun x => eqb x k) xs))
      by (apply filter_In; auto).
    destruct (filter (fun x => eqb x k) xs); [contradiction|].
    simpl List.length. lia.
Qed.

End CountingFacts.

(* ================================================================== *)
(** * Order of appearance *)

Lemma before_nil {A : Type} (a b : A) : ~ before a b [].
Proof. intros [l1 [l2 [l3 H]]]. destruct l1; discriminate. Qed.

Lemma before_cons {A : Type} (a b x : A) (l : list A) :
  before a b (x :: l) <-> (a = x /\ In b l) \/ before a b l.
Proof.
  split.
  - intros [l1 [l2 [l3 H]]]. destruct l1 as [|y l1]; simpl in H.
    + injection H as -> ->. left. split; [reflexivity|].
      apply in_or_app. right. now left.
    + injection H as -> ->. right. now exists l1, l2, l3.
  - intros [[-> Hin]|[l1 [l2 [l3 ->]]]].
    + apply in_split in Hin. destruct Hin as [l2 [l3 ->]].
      now exists [], l2, l3.
    + now exists (x :: l1), l2, l3.
Qed.

Lemma before_In_l {A : Type} (a b : A) (l : list A) : before a b l -> In a l.
Proof.
  intros [l1 [l2 [l3 ->]]]. apply in_or_app. right. now left.
Qed.

Lemma before_In_r {A : Type} (a b : A) (l : list A) : before a b l -> In b l.
Proof.
  intros [l1 [l2 [l3 ->]]]. apply in_or_app. right. right.
  apply in_or_app. right. now left.
Qed.

Lemma before_app_l {A : Type} (a b : A) (l l' : list A) :
  before a b l -> before a b (l ++ l').
Proof.
  intros [l1 [l2 [l3 ->]]]. exists l1, l2, (l3 ++ l').
  now rewrite <- !app_assoc, <- !app_comm_cons, <- app_assoc.
Qed.

Lemma before_snoc {A : Type} (a b x : A) (l : list A) :
  before a b (l ++ [x]) -> before a b l \/ (b = x /\ In a l).
Proof.
  induction l as [|y l IH]; simpl; intros H.
  - apply before_cons in H. destruct H as [[_ []]|H].
    now apply before_nil in H.
  - apply before_cons in H. destruct H as [[-> Hin]|H].
    + apply in_app_or in Hin. destruct Hin as [Hin|[<-|[]]].
      * left. apply before_cons. now left.
      * right. split; [reflexivity | now left].
    + destruct (IH H) as [Hb|[-> Hin]].
      * left. apply before_cons. now right.
      * right. split; [reflexivity | now right].
Qed.

Lemma before_map {A B : Type} (f : A -> B) (a b : A) (l : list A) :
  before a b l -> before (f a) (f b) (map f l).
Proof.
  intros [l1 [l2 [l3 ->]]]. exists (map f l1), (map f l2), (map f l3).
  now rewrite map_app, map_cons, map_app, map_cons.
Qed.

Lemma before_firstn {A : Type} (n : nat) (a b : A) (l : list A) :
  before a b (firstn n l) -> before a b l.
Proof.
  intros H. rewrite <- (firstn_skipn n l). now apply before_app_l.
Qed.

Lemma before_filter {A : Type} (p : A -> bool) (a b : A) (l : list A) :
  p a = true -> p b = true -> before a b l -> before a b (filter p l).
Proof.
  intros Ha Hb [l1 [l2 [l3 ->]]].
  exists (filter p l1), (filter p l2), (filter p l3).
  rewrite filter_app; simpl. rewrite Ha, filter_app; simpl. now rewrite Hb.
Qed.

Lemma before_of_filter {A : Type} (p : A -> bool) (a b : A) (l : list A) :
  before a b (filter p l) -> before a b l.
Proof.
  induction l as [|x l IH]; simpl; intros H.
  - exact H.
  - apply before_cons. destruct (p x).
    + apply before_cons in H. destruct H as [[-> Hin]|H].
      * left. split; [reflexivity|]. apply filter_In in Hin. tauto.
      * right. auto.
    + right. auto.
Qed.

Section SortingFacts.

Context {A : Type}.
Variable leb : A -> A -> bool.

Lemma insert_perm (x : A) (l : list A) :
  Permutation (pd.insert leb x l) (x :: l).
Proof.
  induction l as [|y l IH]; simpl.
  - apply Permutation_refl.
  - destruct (leb x y).
    + apply Permutation_refl.
    + eapply perm_trans; [apply perm_skip, IH | apply perm_swap].
Qed.

Lemma sort_perm (l : list A) : Permutation (pd.sort leb l) l.
Proof.
  induction l as [|x l IH]; simpl.
  - constructor.
  - eapply perm_trans; [apply insert_perm | now apply perm_skip].
Qed.

(** Insertion leaves every class of mutually ordered elements in its
    order. *)
Lemma filter_insert (p : A -> bool) (x : A) (l : list A) :
  (forall y, p x = true -> p y = true -> leb x y = true) ->
  filter p (pd.insert leb x l) =
  if p x then x :: filter p l else filter p l.
Proof.
  intros H. induction l as [|y l IH]; simpl.
  - reflexivity.
  - destruct (leb x y) eqn:E; simpl.
    + reflexivity.
    + rewrite IH. destruct (p x) eqn:Hx, (p y) eqn:Hy; try reflexivity.
      rewrite (H y) in E by auto. discriminate.
Qed.

Lemma filter_sort (p : A -> bool) (l : list A) :
  (forall x y, p x = true -> p y = true -> leb x y = true) ->
  filter p (pd.sort leb l) = filter p l.
Proof.
  intros H. induction l as [|x l IH]; simpl.
  - reflexivity.
  - rewrite filter_insert by (intros y; apply H). now rewrite IH.
Qed.

Hypothesis leb_total : forall a b, leb a b = true \/ leb b a = true.
Hypothesis leb_trans :
  forall a b c, leb a b = true -> leb b c = true -> leb a c = true.

Lemma insert_sorted (x : A) (l : list A) :
  StronglySorted (fun a b => leb a b = true) l ->
  StronglySorted (fun a b => leb a b = true) (pd.insert leb x l).
Proof.
  induction 1 as [|y l Hs IH Hf]; simpl.
  - repeat constructor.
  - destruct (leb x y) eqn:E.
    + constructor; [now constructor|].
      constructor; [exact E|].
      eapply Forall_impl; [|exact Hf]. intros z Hz. eauto.
    + constructor; [exact IH|].
      apply (Permutation_Forall (Permutation_sym (insert_perm x l))).
      constructor; [|exact Hf].
      destruct (leb_total x y) as [H|H]; congruence.
Qed.

Lemma sort_sorted (l : list A) :
  StronglySorted (fun a b => leb a b = true) (pd.sort leb l).
Proof.
  induction l as [|x l IH]; simpl.
  - constructor.
  - now apply insert_sorted.
Qed.

End SortingFacts.

(* ================================================================== *)
(** * [tally] and [value_counts] *)

Section ValueCountsFacts.

Context {K : Type}.
Variable eqb : K -> K -> bool.
Hypothesis eqb_refl : forall a, eqb a a = true.
Hypothesis eqb_sym : forall a b, eqb a b = eqb b a.
Hypothesis eqb_trans :
  forall a b c, eqb a b = true -> eqb b c = true -> eqb a c = true.

Lemma met_before_app_l (k1 k2 : K) (xs ys : list K) :
  met_before eqb k1 k2 xs = true -> met_before eqb k1 k2 (xs ++ ys) = true.
Proof.
  induction xs as [|x xs IH]; simpl; [discriminate|].
  destruct (eqb x k2); [discriminate|]. destruct (eqb x k1); auto.
Qed.

Lemma met_before_intro (k1 k2 : K) (xs ys : list K) :
  (forall y, In y xs -> eqb y k2 = false) ->
  (exists y, In y xs /\ eqb y k1 = true) ->
  met_before eqb k1 k2 (xs ++ ys) = true.
Proof.
  induction xs as [|x xs IH]; intros Hno [y [Hin Hy]]; [contradiction|].
  simpl. rewrite (Hno x) by now left.
  destruct (eqb x k1) eqn:E; [reflexivity|].
  apply IH.
  - intros z Hz. apply Hno. now right.
  - destruct Hin as [->|Hin]; [congruence|]. now exists y.
Qed.

Lemma bump_index (x : K) (s : Series K) :
  index (pd.bump eqb x s) =
  if existsb (fun k => eqb k x) (index s) then index s else index s ++ [x].
Proof.
  unfold index. induction s as [|[k n] s IH]; simpl.
  - reflexivity.
  - destruct (eqb k x); simpl; [reflexivity|].
    rewrite IH. now destruct (existsb _ _).
Qed.

Lemma tally_snoc (xs : list K) (x : K) :
  pd.tally eqb (xs ++ [x]) = pd.bump eqb x (pd.tally eqb xs).
Proof. unfold pd.tally. now rewrite fold_left_app. Qed.

Lemma tally_In (k : K) (n : Z) (xs : list K) :
  In (k, n) (pd.tally eqb xs) -> n = occurrences eqb k xs /\ 0 < n.
Proof.
  intros Hin. split.
  - rewrite <- (total_tally eqb eqb_sym eqb_trans k xs).
    symmetry. apply (total_distinct eqb eqb_refl eqb_sym); [|exact Hin].
    apply tally_distinct.
  - pose proof (tally_positive eqb xs) as Hp.
    rewrite Forall_forall in Hp. exact (Hp _ Hin).
Qed.

Lemma tally_key_occurs (k : K) (xs : list K) :
  In k (index (pd.tally eqb xs)) -> exists y, In y xs /\ eqb y k = true.
Proof.
  unfold index. intros Hin. apply in_map_iff in Hin.
  destruct Hin as [[k' n] [<- Hin]]. simpl.
  apply tally_In in Hin. destruct Hin as [-> Hpos].
  now apply occurrences_positive in Hpos.
Qed.

Lemma tally_has_key (y : K) (xs : list K) :
  In y xs -> exists e, In e (pd.tally eqb xs) /\ eqb (fst e) y = true.
Proof.
  intros Hin. apply total_positive_entry.
  rewrite (total_tally eqb eqb_sym eqb_trans).
  apply occurrences_positive. exists y. auto.
Qed.

(** The keys of a tally stand in the order in which they are first
    met. *)
Lemma tally_order (k1 k2 : K) (xs : list K) :
  before k1 k2 (index (pd.tally eqb xs)) -> met_before eqb k1 k2 xs = true.
Proof.
  induction xs as [|x xs IH] using rev_ind; intros Hb.
  - now apply before_nil in Hb.
  - rewrite tally_snoc, bump_index in Hb.
    destruct (existsb (fun k => eqb k x) (index (pd.tally eqb xs))) eqn:E.
    + apply met_before_app_l. auto.
    + apply before_snoc in Hb. destruct Hb as [Hb|[-> Hin]].
      * apply met_before_app_l. auto.
      * apply met_before_intro.
        -- intros y Hy. destruct (eqb y x) eqn:Eyx; [|reflexivity].
           destruct (tally_has_key y xs Hy) as [e [He Hey]].
           assert (Hex : existsb (fun k => eqb k x)
                           (index (pd.tally eqb xs)) = true).
           { apply existsb_exists. exists (fst e). split.
             - unfold index. now apply in_map.
             - eauto. }
           congruence.
        -- now apply tally_key_occurs.
Qed.

Lemma value_counts_perm (xs : list K) :
  Permutation (pd.value_counts eqb xs) (pd.tally eqb xs).
Proof. apply sort_perm. Qed.

Lemma value_counts_In (k : K) (n : Z) (xs : list K) :
  In (k, n) (pd.value_counts eqb xs) -> n = occurrences eqb k xs /\ 0 < n.
Proof.
  intros Hin. apply tally_In.
  eapply Permutation_in; [apply value_counts_perm | exact Hin].
Qed.

Lemma value_counts_distinct (xs : list K) :
  distinct_keys eqb (pd.value_counts eqb xs).
Proof.
  apply (distinct_perm eqb eqb_sym (pd.tally eqb xs)).
  - apply Permutation_sym, value_counts_perm.
  - apply tally_distinct.
Qed.

Lemma value_counts_has_key (y : K) (xs : list K) :
  In y xs ->
  exists e, In e (pd.value_counts eqb xs) /\ eqb (fst e) y = true.
Proof.
  intros Hin. destruct (tally_has_key y xs Hin) as [e [He Hey]].
  exists e. split; [|exact Hey].
  eapply Permutation_in; [apply Permutation_sym, value_counts_perm|exact He].
Qed.

Lemma value_counts_non_increasing (xs : list K) :
  non_increasing (values (pd.value_counts eqb xs)).
Proof.
  unfold non_increasing, values. apply StronglySorted_map.
  eapply StronglySorted_impl;
    [|apply (sort_sorted (fun a b : K * Z => snd b <=? snd a))].
  - intros a b H. simpl in H. lia.
  - intros a b. lia.
  - intros a b c. lia.
Qed.

(** Entries with the same count stand in the order in which their keys
    are first met. *)
Lemma value_counts_ties (a b : K * Z) (xs : list K) :
  before a b (pd.value_counts eqb xs) -> snd a = snd b ->
  met_before eqb (fst a) (fst b) xs = true.
Proof.
  intros Hb Hc. apply tally_order. unfold index. apply before_map.
  apply (before_of_filter (fun e => snd e =? snd a)).
  rewrite <- (filter_sort (fun x y : K * Z => snd y <=? snd x)).
  - apply before_filter; [lia | lia | exact Hb].
  - intros x y Hx Hy. lia.
Qed.

End ValueCountsFacts.

(* ================================================================== *)
(** * Columns of cells *)

Lemma getitem_column (df : DataFrame) (c : string) :
  has_column df c = true -> pd.getitem df c = Ok (column df c).
Proof. intros H. unfold pd.getitem. now rewrite H. Qed.

Lemma existsb_column (p : cell -> bool) (df : DataFrame) (c : string) :
  existsb p (column df c) = existsb (fun r : row => p (r c)) (rows df).
Proof.
  unfold column. induction (rows df) as [|r l IH]; simpl; [reflexivity|].
  now rewrite IH.
Qed.

Lemma cell_eqb_notna (a b : cell) :
  cell_eqb a b = true -> notna b = true -> notna a = true.
Proof.
  intros H Hb. apply cell_eqb_true, cell_compare_eq_isna in H.
  unfold notna in *. now rewrite H.
Qed.

Lemma occurrences_notna (k : cell) (col : list cell) :
  notna k = true ->
  occurrences cell_eqb k (filter notna col) = occurrences cell_eqb k col.
Proof.
  intros Hk. unfold occurrences. do 2 f_equal.
  induction col as [|x col IH]; simpl; [reflexivity|].
  destruct (notna x) eqn:Ex; simpl.
  - now rewrite IH.
  - destruct (cell_eqb x k) eqn:E; [|exact IH].
    rewrite (cell_eqb_notna x k E Hk) in Ex. discriminate.
Qed.

Lemma met_before_notna (k1 k2 : cell) (col : list cell) :
  notna k1 = true -> notna k2 = true ->
  met_before cell_eqb k1 k2 (filter notna col) =
  met_before cell_eqb k1 k2 col.
Proof.
  intros H1 H2. induction col as [|x col IH]; simpl; [reflexivity|].
  destruct (notna x) eqn:Ex; simpl.
  - now rewrite IH.
  - destruct (cell_eqb x k2) eqn:E2.
    + rewrite (cell_eqb_notna x k2 E2 H2) in Ex. discriminate.
    + destruct (cell_eqb x k1) eqn:E1; [|exact IH].
      rewrite (cell_eqb_notna x k1 E1 H1) in Ex. discriminate.
Qed.

Lemma occurrences_congr (a b : cell) (col : list cell) :
  cell_eqb a b = true ->
  occurrences cell_eqb a col = occurrences cell_eqb b col.
Proof.
  intros H. unfold occurrences. do 2 f_equal. apply filter_ext.
  intros x. rewrite (cell_eqb_sym x a), (cell_eqb_sym x b).
  now apply (eqb_congr_l cell_eqb cell_eqb_sym cell_eqb_trans).
Qed.

Lemma value_counts_cells_In (k : cell) (n : Z) (col : list cell) :
  In (k, n) (pd.value_counts_cells col) ->
  notna k = true /\ 0 < n /\ n = occurrences cell_eqb k col.
Proof.
  unfold pd.value_counts_cells. intros Hin.
  apply (value_counts_In cell_eqb cell_eqb_refl cell_eqb_sym cell_eqb_trans)
    in Hin.
  destruct Hin as [Hn Hpos].
  assert (Hk : notna k = true).
  { rewrite Hn in Hpos. apply occurrences_positive in Hpos.
    destruct Hpos as [x [Hx Hxk]]. apply filter_In in Hx.
    apply cell_eqb_notna with x; [now rewrite cell_eqb_sym | tauto]. }
  rewrite occurrences_notna in Hn by exact Hk. auto.
Qed.

Lemma StronglySorted_app_inv {A : Type} (R : A -> A -> Prop)
  (l1 l2 : list A) (a b : A) :
  StronglySorted R (l1 ++ l2) -> In a l1 -> In b l2 -> R a b.
Proof.
  induction l1 as [|x l1 IH]; simpl; intros Hs Ha Hb; [contradiction|].
  inversion Hs as [|? ? Hs' Hf]; subst. destruct Ha as [->|Ha].
  - rewrite Forall_forall in Hf. apply Hf, in_or_app. now right.
  - auto.
Qed.

(* ================================================================== *)
(** * Missing-ISBN Ratio *)

(** C3: on every table that has an 'ISBN' column the Missing-ISBN Ratio
    strategy returns the two entries "Missing ISBN" and "With ISBN", in
    that order; the first is the number of rows whose ISBN is missing,
    the second the number of rows whose ISBN is present, and the two
    add up to the number of rows. *)
Theorem missing_isbn_ratio (df : DataFrame) :
  has_column df "ISBN" = true ->
  MissingISBNAnalyzer.analyze df =
    Ok [(Str "Missing ISBN", count_rows (fun r => isna (r "ISBN")) df);
        (Str "With ISBN", count_rows (fun r => notna (r "ISBN")) df)]
  /\ count_rows (fun r => isna (r "ISBN")) df
     + count_rows (fun r => notna (r "ISBN")) df
     = Z.of_nat (List.length (rows df)).
Proof.
  intros Hcol.
  assert (Hsum : count_rows (fun r => isna (r "ISBN")) df
                 + count_rows (fun r => notna (r "ISBN")) df
                 = Z.of_nat (List.length (rows df))).
  { unfold count_rows, notna.
    rewrite <- (filter_length (fun r : row => isna (r "ISBN")) (rows df)).
    lia. }
  split; [|exact Hsum].
  unfold MissingISBNAnalyzer.analyze.
  rewrite (getitem_column df "ISBN" Hcol). simpl.
  assert (Hm : pd.isna_sum (column df "ISBN")
               = count_rows (fun r => isna (r "ISBN")) df).
  { unfold pd.isna_sum, count_rows, column.
    now rewrite filter_map_swap, length_map. }
  rewrite Hm.
  replace (pd.len df - count_rows (fun r => isna (r "ISBN")) df)
    with (count_rows (fun r => notna (r "ISBN")) df)
    by (unfold pd.len; lia).
  reflexivity.
Qed.

Lemma missing_isbn_ratio_witness :
  has_column sample_data "ISBN" = true
  /\ MissingISBNAnalyzer.analyze sample_data =
       Ok [(Str "Missing ISBN", 2); (Str "With ISBN", 6)].
Proof.
  split; [reflexivity|].
  exact (proj1 (missing_isbn_ratio sample_data eq_refl)).
Defined.

(* ================================================================== *)
(** * Top Authors *)

(** C5: on every table that has an 'author' column the Top Authors
    strategy returns at most 5 entries with distinct authors; the count
    of an entry is the number of rows with that author; the counts never
    go up along the series; of two entries with the same count the one
    whose author is met first in the column stands first; and an author
    that is left out has no more rows than any author that is kept. *)
Theorem top_authors (df : DataFrame) :
  has_column df "author" = true ->
  exists res,
    AuthorsAnalyzer.analyze df = Ok res
    /\ (List.length res <= 5)%nat
    /\ distinct_keys cell_eqb res
    /\ (forall k n, In (k, n) res ->
          notna k = true /\ 0 < n
          /\ n = occurrences cell_eqb k (column df "author"))
    /\ non_increasing (values res)
    /\ (forall a b, before a b res -> snd a = snd b ->
          met_before cell_eqb (fst a) (fst b) (column df "author") = true)
    /\ (forall k, notna k = true ->
          0 < occurrences cell_eqb k (column df "author") ->
          (exists e, In e res /\ cell_eqb (fst e) k = true)
          \/ (List.length res = 5%nat
              /\ forall e, In e res ->
                   occurrences cell_eqb k (column df "author") <= snd e)).
Proof.
  intros Hcol. unfold AuthorsAnalyzer.analyze.
  rewrite (getitem_column df "author" Hcol). simpl.
  set (col := column df "author").
  set (vc := pd.value_counts_cells col).
  exists (pd.head 5 vc). unfold pd.head.
  assert (Hni : non_increasing (values vc)).
  { apply value_counts_non_increasing. }
  split; [reflexivity|].
  split; [apply firstn_le_length|].
  split.
  { apply StronglySorted_firstn.
    apply (value_counts_distinct cell_eqb cell_eqb_sym). }
  split.
  { intros k n Hin. apply value_counts_cells_In. eapply In_firstn, Hin. }
  split.
  { unfold non_increasing, values in *. rewrite <- firstn_map.
    now apply StronglySorted_firstn. }
  split.
  { intros a b Hb Hc. apply before_firstn in Hb.
    assert (Ha : notna (fst a) = true).
    { destruct a as [k n]. apply before_In_l in Hb.
      now apply value_counts_cells_In in Hb. }
    assert (Hb' : notna (fst b) = true).
    { destruct b as [k n]. apply before_In_r in Hb.
      now apply value_counts_cells_In in Hb. }
    rewrite <- (met_before_notna _ _ col Ha Hb').
    now apply (value_counts_ties cell_eqb cell_eqb_refl cell_eqb_sym
                 cell_eqb_trans). }
  intros k Hk Hpos.
  rewrite <- (occurrences_notna k col Hk) in Hpos.
  apply occurrences_positive in Hpos. destruct Hpos as [x [Hx Hxk]].
  destruct (value_counts_has_key cell_eqb cell_eqb_refl cell_eqb_sym
              cell_eqb_trans x (filter notna col) Hx) as [e [He Hex]].
  fold (pd.value_counts_cells col) in He. fold vc in He.
  assert (Hek : cell_eqb (fst e) k = true)
    by (eapply cell_eqb_trans; eassumption).
  rewrite <- (firstn_skipn 5 vc) in He. apply in_app_or in He.
  destruct He as [He|He]; [left; now exists e|].
  right. split.
  - assert (Hlen : (5 < List.length vc)%nat).
    { destruct (Nat.le_gt_cases (List.length vc) 5) as [Hle|Hgt];
        [|exact Hgt].
      rewrite (skipn_all2 vc Hle) in He. contradiction. }
    rewrite length_firstn. lia.
  - intros e' He'.
    assert (Hle : snd e <= snd e').
    { unfold non_increasing, values in Hni.
      rewrite <- (firstn_skipn 5 vc), map_app in Hni.
      apply (StronglySorted_app_inv _ _ _ (snd e') (snd e) Hni);
        now apply in_map. }
    destruct e as [ke ne]. simpl in *.
    assert (Hin : In (ke, ne) vc).
    { rewrite <- (firstn_skipn 5 vc). apply in_or_app. now right. }
    apply value_counts_cells_In in Hin. destruct Hin as [_ [_ Hne]].
    rewrite <- (occurrences_congr ke k col Hek), <- Hne. exact Hle.
Qed.

Lemma top_authors_witness :
  has_column sample_data "author" = true
  /\ exists res,
       AuthorsAnalyzer.analyze sample_data = Ok res
       /\ (List.length res <= 5)%nat
       /\ non_increasing (values res).
Proof.
  split; [reflexivity|].
  destruct (top_authors sample_data eq_refl)
    as [res [H1 [H2 [_ [_ [H5 _]]]]]].
  exists res. auto.
Defined.

(** The expected value of [test_top_authors_logic]. *)
Example top_authors_sample :
  AuthorsAnalyzer.analyze sample_data =
  Ok [(Str "Author A", 3); (Str "Author B", 2); (Str "Author C", 1);
      (Str "Author D", 1); (Str "Author E", 1)].
Proof. reflexivity. Qed.

(* ================================================================== *)
(** * The registry *)

Lemma string_eqb_trans (a b c : string) :
  String.eqb a b = true -> String.eqb b c = true -> String.eqb a c = true.
Proof. rewrite !String.eqb_eq. congruence. Qed.

Section RegistryFacts.

Context {V : Type}.

Lemma get_register (self : AnalysisContext.t V) (key key' : string) (a : V) :
  AnalysisContext.get_analyzer
    (AnalysisContext.register_analyzer self key a) key' =
  if String.eqb key key' then Some a
  else AnalysisContext.get_analyzer self key'.
Proof.
  unfold AnalysisContext.get_analyzer.
  induction self as [|[k v] self IH]; simpl.
  - now destruct (String.eqb key key').
  - destruct (String.eqb_spec k key) as [->|Hne]; simpl.
    + now destruct (String.eqb key key').
    + destruct (String.eqb_spec k key') as [->|Hne']; simpl.
      * destruct (String.eqb_spec key key'); [congruence | reflexivity].
      * exact IH.
Qed.

Lemma keys_register (self : AnalysisContext.t V) (key : string) (a : V) :
  AnalysisContext.get_available_analyses
    (AnalysisContext.register_analyzer self key a) =
  if existsb (fun k => String.eqb k key)
       (AnalysisContext.get_available_analyses self)
  then AnalysisContext.get_available_analyses self
  else AnalysisContext.get_available_analyses self ++ [key].
Proof.
  unfold AnalysisContext.get_available_analyses.
  induction self as [|[k v] self IH]; simpl.
  - reflexivity.
  - destruct (String.eqb k key); simpl; [reflexivity|].
    rewrite IH. now destruct (existsb _ _).
Qed.

Lemma registered_snoc (regs : list (string * V)) (key : string) (a : V) :
  registered (regs ++ [(key, a)]) =
  AnalysisContext.register_analyzer (registered regs) key a.
Proof. unfold registered. now rewrite fold_left_app. Qed.

Lemma get_registered (regs : list (string * V)) (key : string) :
  AnalysisContext.get_analyzer (registered regs) key =
  last_registered key regs.
Proof.
  unfold last_registered.
  induction regs as [|[k a] regs IH] using rev_ind.
  - reflexivity.
  - rewrite registered_snoc, get_register, rev_app_distr. simpl.
    destruct (String.eqb k key); [reflexivity | exact IH].
Qed.

(** The keys of the registry are the keys of a tally of the registered
    keys. *)
Lemma keys_registered (regs : list (string * V)) :
  AnalysisContext.get_available_analyses (registered regs) =
  index (pd.tally String.eqb (map fst regs)).
Proof.
  induction regs as [|[k a] regs IH] using rev_ind.
  - reflexivity.
  - rewrite registered_snoc, keys_register, map_app. simpl map.
    rewrite tally_snoc, bump_index, IH. reflexivity.
Qed.

End RegistryFacts.

(** C8: [register] overwrites the entry of its key and touches no other
    key; [get] returns, on every key, the analyzer registered last under
    it, and the absent marker exactly for a key that was never
    registered (it has no way to raise); [list_keys] returns every
    registered key once, in the order in which the keys were first
    registered. *)
Theorem registry_operations {V : Type} (regs : list (string * V))
  (key : string) (a : V) :
  let self := registered regs in
  AnalysisContext.get_analyzer
    (AnalysisContext.register_analyzer self key a) key = Some a
  /\ (forall key', key' <> key ->
        AnalysisContext.get_analyzer
          (AnalysisContext.register_analyzer self key a) key' =
        AnalysisContext.get_analyzer self key')
  /\ AnalysisContext.get_available_analyses
       (AnalysisContext.register_analyzer self key a) =
     (if existsb (fun k => String.eqb k key)
           (AnalysisContext.get_available_analyses self)
      then AnalysisContext.get_available_analyses self
      else AnalysisContext.get_available_analyses self ++ [key])
  /\ AnalysisContext.get_analyzer self key = last_registered key regs
  /\ (AnalysisContext.get_analyzer self key = None <->
      ~ In key (map fst regs))
  /\ NoDup (AnalysisContext.get_available_analyses self)
  /\ (forall k, In k (AnalysisContext.get_available_analyses self) <->
                In k (map fst regs))
  /\ (forall k1 k2,
        before k1 k2 (AnalysisContext.get_available_analyses self) ->
        met_before String.eqb k1 k2 (map fst regs) = true).
Proof.
  intros self. unfold self.
  split. { rewrite get_register. now rewrite String.eqb_refl. }
  split.
  { intros key' Hne. rewrite get_register.
    destruct (String.eqb_spec key key'); [congruence | reflexivity]. }
  split. { apply keys_register. }
  split. { apply get_registered. }
  split.
  { rewrite get_registered. unfold last_registered. split.
    - intros Hnone Hin. apply in_map_iff in Hin.
      destruct Hin as [[k v] [Hk Hin]]. simpl in Hk. subst k.
      destruct (find (fun e => String.eqb (fst e) key) (rev regs)) eqn:E;
        [discriminate|].
      assert (Hf := find_none _ _ E (key, v)). simpl in Hf.
      rewrite String.eqb_refl in Hf.
      assert (Hr : In (key, v) (rev regs)) by now apply -> in_rev.
      specialize (Hf Hr). discriminate.
    - intros Hnot.
      destruct (find (fun e => String.eqb (fst e) key) (rev regs))
        as [[k v]|] eqn:E; [|reflexivity].
      apply find_some in E. destruct E as [Hin Hk]. simpl in Hk.
      apply String.eqb_eq in Hk. subst k. exfalso. apply Hnot.
      apply in_map_iff. exists (key, v). split; [reflexivity|].
      now apply in_rev. }
  split.
  { rewrite keys_registered.
    pose proof (tally_distinct String.eqb (map fst regs)) as Hd.
    unfold distinct_keys in Hd. unfold index.
    induction Hd as [|e s Hs IH Hf]; simpl; constructor; auto.
    intros Hin. apply in_map_iff in Hin. destruct Hin as [e' [He' Hin]].
    rewrite Forall_forall in Hf. specialize (Hf _ Hin).
    rewrite He', String.eqb_refl in Hf. discriminate. }
  split.
  { intros k. rewrite keys_registered. split.
    - intros Hin.
      apply (tally_key_occurs String.eqb String.eqb_refl String.eqb_sym
               string_eqb_trans) in Hin.
      destruct Hin as [y [Hy Hyk]]. apply String.eqb_eq in Hyk. now subst.
    - intros Hin.
      destruct (tally_has_key String.eqb String.eqb_refl String.eqb_sym
                  string_eqb_trans k _ Hin) as [e [He Hek]].
      apply String.eqb_eq in Hek. subst k. unfold index. now apply in_map. }
  intros k1 k2 Hb. rewrite keys_registered in Hb.
  now apply (tally_order String.eqb String.eqb_refl String.eqb_sym
               string_eqb_trans).
Qed.

(* ================================================================== *)
(** * Publication Trend *)

Lemma cast_int64_year (q : Q) :
  ((1000 <? pd.cast_int64 q) && (pd.cast_int64 q <? 2100)) =
  ((1000 <? truncate q) && (truncate q <? 2100))
  /\ ((1000 <? truncate q) && (truncate q <? 2100) = true ->
      pd.cast_int64 q = truncate q).
Proof.
  unfold pd.cast_int64, truncate, pd.int64_min, pd.int64_max.
  set (z := Z.quot (Qnum q) (Z.pos (Qden q))).
  assert (H63 : 2 ^ 63 = 9223372036854775808) by reflexivity.
  rewrite H63.
  match goal with |- context [if ?b then _ else _] => destruct b eqn:E end.
  - split; [reflexivity | intros _; reflexivity].
  - apply andb_false_iff in E. split.
    + destruct (1000 <? z) eqn:E1, (z <? 2100) eqn:E2; simpl;
        try reflexivity; lia.
    + intros H. apply andb_true_iff in H. lia.
Qed.

Section TrendFacts.

Variable str_to_num : string -> option num.
Variable float : Type.
Variable linregress : list Z -> list Z -> exc (LinregressResult float).
Variable square : float -> float.
Variable format_2f : float -> string.


(** The numeric values that reach [astype(int)]. *)
Lemma floats_finite (col : list cell) :
  existsb (is_infinite str_to_num) col = false ->
  forallb pd.isfinite
    (pd.dropna_values (pd.to_numeric str_to_num (filter notna col))) = true.
Proof.
  induction col as [|c col IH]; simpl; [reflexivity|].
  intros H. apply orb_false_iff in H. destruct H as [Hc H].
  specialize (IH H). unfold is_infinite in Hc.
  destruct c as [x|s|]; simpl in *; auto.
  - destruct x; simpl; auto; discriminate.
  - destruct (str_to_num s) as [[| |]|]; simpl; auto; discriminate.
Qed.

Lemma floats_infinite (col : list cell) :
  existsb (is_infinite str_to_num) col = true ->
  forallb pd.isfinite
    (pd.dropna_values (pd.to_numeric str_to_num (filter notna col))) = false.
Proof.
  induction col as [|c col IH]; simpl; [discriminate|].
  intros H. apply orb_true_iff in H. unfold is_infinite in H.
  destruct c as [x|s|]; simpl in *.
  - destruct x; simpl; try reflexivity.
    destruct H as [H|H]; [discriminate | auto].
  - destruct (str_to_num s) as [[| |]|]; simpl; try reflexivity;
      destruct H as [H|H]; try discriminate; auto.
  - destruct H as [H|H]; [discriminate | auto].
Qed.

(** The cast and the range filter give the years of the surviving
    rows. *)
Lemma filtered_years (col : list cell) :
  filter (fun y => (1000 <? y) && (y <? 2100))
    (map (fun x => match x with Fin q => pd.cast_int64 q | _ => 0 end)
       (pd.dropna_values (pd.to_numeric str_to_num (filter notna col)))) =
  flat_map (year_cell str_to_num) col.
Proof.
  assert (Hfin : forall q rest,
    filter (fun y => (1000 <? y) && (y <? 2100)) (pd.cast_int64 q :: rest) =
    match (if (1000 <? truncate q) && (truncate q <? 2100)
           then Some (truncate q) else None) with
    | Some y => [y]
    | None => []
    end ++ filter (fun y => (1000 <? y) && (y <? 2100)) rest).
  { intros q rest. simpl. destruct (cast_int64_year q) as [H1 H2].
    rewrite H1.
    destruct ((1000 <? truncate q) && (truncate q <? 2100)) eqn:E;
      simpl; [|reflexivity].
    now rewrite H2. }
  induction col as [|c col IH]; simpl; [reflexivity|].
  unfold year_cell at 1, year_of.
  destruct c as [x|s|]; simpl.
  - destruct x; simpl; try exact IH. rewrite <- IH. apply Hfin.
  - destruct (str_to_num s) as [[| |]|]; simpl; try exact IH.
    rewrite <- IH. apply Hfin.
  - exact IH.
Qed.

Lemma years_of_column (df : DataFrame) :
  flat_map (year_cell str_to_num) (column df "publication date") =
  years_of str_to_num df.
Proof.
  unfold years_of, column.
  induction (rows df) as [|r l IH]; simpl; [reflexivity|]. now rewrite IH.
Qed.

Lemma occurrences_years (df : DataFrame) (y : Z) :
  occurrences Z.eqb y (years_of str_to_num df) = rows_of_year str_to_num df y.
Proof.
  unfold occurrences, rows_of_year, count_rows, years_of, year_cell. f_equal.
  induction (rows df) as [|r l IH]; simpl; [reflexivity|].
  destruct (year_of str_to_num (r "publication date")) as [y'|]; simpl.
  - destruct (y' =? y); simpl; now rewrite IH.
  - exact IH.
Qed.

(** The series that the strategy counts. *)
Lemma trends_of_years (df : DataFrame) :
  has_column df "publication date" = true ->
  has_infinite_date str_to_num df = false ->
  (data <- pd.dropna df "publication date" ;;
   col <- pd.getitem data "publication date" ;;
   years <- pd.astype_int
              (pd.dropna_values (pd.to_numeric str_to_num col)) ;;
   Ok (filter (fun y => (1000 <? y) && (y <? 2100)) years)) =
  Ok (years_of str_to_num df).
Proof.
  intros Hcol Hfin. unfold pd.dropna. rewrite Hcol. cbn [bind].
  rewrite getitem_column by exact Hcol. cbn [bind].
  unfold column at 1. cbn [rows].
  rewrite <- (filter_map_swap notna (fun r : row => r "publication date")).
  fold (column df "publication date").
  unfold pd.astype_int. rewrite floats_finite.
  - cbn [bind]. now rewrite filtered_years, years_of_column.
  - rewrite existsb_column. exact Hfin.
Qed.

End TrendFacts.

Lemma fold_max_bounds (rest : list Z) (a : Z) :
  a <= fold_left Z.max rest a
  /\ Forall (fun z => z <= fold_left Z.max rest a) rest.
Proof.
  revert a. induction rest as [|b rest IH]; intros a; simpl.
  - split; [lia | constructor].
  - destruct (IH (Z.max a b)) as [H1 H2]. split; [lia|].
    constructor; [lia | exact H2].
Qed.

Lemma fold_min_bounds (rest : list Z) (a : Z) :
  fold_left Z.min rest a <= a
  /\ Forall (fun z => fold_left Z.min rest a <= z) rest.
Proof.
  revert a. induction rest as [|b rest IH]; intros a; simpl.
  - split; [lia | constructor].
  - destruct (IH (Z.min a b)) as [H1 H2]. split; [lia|].
    constructor; [lia | exact H2].
Qed.

(** Distinct values cannot have equal extremes, unless there is one
    value only. *)
Lemma amax_amin_distinct (x : list Z) :
  StronglySorted Z.lt x -> amax x = amin x -> (List.length x <= 1)%nat.
Proof.
  destruct x as [|a [|b rest]]; simpl; intros Hs He; try lia.
  exfalso. inversion Hs as [|? ? _ Hf]; subst.
  inversion Hf as [|? ? Hab _]; subst.
  destruct (fold_max_bounds rest (Z.max a b)) as [H1 _].
  destruct (fold_min_bounds rest (Z.min a b)) as [H2 _].
  lia.
Qed.

Lemma year_series_perm (years : list Z) :
  Permutation (pd.sort_index Z.leb (pd.value_counts Z.eqb years))
    (pd.tally Z.eqb years).
Proof.
  eapply perm_trans; [apply sort_perm | apply value_counts_perm].
Qed.

Lemma Z_eqb_trans (a b c : Z) :
  (a =? b) = true -> (b =? c) = true -> (a =? c) = true.
Proof. lia. Qed.

(** The year series is strictly ascending in the year. *)
Lemma year_series_sorted (years : list Z) :
  StronglySorted Z.lt
    (index (pd.sort_index Z.leb (pd.value_counts Z.eqb years))).
Proof.
  unfold index. apply StronglySorted_map.
  eapply StronglySorted_impl; [|apply StronglySorted_and].
  - intros a b [H1 H2]. revert H1 H2.
    instantiate (1 := fun a b => (fst a =? fst b) = false).
    instantiate (1 := fun a b => (fst a <=? fst b) = true).
    simpl. lia.
  - apply (sort_sorted (fun a b : Z * Z => fst a <=? fst b)).
    + intros a b. lia.
    + intros a b c. lia.
  - apply (distinct_perm Z.eqb Z.eqb_sym (pd.tally Z.eqb years)).
    + apply Permutation_sym, year_series_perm.
    + apply tally_distinct.
Qed.

(** The count of a year is the number of its occurrences, and every
    year that occurs has an entry. *)
Lemma year_series_In (years : list Z) (y n : Z) :
  In (y, n) (pd.sort_index Z.leb (pd.value_counts Z.eqb years)) <->
  n = occurrences Z.eqb y years /\ 0 < n.
Proof.
  split.
  - intros Hin. apply (tally_In Z.eqb Z.eqb_refl Z.eqb_sym Z_eqb_trans).
    eapply Permutation_in; [apply year_series_perm | exact Hin].
  - intros [Hn Hpos]. rewrite Hn in Hpos.
    apply occurrences_positive in Hpos. destruct Hpos as [x [Hx Hxy]].
    apply Z.eqb_eq in Hxy. subst x.
    destruct (tally_has_key Z.eqb Z.eqb_refl Z.eqb_sym Z_eqb_trans y years Hx)
      as [[k m] [He Hk]].
    simpl in Hk. apply Z.eqb_eq in Hk. subst k.
    assert (Hm := tally_In Z.eqb Z.eqb_refl Z.eqb_sym Z_eqb_trans _ _ _ He).
    destruct Hm as [Hm _]. rewrite Hn, <- Hm.
    eapply Permutation_in; [apply Permutation_sym, year_series_perm|exact He].
Qed.

Lemma years_of_range (str_to_num : string -> option num) (df : DataFrame)
  (y : Z) :
  In y (years_of str_to_num df) -> 1000 < y < 2100.
Proof.
  unfold years_of. intros Hin. apply in_flat_map in Hin.
  destruct Hin as [r [_ Hy]]. unfold year_cell, year_of in Hy.
  destruct (numeric_value str_to_num (r "publication date")) as [[|q|]|];
    try contradiction.
  simpl in Hy.
  destruct ((1000 <? truncate q) && (truncate q <? 2100)) eqn:E;
    [|contradiction].
  destruct Hy as [<-|[]]. apply andb_true_iff in E. lia.
Qed.

Lemma linregress_shape_returns (x y : list Z) :
  x <> [] -> List.length x = List.length y ->
  (amax x = amin x -> (List.length x <= 1)%nat) ->
  exists r, linregress_shape x y = Ok r.
Proof.
  intros Hx Hlen Hext. unfold linregress_shape.
  destruct x as [|a x]; [congruence|].
  destruct y as [|b y]; [discriminate|].
  rewrite Hlen, Nat.eqb_refl. cbn [negb].
  destruct ((amax (a :: x) =? amin (a :: x))
            && (1 <? Z.of_nat (List.length (b :: y)))) eqn:E; [|eauto].
  exfalso. apply andb_true_iff in E. destruct E as [E1 E2].
  apply Z.eqb_eq in E1. specialize (Hext E1).
  apply Z.ltb_lt in E2. lia.
Qed.

Section TrendTheorems.

Variable str_to_num : string -> option num.
Variable float : Type.
Variable linregress : list Z -> list Z -> exc (LinregressResult float).
Variable square : float -> float.
Variable format_2f : float -> string.

(** [linregress] raises on empty input and on several x values that are
    all identical, and only then. *)
Hypothesis linregress_returns :
  forall x y, x <> [] -> List.length x = List.length y ->
    (amax x = amin x -> (List.length x <= 1)%nat) ->
    exists r, linregress x y = Ok r.

Local Abbreviation analyze :=
  (PublicationTrendAnalyzer.analyze
     str_to_num float linregress square format_2f).

Lemma analyze_unfold (df : DataFrame) :
  has_column df "publication date" = true ->
  has_infinite_date str_to_num df = false ->
  analyze df =
  let trends :=
    pd.sort_index Z.leb (pd.value_counts Z.eqb (years_of str_to_num df)) in
  if negb (empty trends) then
    r <- linregress (index trends) (values trends) ;;
    Ok {| counts := trends;
          trend_line :=
            Some {| slope := lr_slope r;
                    intercept := lr_intercept r;
                    r_value := lr_rvalue r;
                    description :=
                      "Linear Trend: y = " ++ format_2f (lr_slope r)
                      ++ "x + " ++ format_2f (lr_intercept r)
                      ++ " (R2=" ++ format_2f (square (lr_rvalue r))
                      ++ ")" |} |}
  else Ok {| counts := trends; trend_line := None |}.
Proof.
  intros Hcol Hfin.
  pose proof (trends_of_years str_to_num df Hcol Hfin) as H.
  unfold analyze, PublicationTrendAnalyzer.analyze.
  destruct (pd.dropna df "publication date") as [data|e];
    cbn [bind] in *; [|discriminate].
  destruct (pd.getitem data "publication date") as [col|e];
    cbn [bind] in *; [|discriminate].
  destruct (pd.astype_int _) as [years|e]; cbn [bind] in *; [|discriminate].
  injection H as H. rewrite H. reflexivity.
Qed.

(** The exception raised on a table with an infinite publication
    date. *)
Lemma analyze_infinite (df : DataFrame) :
  has_column df "publication date" = true ->
  has_infinite_date str_to_num df = true ->
  analyze df = Raise IntCastingNaNError.
Proof.
  intros Hcol Hinf. unfold analyze, PublicationTrendAnalyzer.analyze.
  unfold pd.dropna. rewrite Hcol. cbn [bind].
  rewrite getitem_column by exact Hcol. cbn [bind].
  unfold column at 1. cbn [rows].
  rewrite <- (filter_map_swap notna (fun r : row => r "publication date")).
  fold (column df "publication date").
  unfold pd.astype_int. rewrite floats_infinite; [reflexivity|].
  rewrite existsb_column. exact Hinf.
Qed.

Lemma linregress_on_series (years : list Z) :
  let trends := pd.sort_index Z.leb (pd.value_counts Z.eqb years) in
  trends <> [] ->
  exists r, linregress (index trends) (values trends) = Ok r.
Proof.
  intros trends Hne. apply linregress_returns.
  - unfold index. destruct trends; [congruence | discriminate].
  - unfold index, values. now rewrite !length_map.
  - apply amax_amin_distinct, year_series_sorted.
Qed.

(** X6: the count series of the Publication Trend strategy, on a table
    that has a 'publication date' column and no infinite date in it: the
    strategy returns; the years of the series ascend strictly and lie
    strictly between 1000 and 2100; the entries are the years of the
    surviving rows, each with the number of those rows. *)
Theorem publication_trend_counts (df : DataFrame) :
  has_column df "publication date" = true ->
  has_infinite_date str_to_num df = false ->
  exists res,
    analyze df = Ok res
    /\ StronglySorted Z.lt (index (counts res))
    /\ Forall (fun y => 1000 < y < 2100) (index (counts res))
    /\ (forall y n, In (y, n) (counts res) <->
          n = rows_of_year str_to_num df y /\ 0 < n).
Proof.
  intros Hcol Hfin. rewrite (analyze_unfold df Hcol Hfin). cbv zeta.
  set (trends :=
    pd.sort_index Z.leb (pd.value_counts Z.eqb (years_of str_to_num df))).
  assert (Hsorted : StronglySorted Z.lt (index trends))
    by apply year_series_sorted.
  assert (Hin : forall y n, In (y, n) trends <->
                  n = rows_of_year str_to_num df y /\ 0 < n).
  { intros y n. unfold trends. rewrite year_series_In.
    now rewrite occurrences_years. }
  assert (Hrange : Forall (fun y => 1000 < y < 2100) (index trends)).
  { apply Forall_forall. intros y Hy. unfold index in Hy.
    apply in_map_iff in Hy. destruct Hy as [[y' n] [<- He]]. simpl.
    apply Hin in He. destruct He as [Hn Hpos].
    rewrite Hn, <- occurrences_years in Hpos.
    apply occurrences_positive in Hpos. destruct Hpos as [x [Hx Hxy]].
    apply Z.eqb_eq in Hxy. subst x.
    now apply years_of_range in Hx. }
  destruct (empty trends) eqn:E; cbn [negb].
  - eexists. split; [reflexivity|]. simpl. auto.
  - destruct (linregress_on_series (years_of str_to_num df)) as [r Hr].
    { fold trends. intros H. rewrite H in E. discriminate. }
    fold trends in Hr. rewrite Hr. cbn [bind].
    eexists. split; [reflexivity|]. simpl. auto.
Qed.

(** C2, amended: on every table that has a 'publication date' column
    and no infinite date in it, the Publication Trend strategy does not
    raise.  Its count series is the ascending count of the surviving
    years.  When that series is not empty (one year is enough) the
    trend line is present and holds the slope, intercept and r value
    that [linregress] returns for (years, counts), with the description
    "Linear Trend: y = {slope:.2f}x + {intercept:.2f}
    (R2={r_value**2:.2f})"; when the series is empty the trend line is
    absent. *)
Theorem publication_trend_line (df : DataFrame) :
  has_column df "publication date" = true ->
  has_infinite_date str_to_num df = false ->
  exists res,
    analyze df = Ok res
    /\ counts res =
       pd.sort_index Z.leb (pd.value_counts Z.eqb (years_of str_to_num df))
    /\ (counts res = [] -> trend_line res = None)
    /\ (counts res <> [] ->
        exists r,
          linregress (index (counts res)) (values (counts res)) = Ok r
          /\ trend_line res =
             Some {| slope := lr_slope r;
                     intercept := lr_intercept r;
                     r_value := lr_rvalue r;
                     description :=
                       "Linear Trend: y = " ++ format_2f (lr_slope r)
                       ++ "x + " ++ format_2f (lr_intercept r)
                       ++ " (R2=" ++ format_2f (square (lr_rvalue r))
                       ++ ")" |}).
Proof.
  intros Hcol Hfin. rewrite (analyze_unfold df Hcol Hfin). cbv zeta.
  set (trends :=
    pd.sort_index Z.leb (pd.value_counts Z.eqb (years_of str_to_num df))).
  destruct (empty trends) eqn:E; cbn [negb].
  - eexists. split; [reflexivity|]. simpl.
    split; [reflexivity|]. split; [reflexivity|].
    intros Hne. destruct trends; [congruence | discriminate].
  - destruct (linregress_on_series (years_of str_to_num df)) as [r Hr].
    { fold trends. intros H. rewrite H in E. discriminate. }
    fold trends in Hr. rewrite Hr. cbn [bind].
    eexists. split; [reflexivity|]. simpl.
    split; [reflexivity|]. split.
    + intros H. rewrite H in E. discriminate.
    + intros _. exists r. split; [exact Hr | reflexivity].
Qed.

End TrendTheorems.

(** C1, at a table whose publication date is the float infinity: the
    date is not missing and is numeric, so it reaches [astype(int)],
    which raises before the range filter can drop it; no count series
    is returned. *)
Theorem publication_trend_infinite_date
  (str_to_num : string -> option num) (float : Type)
  (linregress : list Z -> list Z -> exc (LinregressResult float))
  (square : float -> float) (format_2f : float -> string) :
  PublicationTrendAnalyzer.analyze
    str_to_num float linregress square format_2f infinite_date_data
  = Raise IntCastingNaNError.
Proof. reflexivity. Qed.

(** The strategy raises KeyError on a table without a 'publication
    date' column. *)
Lemma publication_trend_no_column :
  PublicationTrendAnalyzer.analyze
    decimal_str_to_num unit linregress_shape (fun r => r) (fun _ => "nan")
    no_date_data
  = Raise (KeyError "publication date").
Proof. reflexivity. Qed.

Lemma publication_trend_line_witness :
  (forall x y, x <> [] -> List.length x = List.length y ->
     (amax x = amin x -> (List.length x <= 1)%nat) ->
     exists r, linregress_shape x y = Ok r)
  /\ has_column sample_data "publication date" = true
  /\ has_infinite_date decimal_str_to_num sample_data = false
  /\ exists res,
       PublicationTrendAnalyzer.analyze
         decimal_str_to_num unit linregress_shape (fun r => r)
         (fun _ => "nan") sample_data = Ok res
       /\ counts res = [(1900, 1); (2020, 2); (2021, 1); (2022, 1)]
       /\ trend_line res <> None.
Proof.
  split; [exact linregress_shape_returns|].
  split; [reflexivity|]. split; [reflexivity|].
  destruct (publication_trend_line decimal_str_to_num unit linregress_shape
              (fun r => r) (fun _ => "nan") linregress_shape_returns
              sample_data eq_refl eq_refl) as [res [H1 [H2 [_ H4]]]].
  exists res. split; [exact H1|]. split; [exact H2|].
  destruct H4 as [r [_ Hr]].
  - rewrite H2. discriminate.
  - rewrite Hr. discriminate.
Defined.

(** The expected counts of [test_publication_trends_logic]. *)
Example publication_trend_sample :
  exists res,
    PublicationTrendAnalyzer.analyze
      decimal_str_to_num unit linregress_shape (fun r => r) (fun _ => "nan")
      sample_data = Ok res
    /\ counts res = [(1900, 1); (2020, 2); (2021, 1); (2022, 1)].
Proof. eexists. split; reflexivity. Qed.

(* ================================================================== *)
(** * Levels of a group key *)

Lemma cell_lt_trans (a b c : cell) : cell_lt a b -> cell_lt b c -> cell_lt a c.
Proof. apply cell_compare_lt_trans. Qed.

Lemma cell_lt_not_eqb (a b : cell) : cell_lt a b -> cell_eqb a b = false.
Proof. unfold cell_lt, cell_eqb. now intros ->. Qed.

Lemma cell_eqb_congr_l (a b c : cell) :
  cell_eqb a b = true -> cell_eqb a c = cell_eqb b c.
Proof. apply (eqb_congr_l cell_eqb cell_eqb_sym cell_eqb_trans). Qed.

Lemma insert_level_Forall (P : cell -> Prop) (k : cell) (l : list cell) :
  P k -> Forall P l -> Forall P (pd.insert_level k l).
Proof.
  intros Hk. induction 1 as [|k' l Hk' Hl IH]; simpl.
  - now constructor.
  - destruct (cell_compare k k'); repeat constructor; auto.
Qed.

Lemma insert_level_sorted (k : cell) (l : list cell) :
  StronglySorted cell_lt l -> StronglySorted cell_lt (pd.insert_level k l).
Proof.
  induction 1 as [|k' l Hs IH Hf]; simpl.
  - repeat constructor.
  - destruct (cell_compare k k') eqn:E.
    + now constructor.
    + constructor; [now constructor|].
      constructor; [exact E|].
      eapply Forall_impl; [|exact Hf].
      intros z Hz. now apply cell_lt_trans with k'.
    + constructor; [exact IH|].
      apply insert_level_Forall; [|exact Hf].
      unfold cell_lt. now rewrite cell_compare_antisym, E.
Qed.

Lemma mem_insert_level (k x : cell) (l : list cell) :
  mem k (pd.insert_level x l) = cell_eqb x k || mem k l.
Proof.
  unfold mem. induction l as [|k' l IH]; simpl.
  - reflexivity.
  - destruct (cell_compare x k') eqn:E; simpl.
    + apply cell_eqb_true in E. rewrite (cell_eqb_congr_l x k' k E).
      now destruct (cell_eqb k' k).
    + reflexivity.
    + rewrite IH. now destruct (cell_eqb x k), (cell_eqb k' k).
Qed.

Lemma levels_sorted (ks : list cell) : StronglySorted cell_lt (pd.levels ks).
Proof.
  unfold pd.levels.
  assert (H : StronglySorted cell_lt []) by constructor.
  revert H. generalize (@nil cell).
  induction ks as [|k ks IH]; intros acc Hacc; simpl; auto.
  apply IH, insert_level_sorted, Hacc.
Qed.

Lemma mem_levels (k : cell) (ks : list cell) :
  mem k (pd.levels ks) = mem k ks.
Proof.
  unfold pd.levels.
  assert (H : forall acc,
            mem k (fold_left (fun a x => pd.insert_level x a) ks acc) =
            mem k acc || mem k ks).
  { induction ks as [|x ks IH]; intros acc; simpl.
    - now rewrite orb_false_r.
    - rewrite IH, mem_insert_level.
      now destruct (cell_eqb x k), (mem k acc). }
  now rewrite H.
Qed.

Lemma mem_true (k : cell) (l : list cell) :
  mem k l = true <-> exists k', In k' l /\ cell_eqb k' k = true.
Proof. unfold mem. apply existsb_exists. Qed.

Lemma mem_congr (a b : cell) (l : list cell) :
  cell_eqb a b = true -> mem a l = mem b l.
Proof.
  intros H. unfold mem. induction l as [|x l IH]; simpl; [reflexivity|].
  rewrite IH. f_equal.
  rewrite (cell_eqb_sym x a), (cell_eqb_sym x b).
  now apply cell_eqb_congr_l.
Qed.

Lemma sorted_distinct (l : list cell) : StronglySorted cell_lt l -> distinct l.
Proof. apply StronglySorted_impl. apply cell_lt_not_eqb. Qed.

(** A key that a list of distinct keys holds, it holds once. *)
Lemma occurrences_distinct (k : cell) (l : list cell) :
  distinct l -> mem k l = true -> occurrences cell_eqb k l = 1.
Proof.
  unfold distinct.
  induction 1 as [|x l Hs IH Hf]; simpl; intros Hm; [discriminate|].
  rewrite (occurrences_cons cell_eqb).
  destruct (cell_eqb x k) eqn:E.
  - assert (Hnil : filter (fun y => cell_eqb y k) l = []).
    { clear IH Hm Hs. induction Hf as [|y l Hy Hl IH']; simpl;
        [reflexivity|].
      assert (Hyk : cell_eqb y k = false).
      { rewrite cell_eqb_sym, <- (cell_eqb_congr_l x k y E). exact Hy. }
      now rewrite Hyk. }
    unfold occurrences. rewrite Hnil. simpl. lia.
  - simpl in Hm. rewrite IH by exact Hm. lia.
Qed.

Lemma distinct_before (a b : cell) (l : list cell) :
  distinct l -> before a b l -> cell_eqb a b = false.
Proof.
  unfold distinct. induction 1 as [|x l Hs IH Hf]; intros Hb.
  - now apply before_nil in Hb.
  - apply before_cons in Hb. destruct Hb as [[-> Hin]|Hb]; [|auto].
    rewrite Forall_forall in Hf. auto.
Qed.

Lemma sorted_of_before {A : Type} (R : A -> A -> Prop) (l : list A) :
  (forall a b, before a b l -> R a b) -> StronglySorted R l.
Proof.
  induction l as [|x l IH]; intros H; constructor.
  - apply IH. intros a b Hb. apply H, before_cons. now right.
  - apply Forall_forall. intros b Hb. apply H, before_cons. left. auto.
Qed.

Lemma cell_leb_congr (x y a b : cell) :
  cell_eqb x a = true -> cell_eqb y b = true -> cell_leb x y = cell_leb a b.
Proof.
  rewrite !cell_eqb_true. intros H1 H2. unfold cell_leb.
  now rewrite (cell_compare_eq_l x a y H1), (cell_compare_eq_r y b a H2).
Qed.

Lemma cell_leb_trans (a b c : cell) :
  cell_leb a b = true -> cell_leb b c = true -> cell_leb a c = true.
Proof.
  unfold cell_leb.
  destruct (cell_compare a b) eqn:E1; try discriminate;
    destruct (cell_compare b c) eqn:E2; try discriminate; intros _ _.
  - now rewrite (cell_compare_eq_l a b c E1), E2.
  - now rewrite (cell_compare_eq_l a b c E1), E2.
  - now rewrite <- (cell_compare_eq_r b c a E2), E1.
  - now rewrite (cell_compare_lt_trans a b c E1 E2).
Qed.

(** The values in use: the keys of the entries, each once, in the order
    in which the entries first use them. *)
Lemma mem_uniques (k : cell) (codes : list cell) :
  mem k (index (pd.tally cell_eqb codes)) = mem k codes.
Proof.
  apply eq_iff_eq_true. rewrite !mem_true. split.
  - intros [k' [Hin Hk]].
    destruct (tally_key_occurs cell_eqb cell_eqb_refl cell_eqb_sym
                cell_eqb_trans k' codes Hin) as [y [Hy Hyk]].
    exists y. split; [exact Hy|]. eapply cell_eqb_trans; eassumption.
  - intros [y [Hy Hyk]].
    destruct (tally_has_key cell_eqb cell_eqb_refl cell_eqb_sym
                cell_eqb_trans y codes Hy) as [e [He Hey]].
    exists (fst e). split; [unfold index; now apply in_map|].
    eapply cell_eqb_trans; eassumption.
Qed.

Lemma uniques_distinct (codes : list cell) :
  distinct (index (pd.tally cell_eqb codes)).
Proof.
  unfold distinct, index. apply StronglySorted_map.
  apply (tally_distinct cell_eqb).
Qed.

(** In a list that never goes down, a key met before another is not
    above it. *)
Lemma met_before_ascending (k1 k2 : cell) (codes : list cell) :
  ascending codes ->
  met_before cell_eqb k1 k2 codes = true -> mem k2 codes = true ->
  cell_leb k1 k2 = true.
Proof.
  unfold ascending.
  induction 1 as [|x l Hs IH Hf]; simpl; intros Hm Hk; [discriminate|].
  destruct (cell_eqb x k2) eqn:E2; [discriminate|]. simpl in Hk.
  destruct (cell_eqb x k1) eqn:E1; [|auto].
  apply mem_true in Hk. destruct Hk as [y [Hy Hyk]].
  rewrite Forall_forall in Hf.
  rewrite <- (cell_leb_congr x y k1 k2 E1 Hyk). auto.
Qed.

(** The values in use of keys that never go down are strictly
    ascending. *)
Lemma uniques_sorted (codes : list cell) :
  ascending codes -> StronglySorted cell_lt (index (pd.tally cell_eqb codes)).
Proof.
  intros Hs. apply sorted_of_before. intros a b Hb.
  pose proof (distinct_before a b _ (uniques_distinct codes) Hb) as Hne.
  assert (Hle : cell_leb a b = true).
  { apply (met_before_ascending a b codes Hs).
    - now apply (tally_order cell_eqb cell_eqb_refl cell_eqb_sym
                   cell_eqb_trans).
    - rewrite <- mem_uniques. apply mem_true. exists b.
      split; [eapply before_In_r; eassumption | apply cell_eqb_refl]. }
  unfold cell_lt. unfold cell_leb in Hle. unfold cell_eqb in Hne.
  destruct (cell_compare a b); congruence.
Qed.

(** What [remove_unused_level] keeps: the keys in use, whatever the
    order. *)
Lemma mem_remove_unused (k : cell) (level codes : list cell) :
  (forall c, mem c codes = true -> mem c level = true) ->
  mem k (pd.remove_unused_level level codes) = mem k codes.
Proof.
  intros Hsub. unfold pd.remove_unused_level.
  destruct (forallb _ level) eqn:E; [|apply mem_uniques].
  apply eq_iff_eq_true. split; [|apply Hsub].
  intros Hm. apply mem_true in Hm. destruct Hm as [v [Hv Hvk]].
  rewrite forallb_forall in E. specialize (E v Hv).
  rewrite <- (mem_congr v k codes Hvk), <- mem_uniques. exact E.
Qed.

Lemma remove_unused_distinct (level codes : list cell) :
  StronglySorted cell_lt level ->
  distinct (pd.remove_unused_level level codes).
Proof.
  intros Hl. unfold pd.remove_unused_level.
  destruct (forallb _ level); [now apply sorted_distinct|].
  apply uniques_distinct.
Qed.

Lemma remove_unused_sorted (level codes : list cell) :
  StronglySorted cell_lt level -> ascending codes ->
  StronglySorted cell_lt (pd.remove_unused_level level codes).
Proof.
  intros Hl Hc. unfold pd.remove_unused_level.
  destruct (forallb _ level); [exact Hl|]. now apply uniques_sorted.
Qed.

(** A level with an unused value is rebuilt from the values in use. *)
Lemma remove_unused_some (level codes : list cell) (v : cell) :
  In v level -> mem v codes = false ->
  pd.remove_unused_level level codes = index (pd.tally cell_eqb codes).
Proof.
  intros Hv Hm. unfold pd.remove_unused_level.
  destruct (forallb _ level) eqn:E; [|reflexivity].
  rewrite forallb_forall in E. specialize (E v Hv).
  change (mem v (index (pd.tally cell_eqb codes)) = true) in E.
  rewrite mem_uniques in E. congruence.
Qed.

(** A level without unused value stays as it is. *)
Lemma remove_unused_none (level codes : list cell) :
  (forall v, In v level -> mem v codes = true) ->
  pd.remove_unused_level level codes = level.
Proof.
  intros H. unfold pd.remove_unused_level.
  assert (E : forallb (fun v => existsb (fun u => cell_eqb u v)
                                  (index (pd.tally cell_eqb codes))) level
              = true).
  { apply forallb_forall. intros v Hv.
    change (mem v (index (pd.tally cell_eqb codes)) = true).
    rewrite mem_uniques. auto. }
  now rewrite E.
Qed.

(* ================================================================== *)
(** * Grouping by two keys *)

Lemma sum_map_add {A : Type} (f g : A -> Z) (l : list A) :
  sum (map (fun x => f x + g x) l) = sum (map f l) + sum (map g l).
Proof. induction l as [|a l IH]; simpl; lia. Qed.

Lemma sum_map_ext {A : Type} (f g : A -> Z) (l : list A) :
  (forall x, In x l -> f x = g x) -> sum (map f l) = sum (map g l).
Proof.
  induction l as [|a l IH]; simpl; intros H; [reflexivity|].
  rewrite (H a) by now left. rewrite IH; [reflexivity|].
  intros x Hx. apply H. now right.
Qed.

Lemma sum_map_zero {A : Type} (l : list A) : sum (map (fun _ => 0) l) = 0.
Proof. induction l as [|a l IH]; simpl; lia. Qed.

Lemma sum_indicator (k : cell) (l : list cell) :
  sum (map (fun x => if cell_eqb k x then 1 else 0) l) =
  occurrences cell_eqb k l.
Proof.
  induction l as [|x l IH]; simpl.
  - reflexivity.
  - rewrite (occurrences_cons cell_eqb), IH, (cell_eqb_sym k x). lia.
Qed.

Lemma pair_occurrences_congr (a b : cell * cell) (ks : list (cell * cell)) :
  pair_eqb a b = true ->
  occurrences pair_eqb a ks = occurrences pair_eqb b ks.
Proof.
  intros H. unfold occurrences. do 2 f_equal. apply filter_ext.
  intros x. rewrite (pair_eqb_sym x a), (pair_eqb_sym x b).
  now apply (eqb_congr_l pair_eqb pair_eqb_sym pair_eqb_trans).
Qed.

Lemma grouped_perm (ks : list (cell * cell)) :
  Permutation (pd.sort_index pair_leb (pd.tally pair_eqb ks))
    (pd.tally pair_eqb ks).
Proof. apply sort_perm. Qed.

Lemma grouped_In (ks : list (cell * cell)) (e : cell * cell * Z) :
  In e (pd.sort_index pair_leb (pd.tally pair_eqb ks)) ->
  snd e = occurrences pair_eqb (fst e) ks
  /\ exists x, In x ks /\ pair_eqb x (fst e) = true.
Proof.
  intros Hin. apply (Permutation_in _ (grouped_perm ks)) in Hin.
  destruct e as [k n].
  destruct (tally_In pair_eqb pair_eqb_refl pair_eqb_sym pair_eqb_trans
              k n ks Hin) as [Hn Hpos].
  split; [exact Hn|]. simpl. rewrite Hn in Hpos.
  now apply occurrences_positive in Hpos.
Qed.

Lemma grouped_has_key (ks : list (cell * cell)) (x : cell * cell) :
  In x ks ->
  exists e, In e (pd.sort_index pair_leb (pd.tally pair_eqb ks))
            /\ pair_eqb (fst e) x = true.
Proof.
  intros Hin.
  destruct (tally_has_key pair_eqb pair_eqb_refl pair_eqb_sym pair_eqb_trans
              x ks Hin) as [e [He Hex]].
  exists e. split; [|exact Hex].
  apply (Permutation_in _ (Permutation_sym (grouped_perm ks))), He.
Qed.

(** What [unstack] finds for a pair of keys: the number of grouped rows
    with that pair, 0 when there is none. *)
Lemma lookup_grouped (ks : list (cell * cell)) (q : cell * cell) :
  match pd.lookup_pair (pd.sort_index pair_leb (pd.tally pair_eqb ks)) q with
  | Some n => n
  | None => 0
  end = occurrences pair_eqb q ks.
Proof.
  unfold pd.lookup_pair.
  destruct (find (fun e => pair_eqb (fst e) q)
              (pd.sort_index pair_leb (pd.tally pair_eqb ks)))
    as [e|] eqn:E; simpl.
  - apply find_some in E. destruct E as [Hin Hq].
    destruct (grouped_In ks e Hin) as [Hn _].
    rewrite Hn. now apply pair_occurrences_congr.
  - destruct (Z.eq_dec (occurrences pair_eqb q ks) 0) as [H0|Hne];
      [now rewrite H0|].
    exfalso.
    assert (Hpos : 0 < occurrences pair_eqb q ks).
    { pose proof (occurrences_nonneg pair_eqb q ks). lia. }
    apply occurrences_positive in Hpos. destruct Hpos as [x [Hx Hxq]].
    destruct (grouped_has_key ks x Hx) as [e [He Hex]].
    pose proof (find_none _ _ E e He) as Hf. simpl in Hf.
    rewrite (pair_eqb_trans _ _ _ Hex Hxq) in Hf. discriminate.
Qed.

Lemma combine_columns (df : DataFrame) (c1 c2 : string) :
  combine (column df c1) (column df c2) =
  map (fun r : row => (r c1, r c2)) (rows df).
Proof.
  unfold column. induction (rows df) as [|r l IH]; simpl; [reflexivity|].
  now rewrite IH.
Qed.

Lemma groupby_size_keys (df : DataFrame) :
  has_column df "publication date" = true ->
  has_column df "language" = true ->
  pd.groupby_size df "publication date" "language" = Ok (group_sizes df).
Proof.
  intros H1 H2. unfold pd.groupby_size, group_sizes.
  rewrite (getitem_column df _ H1), (getitem_column df _ H2). cbn [bind].
  rewrite combine_columns.
  rewrite (filter_map_swap (fun p : cell * cell => notna (fst p) && notna (snd p))
             (fun r : row => (r "publication date", r "language"))).
  reflexivity.
Qed.

(** The order of the pairs of keys. *)
Lemma pair_leb_total (a b : cell * cell) :
  pair_leb a b = true \/ pair_leb b a = true.
Proof.
  unfold pair_leb, pair_compare.
  rewrite (cell_compare_antisym (fst a) (fst b)).
  rewrite (cell_compare_antisym (snd a) (snd b)).
  destruct (cell_compare (fst a) (fst b)), (cell_compare (snd a) (snd b));
    simpl; auto.
Qed.

Lemma pair_leb_trans (a b c : cell * cell) :
  pair_leb a b = true -> pair_leb b c = true -> pair_leb a c = true.
Proof.
  unfold pair_leb, pair_compare.
  destruct (cell_compare (fst a) (fst b)) eqn:F1; try discriminate;
    destruct (cell_compare (fst b) (fst c)) eqn:F2; try discriminate.
  - rewrite (cell_compare_eq_l _ _ (fst c) F1), F2.
    exact (cell_leb_trans (snd a) (snd b) (snd c)).
  - now rewrite (cell_compare_eq_l _ _ (fst c) F1), F2.
  - now rewrite <- (cell_compare_eq_r _ _ (fst a) F2), F1.
  - now rewrite (cell_compare_lt_trans _ _ _ F1 F2).
Qed.

Lemma pair_leb_fst (a b : cell * cell) :
  pair_leb a b = true -> cell_leb (fst a) (fst b) = true.
Proof.
  unfold pair_leb, pair_compare, cell_leb.
  now destruct (cell_compare (fst a) (fst b)).
Qed.

(** The entries of the grouped series stand in ascending order of the
    publication date. *)
Lemma grouped_first_ascending (ks : list (cell * cell)) :
  ascending (map (fun e : cell * cell * Z => fst (fst e))
               (pd.sort_index pair_leb (pd.tally pair_eqb ks))).
Proof.
  unfold ascending. apply StronglySorted_map.
  eapply StronglySorted_impl;
    [|apply (sort_sorted (fun a b : cell * cell * Z => pair_leb (fst a) (fst b)))].
  - intros a b H. now apply pair_leb_fst.
  - intros a b. apply pair_leb_total.
  - intros a b c. apply pair_leb_trans.
Qed.

(** The grouped rows with a given pair are the rows with that pair. *)
Lemma occurrences_group_keys (df : DataFrame) (y l : cell) :
  notna y = true -> notna l = true ->
  occurrences pair_eqb (y, l) (group_keys df) = count_rows (has_pair y l) df.
Proof.
  intros Hy Hl. unfold occurrences, group_keys, count_rows. f_equal.
  induction (rows df) as [|r rs IH]; simpl; [reflexivity|].
  unfold has_pair at 1.
  destruct (both_present r) eqn:E; simpl.
  - rewrite pair_eqb_cells. simpl.
    destruct (cell_eqb (r "publication date") y
              && cell_eqb (r "language") l); simpl; now rewrite IH.
  - destruct (cell_eqb (r "publication date") y) eqn:E1;
      destruct (cell_eqb (r "language") l) eqn:E2; simpl; try exact IH.
    unfold both_present in E.
    rewrite (cell_eqb_notna _ _ E1 Hy), (cell_eqb_notna _ _ E2 Hl) in E.
    discriminate.
Qed.

Lemma group_keys_In (df : DataFrame) (x : cell * cell) :
  In x (group_keys df) <->
  exists r, In r (rows df) /\ both_present r = true
            /\ x = (r "publication date", r "language").
Proof.
  unfold group_keys. rewrite in_map_iff. split.
  - intros [r [<- Hr]]. apply filter_In in Hr. exists r. tauto.
  - intros [r [Hr [Hb ->]]]. exists r. split; [reflexivity|].
    apply filter_In. auto.
Qed.

(** The first level of the grouped series: the publication dates of the
    grouped rows. *)
Lemma mem_first_level (df : DataFrame) (y : cell) :
  mem y (map (fun e : cell * cell * Z => fst (fst e))
           (pd.sort_index pair_leb (pd.tally pair_eqb (group_keys df))))
  = true <->
  exists r, In r (rows df) /\ both_present r = true
            /\ cell_eqb (r "publication date") y = true.
Proof.
  rewrite mem_true. split.
  - intros [k' [Hin Hk]]. apply in_map_iff in Hin.
    destruct Hin as [e [<- He]].
    destruct (grouped_In _ e He) as [_ [x [Hx Hxe]]].
    apply group_keys_In in Hx. destruct Hx as [r [Hr [Hb ->]]].
    exists r. repeat split; auto.
    rewrite pair_eqb_cells in Hxe. apply andb_true_iff in Hxe.
    simpl in Hxe. eapply cell_eqb_trans; [apply Hxe | exact Hk].
  - intros [r [Hr [Hb Hy]]].
    destruct (grouped_has_key (group_keys df)
                (r "publication date", r "language")) as [e [He Hex]].
    { apply group_keys_In. now exists r. }
    exists (fst (fst e)). split.
    + apply in_map_iff. now exists e.
    + rewrite pair_eqb_cells in Hex. apply andb_true_iff in Hex.
      simpl in Hex. eapply cell_eqb_trans; [apply Hex | exact Hy].
Qed.

(** The second level: the languages of the grouped rows. *)
Lemma mem_second_level (df : DataFrame) (l : cell) :
  mem l (map (fun e : cell * cell * Z => snd (fst e))
           (pd.sort_index pair_leb (pd.tally pair_eqb (group_keys df))))
  = true <->
  exists r, In r (rows df) /\ both_present r = true
            /\ cell_eqb (r "language") l = true.
Proof.
  rewrite mem_true. split.
  - intros [k' [Hin Hk]]. apply in_map_iff in Hin.
    destruct Hin as [e [<- He]].
    destruct (grouped_In _ e He) as [_ [x [Hx Hxe]]].
    apply group_keys_In in Hx. destruct Hx as [r [Hr [Hb ->]]].
    exists r. repeat split; auto.
    rewrite pair_eqb_cells in Hxe. apply andb_true_iff in Hxe.
    simpl in Hxe. eapply cell_eqb_trans; [apply Hxe | exact Hk].
  - intros [r [Hr [Hb Hy]]].
    destruct (grouped_has_key (group_keys df)
                (r "publication date", r "language")) as [e [He Hex]].
    { apply group_keys_In. now exists r. }
    exists (snd (fst e)). split.
    + apply in_map_iff. now exists e.
    + rewrite pair_eqb_cells in Hex. apply andb_true_iff in Hex.
      simpl in Hex. eapply cell_eqb_trans; [apply Hex | exact Hy].
Qed.

(** Every grouped row is counted in one cell, and in one only. *)
Lemma double_count (idx cols : list cell) (ks : list (cell * cell)) :
  distinct idx -> distinct cols ->
  Forall (fun k => mem (fst k) idx = true /\ mem (snd k) cols = true) ks ->
  sum (map (fun y =>
              sum (map (fun l => occurrences pair_eqb (y, l) ks) cols)) idx)
  = Z.of_nat (List.length ks).
Proof.
  intros Hidx Hcols. induction 1 as [|k ks [Hk1 Hk2] Hks IH].
  - rewrite (sum_map_ext _ (fun _ => 0)); [apply sum_map_zero|].
    intros y _. apply sum_map_zero.
  - rewrite (sum_map_ext _
      (fun y => (if cell_eqb (fst k) y then 1 else 0)
                + sum (map (fun l => occurrences pair_eqb (y, l) ks) cols))).
    + rewrite sum_map_add, IH, sum_indicator.
      rewrite (occurrences_distinct _ _ Hidx Hk1). simpl List.length. lia.
    + intros y _.
      rewrite (sum_map_ext _
        (fun l => (if cell_eqb (fst k) y
                   then (if cell_eqb (snd k) l then 1 else 0) else 0)
                  + occurrences pair_eqb (y, l) ks)).
      * rewrite sum_map_add. f_equal.
        destruct (cell_eqb (fst k) y).
        -- rewrite sum_indicator. apply (occurrences_distinct _ _ Hcols Hk2).
        -- apply sum_map_zero.
      * intros l _. rewrite (occurrences_cons pair_eqb), pair_eqb_cells.
        simpl fst. simpl snd.
        now destruct (cell_eqb (fst k) y), (cell_eqb (snd k) l).
Qed.

Lemma count_rows_zero (p : row -> bool) (df : DataFrame) :
  (forall r, In r (rows df) -> p r = false) -> count_rows p df = 0.
Proof.
  intros H. unfold count_rows.
  induction (rows df) as [|r l IH]; simpl; [reflexivity|].
  rewrite (H r) by now left. apply IH. intros r' Hr'. apply H. now right.
Qed.

(* ================================================================== *)
(** * Language-by-Year Grid *)

Lemma language_year_unfold (df : DataFrame) :
  has_column df "publication date" = true ->
  has_column df "language" = true ->
  LanguageYearAnalyzer.analyze df = Ok (pd.unstack 0 (group_sizes df)).
Proof.
  intros H1 H2. unfold LanguageYearAnalyzer.analyze.
  now rewrite (groupby_size_keys df H1 H2).
Qed.

Lemma both_present_notna (r : row) :
  both_present r = true ->
  notna (r "publication date") = true /\ notna (r "language") = true.
Proof. unfold both_present. apply andb_true_iff. Qed.

(** Every key that an entry uses is a value of its level. *)
Lemma first_codes_in_level (df : DataFrame) (c : cell) :
  mem c (map (fun e : cell * cell * Z => fst (fst e))
           (pd.entries (group_sizes df))) = true ->
  mem c (pd.level0 (group_sizes df)) = true.
Proof.
  cbn [group_sizes pd.entries pd.level0]. rewrite mem_levels. intros H.
  apply mem_first_level in H. destruct H as [r [Hr [Hb Hc]]].
  apply mem_true. exists (r "publication date"). split; [|exact Hc].
  apply filter_In. split.
  - unfold column. apply (in_map (fun r : row => r "publication date")), Hr.
  - now apply both_present_notna in Hb.
Qed.

Lemma second_codes_in_level (df : DataFrame) (c : cell) :
  mem c (map (fun e : cell * cell * Z => snd (fst e))
           (pd.entries (group_sizes df))) = true ->
  mem c (pd.level1 (group_sizes df)) = true.
Proof.
  cbn [group_sizes pd.entries pd.level1]. rewrite mem_levels. intros H.
  apply mem_second_level in H. destruct H as [r [Hr [Hb Hc]]].
  apply mem_true. exists (r "language"). split; [|exact Hc].
  apply filter_In. split.
  - unfold column. apply (in_map (fun r : row => r "language")), Hr.
  - now apply both_present_notna in Hb.
Qed.

(** The lines of the grid: the publication dates of the grouped rows. *)
Lemma mem_grid_index (df : DataFrame) (y : cell) :
  mem y (pd.grid_index (pd.unstack 0 (group_sizes df))) = true <->
  exists r, In r (rows df) /\ both_present r = true
            /\ cell_eqb (r "publication date") y = true.
Proof.
  unfold pd.unstack; cbn [pd.grid_index].
  rewrite mem_remove_unused by apply first_codes_in_level.
  apply mem_first_level.
Qed.

(** The columns of the grid: the languages of the grouped rows. *)
Lemma mem_grid_columns (df : DataFrame) (l : cell) :
  mem l (pd.grid_columns (pd.unstack 0 (group_sizes df))) = true <->
  exists r, In r (rows df) /\ both_present r = true
            /\ cell_eqb (r "language") l = true.
Proof.
  unfold pd.unstack; cbn [pd.grid_columns].
  rewrite mem_remove_unused by apply second_codes_in_level.
  apply mem_second_level.
Qed.

(** The lines are ascending whether or not [unstack] rebuilds the level:
    the entries stand in ascending order of the publication date. *)
Lemma grid_index_ascending (df : DataFrame) :
  StronglySorted cell_lt (pd.grid_index (pd.unstack 0 (group_sizes df))).
Proof.
  unfold pd.unstack; cbn [pd.grid_index]. apply remove_unused_sorted.
  - apply levels_sorted.
  - apply grouped_first_ascending.
Qed.

Lemma grid_columns_distinct (df : DataFrame) :
  distinct (pd.grid_columns (pd.unstack 0 (group_sizes df))).
Proof.
  unfold pd.unstack; cbn [pd.grid_columns].
  apply remove_unused_distinct, levels_sorted.
Qed.

Lemma grid_index_notna (df : DataFrame) (y : cell) :
  In y (pd.grid_index (pd.unstack 0 (group_sizes df))) -> notna y = true.
Proof.
  intros Hy.
  assert (Hm : mem y (pd.grid_index (pd.unstack 0 (group_sizes df))) = true).
  { apply mem_true. exists y. split; [exact Hy | apply cell_eqb_refl]. }
  apply mem_grid_index in Hm. destruct Hm as [r [_ [Hb Hr]]].
  apply both_present_notna in Hb.
  apply cell_eqb_notna with (r "publication date");
    [now rewrite cell_eqb_sym | tauto].
Qed.

Lemma grid_columns_notna (df : DataFrame) (l : cell) :
  In l (pd.grid_columns (pd.unstack 0 (group_sizes df))) -> notna l = true.
Proof.
  intros Hl.
  assert (Hm : mem l (pd.grid_columns (pd.unstack 0 (group_sizes df))) = true).
  { apply mem_true. exists l. split; [exact Hl | apply cell_eqb_refl]. }
  apply mem_grid_columns in Hm. destruct Hm as [r [_ [Hb Hr]]].
  apply both_present_notna in Hb.
  apply cell_eqb_notna with (r "language");
    [now rewrite cell_eqb_sym | tauto].
Qed.

(** The cell of a date and a language: the number of grouped rows with
    that pair. *)
Lemma grid_cell_value (df : DataFrame) (i j : nat) (y l : cell) :
  nth_error (pd.grid_index (pd.unstack 0 (group_sizes df))) i = Some y ->
  nth_error (pd.grid_columns (pd.unstack 0 (group_sizes df))) j = Some l ->
  grid_cell (pd.unstack 0 (group_sizes df)) i j =
  Some (occurrences pair_eqb (y, l) (group_keys df)).
Proof.
  unfold grid_cell, pd.unstack.
  cbn [pd.grid_values pd.grid_index pd.grid_columns]. intros Hi Hj.
  rewrite nth_error_map, Hi. cbn [option_map].
  rewrite nth_error_map, Hj. cbn [option_map].
  cbn [group_sizes pd.entries]. now rewrite lookup_grouped.
Qed.

Lemma grid_cell_rows (df : DataFrame) (i j : nat) (y l : cell) :
  nth_error (pd.grid_index (pd.unstack 0 (group_sizes df))) i = Some y ->
  nth_error (pd.grid_columns (pd.unstack 0 (group_sizes df))) j = Some l ->
  grid_cell (pd.unstack 0 (group_sizes df)) i j =
  Some (count_rows (has_pair y l) df).
Proof.
  intros Hi Hj. rewrite (grid_cell_value df i j y l Hi Hj).
  rewrite occurrences_group_keys; [reflexivity | |].
  - eapply grid_index_notna, nth_error_In, Hi.
  - eapply grid_columns_notna, nth_error_In, Hj.
Qed.

(** The cells add up to the number of grouped rows. *)
Lemma grid_total_value (df : DataFrame) :
  grid_total (pd.unstack 0 (group_sizes df)) = count_rows both_present df.
Proof.
  pose proof (grid_index_ascending df) as Hidx.
  pose proof (grid_columns_distinct df) as Hcols.
  pose proof (mem_grid_index df) as Hmi.
  pose proof (mem_grid_columns df) as Hmc.
  unfold grid_total.
  unfold pd.unstack in *.
  cbn [pd.grid_values pd.grid_index pd.grid_columns] in *.
  rewrite map_map.
  rewrite (sum_map_ext _
    (fun y => sum (map (fun l => occurrences pair_eqb (y, l) (group_keys df))
                     (pd.remove_unused_level (pd.level1 (group_sizes df))
                        (map (fun e : cell * cell * Z => snd (fst e))
                           (pd.entries (group_sizes df))))))).
  - rewrite double_count.
    + unfold group_keys, count_rows. now rewrite length_map.
    + now apply sorted_distinct.
    + exact Hcols.
    + apply Forall_forall. intros k Hk.
      apply group_keys_In in Hk. destruct Hk as [r [Hr [Hb ->]]]. split.
      * apply Hmi. exists r. repeat split; auto. apply cell_eqb_refl.
      * apply Hmc. exists r. repeat split; auto. apply cell_eqb_refl.
  - intros y _. f_equal. apply map_ext. intros l.
    cbn [group_sizes pd.entries]. apply lookup_grouped.
Qed.

Lemma count_rows_ext (p q : row -> bool) (df : DataFrame) :
  (forall r, p r = q r) -> count_rows p df = count_rows q df.
Proof.
  intros H. unfold count_rows. do 2 f_equal. now apply filter_ext.
Qed.

(** C4, amended: on every table that has the columns 'publication date'
    and 'language' the grid has as rows the distinct publication dates,
    in ascending order, and as columns the distinct languages, of the
    rows in which both values are present; the cell of a date and a
    language is the number of rows of the table with that pair, which
    is 0 for a combination that no row has. *)
Theorem language_year_grid (df : DataFrame) :
  has_column df "publication date" = true ->
  has_column df "language" = true ->
  exists g,
    LanguageYearAnalyzer.analyze df = Ok g
    /\ StronglySorted cell_lt (pd.grid_index g)
    /\ distinct (pd.grid_columns g)
    /\ (forall y, mem y (pd.grid_index g) = true <->
          exists r, In r (rows df) /\ both_present r = true
                    /\ cell_eqb (r "publication date") y = true)
    /\ (forall l, mem l (pd.grid_columns g) = true <->
          exists r, In r (rows df) /\ both_present r = true
                    /\ cell_eqb (r "language") l = true)
    /\ (forall i j y l,
          nth_error (pd.grid_index g) i = Some y ->
          nth_error (pd.grid_columns g) j = Some l ->
          grid_cell g i j = Some (count_rows (has_pair y l) df)
          /\ ((forall r, In r (rows df) -> has_pair y l r = false) ->
              grid_cell g i j = Some 0)).
Proof.
  intros H1 H2. rewrite (language_year_unfold df H1 H2).
  exists (pd.unstack 0 (group_sizes df)). split; [reflexivity|].
  split; [apply grid_index_ascending|].
  split; [apply grid_columns_distinct|].
  split; [apply mem_grid_index|]. split; [apply mem_grid_columns|].
  intros i j y l Hi Hj.
  pose proof (grid_cell_rows df i j y l Hi Hj) as Hcell.
  split; [exact Hcell|].
  intros Hnone. rewrite (count_rows_zero (has_pair y l) df Hnone) in Hcell.
  exact Hcell.
Qed.

Lemma language_year_grid_witness :
  has_column sample_data "publication date" = true
  /\ has_column sample_data "language" = true
  /\ exists g,
       LanguageYearAnalyzer.analyze sample_data = Ok g
       /\ StronglySorted cell_lt (pd.grid_index g)
       /\ distinct (pd.grid_columns g).
Proof.
  split; [reflexivity|]. split; [reflexivity|].
  destruct (language_year_grid sample_data eq_refl eq_refl)
    as [g [H1 [H2 [H3 _]]]].
  exists g. auto.
Defined.

(** The publication date 2021 of [no_language_data] stands in a row
    without language: it is a publication date of the table and no row
    of the grid. *)
Lemma language_year_grid_drops_date :
  LanguageYearAnalyzer.analyze no_language_data =
    Ok {| pd.grid_index := [Num (Fin (Qmake 2020 1))];
          pd.grid_columns := [Str "English"];
          pd.grid_values := [[1]] |}
  /\ In (Num (Fin (Qmake 2021 1)))
       (column no_language_data "publication date")
  /\ mem (Num (Fin (Qmake 2021 1))) [Num (Fin (Qmake 2020 1))] = false.
Proof.
  split; [reflexivity|]. split; [|reflexivity].
  simpl. right. left. reflexivity.
Qed.

(** C10: on every table that has the columns 'publication date' and
    'language', a row in which one of the two is missing is counted in
    no cell of the grid: every cell is the number of rows that have
    both values and have the pair of the cell, the cells add up to the
    number of rows in which both values are present, and as soon as
    there is a row with a missing value this sum is strictly less than
    the number of rows. *)
Theorem language_year_excludes_missing (df : DataFrame) :
  has_column df "publication date" = true ->
  has_column df "language" = true ->
  exists g,
    LanguageYearAnalyzer.analyze df = Ok g
    /\ (forall i j y l,
          nth_error (pd.grid_index g) i = Some y ->
          nth_error (pd.grid_columns g) j = Some l ->
          grid_cell g i j =
          Some (count_rows (fun r => both_present r && has_pair y l r) df))
    /\ grid_total g = count_rows both_present df
    /\ grid_total g <= Z.of_nat (List.length (rows df))
    /\ ((exists r, In r (rows df) /\ both_present r = false) ->
        grid_total g < Z.of_nat (List.length (rows df))).
Proof.
  intros H1 H2. rewrite (language_year_unfold df H1 H2).
  exists (pd.unstack 0 (group_sizes df)). split; [reflexivity|].
  split.
  { intros i j y l Hi Hj. rewrite (grid_cell_rows df i j y l Hi Hj).
    f_equal. apply count_rows_ext. intros r.
    destruct (has_pair y l r) eqn:E; [|now rewrite andb_false_r].
    rewrite andb_true_r. symmetry.
    unfold has_pair in E. apply andb_true_iff in E. destruct E as [E1 E2].
    unfold both_present.
    rewrite (cell_eqb_notna _ _ E1), (cell_eqb_notna _ _ E2); [reflexivity | |].
    - eapply grid_columns_notna, nth_error_In, Hj.
    - eapply grid_index_notna, nth_error_In, Hi. }
  pose proof (grid_total_value df) as Htotal.
  split; [exact Htotal|]. rewrite Htotal. unfold count_rows.
  split.
  - pose proof (filter_length_le both_present (rows df)). lia.
  - intros [r [Hr Hb]].
    pose proof (filter_length both_present (rows df)) as Hlen.
    assert (Hpos : (0 < List.length
                          (filter (fun x => negb (both_present x)) (rows df)))%nat).
    { assert (Hin : In r (filter (fun x => negb (both_present x)) (rows df))).
      { apply filter_In. split; [exact Hr|]. now rewrite Hb. }
      destruct (filter (fun x => negb (both_present x)) (rows df));
        [contradiction | simpl; lia]. }
    lia.
Qed.

Lemma language_year_excludes_missing_witness :
  has_column sample_data "publication date" = true
  /\ has_column sample_data "language" = true
  /\ exists g,
       LanguageYearAnalyzer.analyze sample_data = Ok g
       /\ grid_total g = 7
       /\ grid_total g < Z.of_nat (List.length (rows sample_data)).
Proof.
  split; [reflexivity|]. split; [reflexivity|].
  destruct (language_year_excludes_missing sample_data eq_refl eq_refl)
    as [g [H1 [_ [H3 [_ H5]]]]].
  exists g. split; [exact H1|]. split; [exact H3|].
  apply H5. exists (nth 4 (rows sample_data) (fun _ => Missing)).
  split; [|reflexivity]. simpl. tauto.
Defined.

(* ================================================================== *)
(** * The empty table *)

Lemma column_no_rows (df : DataFrame) (c : string) :
  rows df = [] -> column df c = [].
Proof. unfold column. now intros ->. Qed.

(** C6, amended: on a table with the expected columns and no row no
    strategy raises; Publication Trend returns an empty count series
    and no trend line, Top Authors, Language Distribution and Publisher
    Counts return an empty count series, the Language-by-Year Grid is
    empty, and Missing-ISBN Ratio returns its two entries, both 0. *)
Theorem empty_table_results
  (str_to_num : string -> option num) (float : Type)
  (linregress : list Z -> list Z -> exc (LinregressResult float))
  (square : float -> float) (format_2f : float -> string)
  (df : DataFrame) :
  rows df = [] ->
  (forall c, In c book_columns -> has_column df c = true) ->
  PublicationTrendAnalyzer.analyze
    str_to_num float linregress square format_2f df
    = Ok {| counts := []; trend_line := None |}
  /\ AuthorsAnalyzer.analyze df = Ok []
  /\ LanguageDistributionAnalyzer.analyze df = Ok []
  /\ PublisherAnalyzer.analyze df = Ok []
  /\ MissingISBNAnalyzer.analyze df =
       Ok [(Str "Missing ISBN", 0); (Str "With ISBN", 0)]
  /\ LanguageYearAnalyzer.analyze df =
       Ok {| pd.grid_index := []; pd.grid_columns := [];
             pd.grid_values := [] |}.
Proof.
  intros Hrows Hcols.
  assert (Hdate : has_column df "publication date" = true)
    by (apply Hcols; simpl; tauto).
  assert (Hauthor : has_column df "author" = true)
    by (apply Hcols; simpl; tauto).
  assert (Hlang : has_column df "language" = true)
    by (apply Hcols; simpl; tauto).
  assert (Hpub : has_column df "book publisher" = true)
    by (apply Hcols; simpl; tauto).
  assert (Hisbn : has_column df "ISBN" = true)
    by (apply Hcols; simpl; tauto).
  repeat split.
  - unfold PublicationTrendAnalyzer.analyze, pd.dropna.
    rewrite Hdate, Hrows. cbn [bind filter].
    rewrite getitem_column by exact Hdate. reflexivity.
  - unfold AuthorsAnalyzer.analyze.
    rewrite (getitem_column df _ Hauthor), (column_no_rows df _ Hrows).
    reflexivity.
  - unfold LanguageDistributionAnalyzer.analyze.
    rewrite (getitem_column df _ Hlang), (column_no_rows df _ Hrows).
    reflexivity.
  - unfold PublisherAnalyzer.analyze.
    rewrite (getitem_column df _ Hpub), (column_no_rows df _ Hrows).
    reflexivity.
  - unfold MissingISBNAnalyzer.analyze, pd.len.
    rewrite (getitem_column df _ Hisbn), (column_no_rows df _ Hrows), Hrows.
    reflexivity.
  - rewrite (language_year_unfold df Hdate Hlang).
    unfold group_sizes, group_keys.
    rewrite !(column_no_rows df _ Hrows), Hrows. reflexivity.
Qed.

Lemma empty_table_results_witness :
  rows empty_data = []
  /\ (forall c, In c book_columns -> has_column empty_data c = true)
  /\ AuthorsAnalyzer.analyze empty_data = Ok []
  /\ MissingISBNAnalyzer.analyze empty_data =
       Ok [(Str "Missing ISBN", 0); (Str "With ISBN", 0)].
Proof.
  assert (Hcols : forall c, In c book_columns -> has_column empty_data c = true).
  { intros c Hc. simpl in Hc.
    repeat (destruct Hc as [<-|Hc]; [reflexivity|]). contradiction. }
  split; [reflexivity|]. split; [exact Hcols|].
  destruct (empty_table_results decimal_str_to_num unit linregress_shape
              (fun r => r) (fun _ => "nan") empty_data eq_refl Hcols)
    as [_ [H2 [_ [_ [H5 _]]]]].
  split; assumption.
Defined.

(** On the empty table the Missing-ISBN Ratio strategy returns a series
    of two entries, not an empty one. *)
Lemma missing_isbn_on_empty_table :
  MissingISBNAnalyzer.analyze empty_data =
    Ok [(Str "Missing ISBN", 0); (Str "With ISBN", 0)]
  /\ empty [(Str "Missing ISBN", 0); (Str "With ISBN", 0)] = false.
Proof. split; reflexivity. Qed.

(* ================================================================== *)
(** * The session *)

Section SessionFacts.

Variable float : Type.

Local Abbreviation t := (CLI.t float).

(** One pass of the loop body changes at most the visualizer name, and
    only on the toggle command. *)
Lemma iteration_next (self self' : t) (choice : string)
  (evs : list (CLI.event float)) :
  CLI.iteration float self choice = (evs, CLI.Next float self') ->
  CLI.file_path float self' = CLI.file_path float self
  /\ CLI.analyzers float self' = CLI.analyzers float self
  /\ CLI.data float self' = CLI.data float self
  /\ (lower choice <> "v" -> self' = self).
Proof.
  unfold CLI.iteration.
  destruct (String.eqb_spec (lower choice) "q") as [Hq|Hq];
    [discriminate|].
  destruct (String.eqb_spec (lower choice) "v") as [Hv|Hv].
  - destruct (CLI.viz_type float self =? "matplotlib")%string;
      intros H; injection H as _ <-; simpl; repeat split; contradiction.
  - destruct (AnalysisContext.get_analyzer _ choice) as [analyzer|].
    + destruct (CLI.data float self) as [df|] eqn:Ed; [|discriminate].
      destruct (analyze analyzer df) as [result|e]; [|discriminate].
      destruct (CLI.visualization float self choice (name analyzer) result)
        as [drawn [e|]]; [discriminate|].
      intros H; injection H as _ <-. auto.
    + intros H; injection H as _ <-. auto.
Qed.

Lemma after_fields (inputs : list string) (self self' : t) :
  after self inputs = Some self' ->
  CLI.file_path float self' = CLI.file_path float self
  /\ CLI.analyzers float self' = CLI.analyzers float self
  /\ CLI.data float self' = CLI.data float self.
Proof.
  revert self. induction inputs as [|choice rest IH]; intros self; simpl.
  - intros H; injection H as <-. auto.
  - destruct (CLI.iteration float self choice) as [evs o] eqn:E.
    destruct o as [next| |]; try discriminate.
    intros H. apply IH in H. apply iteration_next in E.
    destruct H as [H1 [H2 H3]], E as [E1 [E2 [E3 _]]].
    repeat split; congruence.
Qed.

End SessionFacts.

(* ================================================================== *)
(** * The table as an object *)

Lemma nth_error_new (s : Store.t) (df : DataFrame) :
  nth_error (s ++ [df]) (List.length s) = Some df.
Proof. now rewrite nth_error_app2, Nat.sub_diag by lia. Qed.

Lemma nth_error_kept (s made : Store.t) (r : Store.ref) (df : DataFrame) :
  nth_error s r = Some df -> nth_error (s ++ made) r = Some df.
Proof.
  intros H. rewrite nth_error_app1; [exact H|].
  apply nth_error_Some. congruence.
Qed.

Lemma replace_new (s : Store.t) (df df' : DataFrame) :
  Store.replace (s ++ [df]) (List.length s) df' = s ++ [df'].
Proof. induction s as [|d s IH]; simpl; [reflexivity | now rewrite IH]. Qed.


(** The operations on a reference, run on a store in which the
    reference names [df]. *)
Lemma run_get (data : Store.ref) (df : DataFrame) (s : Store.t) :
  nth_error s data = Some df -> Store.get data s = (Ok df, s).
Proof. unfold Store.get. now intros ->. Qed.

Lemma run_len (data : Store.ref) (df : DataFrame) (s : Store.t) :
  nth_error s data = Some df -> pdStore.len data s = (Ok (pd.len df), s).
Proof.
  intros H. unfold pdStore.len, Store.bind. now rewrite (run_get _ _ _ H).
Qed.

Lemma run_has_column (data : Store.ref) (df : DataFrame) (c : string)
  (s : Store.t) :
  nth_error s data = Some df ->
  pdStore.has_column data c s = (Ok (has_column df c), s).
Proof.
  intros H. unfold pdStore.has_column, Store.bind.
  now rewrite (run_get _ _ _ H).
Qed.

Lemma run_getitem (data : Store.ref) (df : DataFrame) (c : string)
  (s : Store.t) :
  nth_error s data = Some df ->
  pdStore.getitem data c s = (pd.getitem df c, s).
Proof.
  intros H. unfold pdStore.getitem, Store.bind.
  now rewrite (run_get _ _ _ H).
Qed.

Lemma run_groupby_size (data : Store.ref) (df : DataFrame) (c1 c2 : string)
  (s : Store.t) :
  nth_error s data = Some df ->
  pdStore.groupby_size data c1 c2 s = (pd.groupby_size df c1 c2, s).
Proof.
  intros H. unfold pdStore.groupby_size, Store.bind.
  now rewrite (run_get _ _ _ H).
Qed.

Lemma run_dropna (data : Store.ref) (df : DataFrame) (c : string)
  (s : Store.t) :
  nth_error s data = Some df ->
  pdStore.dropna data c s =
  match pd.dropna df c with
  | Ok dropped => (Ok (List.length s), s ++ [dropped])
  | Raise e => (Raise e, s)
  end.
Proof.
  intros H. unfold pdStore.dropna, Store.bind.
  rewrite (run_get _ _ _ H). unfold Store.lift.
  now destruct (pd.dropna df c).
Qed.

(** The assignment into a table is seen under the reference it was
    made through, and under no other. *)
Lemma run_setitem (data : Store.ref) (df : DataFrame) (c : string)
  (series : list cell) (s : Store.t) :
  nth_error s data = Some df ->
  pdStore.setitem data c series s =
  (Ok tt, Store.replace s data (CSVDataLoader.setcolumn df c series)).
Proof.
  intros H. unfold pdStore.setitem, Store.bind.
  now rewrite (run_get _ _ _ H).
Qed.

Section StoreFacts.

Variable str_to_num : string -> option num.
Variable float : Type.
Variable linregress : list Z -> list Z -> exc (LinregressResult float).
Variable square : float -> float.
Variable format_2f : float -> string.

(** Publication Trend makes one table, the one [dropna] returns, and
    changes none. *)
Lemma publication_trend_run (data : Store.ref) (df : DataFrame)
  (s : Store.t) :
  nth_error s data = Some df ->
  exists made,
    InStore.PublicationTrendAnalyzer.analyze
      str_to_num float linregress square format_2f data s
    = (PublicationTrendAnalyzer.analyze
         str_to_num float linregress square format_2f df, s ++ made).
Proof.
  intros H.
  unfold InStore.PublicationTrendAnalyzer.analyze,
    PublicationTrendAnalyzer.analyze.
  unfold Store.bind at 1. rewrite (run_dropna _ _ _ _ H).
  destruct (pd.dropna df "publication date") as [dropped|e]; cbn [bind].
  - exists [dropped].
    unfold Store.bind at 1.
    rewrite (run_getitem _ _ _ _ (nth_error_new s dropped)).
    destruct (pd.getitem dropped "publication date") as [col|e];
      cbn [bind]; [|reflexivity].
    unfold Store.bind at 1, Store.lift at 1.
    destruct (pd.astype_int
                (pd.dropna_values (pd.to_numeric str_to_num col)))
      as [years|e]; cbn [bind]; [|reflexivity].
    destruct (negb (empty _)); [|reflexivity].
    unfold Store.bind, Store.lift.
    now destruct (linregress _ _).
  - exists []. now rewrite app_nil_r.
Qed.

Lemma authors_run (data : Store.ref) (df : DataFrame) (s : Store.t) :
  nth_error s data = Some df ->
  InStore.AuthorsAnalyzer.analyze data s = (AuthorsAnalyzer.analyze df, s).
Proof.
  intros H. unfold InStore.AuthorsAnalyzer.analyze, AuthorsAnalyzer.analyze.
  unfold Store.bind. rewrite (run_getitem _ _ _ _ H).
  now destruct (pd.getitem df "author").
Qed.

Lemma language_distribution_run (data : Store.ref) (df : DataFrame)
  (s : Store.t) :
  nth_error s data = Some df ->
  InStore.LanguageDistributionAnalyzer.analyze data s
  = (LanguageDistributionAnalyzer.analyze df, s).
Proof.
  intros H. unfold InStore.LanguageDistributionAnalyzer.analyze,
    LanguageDistributionAnalyzer.analyze.
  unfold Store.bind. rewrite (run_getitem _ _ _ _ H).
  now destruct (pd.getitem df "language").
Qed.

Lemma publisher_run (data : Store.ref) (df : DataFrame) (s : Store.t) :
  nth_error s data = Some df ->
  InStore.PublisherAnalyzer.analyze data s
  = (PublisherAnalyzer.analyze df, s).
Proof.
  intros H. unfold InStore.PublisherAnalyzer.analyze,
    PublisherAnalyzer.analyze.
  unfold Store.bind. rewrite (run_getitem _ _ _ _ H).
  now destruct (pd.getitem df "book publisher").
Qed.

Lemma missing_isbn_run (data : Store.ref) (df : DataFrame) (s : Store.t) :
  nth_error s data = Some df ->
  InStore.MissingISBNAnalyzer.analyze data s
  = (MissingISBNAnalyzer.analyze df, s).
Proof.
  intros H. unfold InStore.MissingISBNAnalyzer.analyze,
    MissingISBNAnalyzer.analyze.
  unfold Store.bind. rewrite (run_len _ _ _ H), (run_getitem _ _ _ _ H).
  now destruct (pd.getitem df "ISBN").
Qed.

Lemma language_year_run (data : Store.ref) (df : DataFrame) (s : Store.t) :
  nth_error s data = Some df ->
  InStore.LanguageYearAnalyzer.analyze data s
  = (LanguageYearAnalyzer.analyze df, s).
Proof.
  intros H. unfold InStore.LanguageYearAnalyzer.analyze,
    LanguageYearAnalyzer.analyze.
  unfold Store.bind. rewrite (run_groupby_size _ _ _ _ _ H).
  now destruct (pd.groupby_size df "publication date" "language").
Qed.

Local Abbreviation store_analyzers :=
  (InStore.CLI.analyzers str_to_num float linregress square format_2f).

Local Abbreviation table_analyzers :=
  (CLI.analyzers float
     (CLI.init str_to_num float linregress square format_2f "")).

Lemma publication_trend_refines :
  refines
    (InStore.CLI.publication_trend
       str_to_num float linregress square format_2f)
    (CLI.publication_trend str_to_num float linregress square format_2f).
Proof.
  split; [reflexivity|]. intros data df s H.
  destruct (publication_trend_run data df s H) as [made Hrun].
  exists made. cbn [InStore.analyze InStore.CLI.publication_trend
                      analyze CLI.publication_trend].
  unfold Store.bind. rewrite Hrun.
  now destruct (PublicationTrendAnalyzer.analyze _ _ _ _ _ df).
Qed.

Lemma authors_refines :
  refines (InStore.CLI.authors float) (CLI.authors float).
Proof.
  split; [reflexivity|]. intros data df s H. exists [].
  cbn [InStore.analyze InStore.CLI.authors analyze CLI.authors].
  unfold Store.bind. rewrite (authors_run data df s H), app_nil_r.
  now destruct (AuthorsAnalyzer.analyze df).
Qed.

Lemma language_distribution_refines :
  refines (InStore.CLI.language_distribution float)
    (CLI.language_distribution float).
Proof.
  split; [reflexivity|]. intros data df s H. exists [].
  cbn [InStore.analyze InStore.CLI.language_distribution
         analyze CLI.language_distribution].
  unfold Store.bind.
  rewrite (language_distribution_run data df s H), app_nil_r.
  now destruct (LanguageDistributionAnalyzer.analyze df).
Qed.

Lemma publisher_refines :
  refines (InStore.CLI.publisher float) (CLI.publisher float).
Proof.
  split; [reflexivity|]. intros data df s H. exists [].
  cbn [InStore.analyze InStore.CLI.publisher analyze CLI.publisher].
  unfold Store.bind. rewrite (publisher_run data df s H), app_nil_r.
  now destruct (PublisherAnalyzer.analyze df).
Qed.

Lemma missing_isbn_refines :
  refines (InStore.CLI.missing_isbn float) (CLI.missing_isbn float).
Proof.
  split; [reflexivity|]. intros data df s H. exists [].
  cbn [InStore.analyze InStore.CLI.missing_isbn analyze CLI.missing_isbn].
  unfold Store.bind. rewrite (missing_isbn_run data df s H), app_nil_r.
  now destruct (MissingISBNAnalyzer.analyze df).
Qed.

Lemma language_year_refines :
  refines (InStore.CLI.language_year float) (CLI.language_year float).
Proof.
  split; [reflexivity|]. intros data df s H. exists [].
  cbn [InStore.analyze InStore.CLI.language_year
         analyze CLI.language_year].
  unfold Store.bind. rewrite (language_year_run data df s H), app_nil_r.
  now destruct (LanguageYearAnalyzer.analyze df).
Qed.

(** The two registries, entry by entry. *)
Lemma store_analyzers_entries :
  store_analyzers =
  [ ("1", InStore.CLI.publication_trend
            str_to_num float linregress square format_2f);
    ("2", InStore.CLI.authors float);
    ("3", InStore.CLI.language_distribution float);
    ("4", InStore.CLI.publisher float);
    ("5", InStore.CLI.missing_isbn float);
    ("6", InStore.CLI.language_year float) ].
Proof. reflexivity. Qed.

Lemma table_analyzers_entries :
  table_analyzers =
  [ ("1", CLI.publication_trend str_to_num float linregress square format_2f);
    ("2", CLI.authors float);
    ("3", CLI.language_distribution float);
    ("4", CLI.publisher float);
    ("5", CLI.missing_isbn float);
    ("6", CLI.language_year float) ].
Proof. reflexivity. Qed.

(** Under every key the two registries hold the same strategy, on a
    reference in the one and on the table in the other. *)
Lemma registry_refines (key : string) :
  match AnalysisContext.get_analyzer store_analyzers key,
        AnalysisContext.get_analyzer table_analyzers key with
  | Some a, Some p => refines a p
  | None, None => True
  | _, _ => False
  end.
Proof.
  rewrite store_analyzers_entries, table_analyzers_entries.
  unfold AnalysisContext.get_analyzer. cbn [find fst].
  destruct ("1" =? key)%string;
    [cbn [option_map snd]; apply publication_trend_refines|].
  destruct ("2" =? key)%string;
    [cbn [option_map snd]; apply authors_refines|].
  destruct ("3" =? key)%string;
    [cbn [option_map snd]; apply language_distribution_refines|].
  destruct ("4" =? key)%string;
    [cbn [option_map snd]; apply publisher_refines|].
  destruct ("5" =? key)%string;
    [cbn [option_map snd]; apply missing_isbn_refines|].
  destruct ("6" =? key)%string;
    [cbn [option_map snd]; apply language_year_refines|].
  exact I.
Qed.

Lemma registered_refines (analyzer : InStore.IAnalyzer float) :
  is_registered store_analyzers analyzer -> exists p, refines analyzer p.
Proof.
  intros [key Hkey]. pose proof (registry_refines key) as H.
  rewrite Hkey in H.
  destruct (AnalysisContext.get_analyzer table_analyzers key) as [p|];
    [now exists p | contradiction].
Qed.

(** Whatever registered strategies run, the store keeps the tables it
    had. *)
Lemma store_after_keeps (invoked : list (InStore.IAnalyzer float))
  (data : Store.ref) (df : DataFrame) (s : Store.t) :
  Forall (is_registered store_analyzers) invoked ->
  nth_error s data = Some df ->
  exists made, store_after invoked data s = s ++ made.
Proof.
  intros Hall. revert s.
  induction Hall as [|a rest Ha Hrest IH]; intros s H; simpl.
  - exists []. now rewrite app_nil_r.
  - destruct (registered_refines a Ha) as [p [_ Hp]].
    destruct (Hp data df s H) as [made Hrun]. rewrite Hrun. cbn [snd].
    destruct (IH (s ++ made) (nth_error_kept s made data df H))
      as [made' Hafter].
    exists (made ++ made'). now rewrite Hafter, app_assoc.
Qed.

(** C7: a strategy that [__init__] registers, run on a reference to a
    table, changes no table of the store: the store it leaves holds
    the tables it held, the table it was given among them, and after
    them the tables the strategy has made.  Run again on that store it
    returns what it returned the first time, result or exception; and
    it still does so, on a table that is still the same, after any
    registered strategies have run on the table in between. *)
Theorem rerun_identical (analyzer : InStore.IAnalyzer float)
  (invoked : list (InStore.IAnalyzer float))
  (data : Store.ref) (df : DataFrame) (s : Store.t) :
  is_registered store_analyzers analyzer ->
  Forall (is_registered store_analyzers) invoked ->
  nth_error s data = Some df ->
  exists result made,
    InStore.analyze analyzer data s = (result, s ++ made)
    /\ nth_error (s ++ made) data = Some df
    /\ fst (InStore.analyze analyzer data (s ++ made)) = result
    /\ (exists made', store_after invoked data (s ++ made)
                      = s ++ made ++ made')
    /\ nth_error (store_after invoked data (s ++ made)) data = Some df
    /\ fst (InStore.analyze analyzer data
              (store_after invoked data (s ++ made))) = result.
Proof.
  intros Ha Hall H.
  destruct (registered_refines analyzer Ha) as [p [_ Hp]].
  destruct (Hp data df s H) as [made Hrun].
  exists (analyze p df), made.
  pose proof (nth_error_kept s made data df H) as H1.
  split; [exact Hrun|]. split; [exact H1|].
  split.
  { destruct (Hp data df (s ++ made) H1) as [made2 Hrun2].
    now rewrite Hrun2. }
  destruct (store_after_keeps invoked data df (s ++ made) Hall H1)
    as [made' Hafter].
  rewrite Hafter.
  pose proof (nth_error_kept (s ++ made) made' data df H1) as H2.
  split; [exists made'; now rewrite app_assoc|].
  split; [exact H2|].
  destruct (Hp data df ((s ++ made) ++ made') H2) as [made3 Hrun3].
  now rewrite Hrun3.
Qed.

End StoreFacts.

(** Publication Trend on the fixture, then Missing-ISBN and Publication
    Trend again in between, then Publication Trend once more. *)
Lemma rerun_identical_witness :
  let registry :=
    InStore.CLI.analyzers decimal_str_to_num unit linregress_shape
      (fun r => r) (fun _ => "nan") in
  let trend :=
    InStore.CLI.publication_trend decimal_str_to_num unit linregress_shape
      (fun r => r) (fun _ => "nan") in
  is_registered registry trend
  /\ Forall (is_registered registry) [InStore.CLI.missing_isbn unit; trend]
  /\ nth_error [sample_data] 0 = Some sample_data
  /\ exists result made,
       InStore.analyze trend 0%nat [sample_data]
         = (result, [sample_data] ++ made)
       /\ nth_error ([sample_data] ++ made) 0 = Some sample_data
       /\ fst (InStore.analyze trend 0%nat
                 (store_after [InStore.CLI.missing_isbn unit; trend] 0%nat
                    ([sample_data] ++ made))) = result.
Proof.
  intros registry trend.
  assert (H1 : is_registered registry trend) by (exists "1"; reflexivity).
  assert (H5 : is_registered registry (InStore.CLI.missing_isbn unit))
    by (exists "5"; reflexivity).
  assert (Hall : Forall (is_registered registry)
                   [InStore.CLI.missing_isbn unit; trend])
    by (repeat constructor; assumption).
  split; [exact H1|]. split; [exact Hall|]. split; [reflexivity|].
  destruct (rerun_identical decimal_str_to_num unit linregress_shape
              (fun r => r) (fun _ => "nan") trend
              [InStore.CLI.missing_isbn unit; trend] 0%nat sample_data
              [sample_data] H1 Hall eq_refl)
    as [result [made [Hrun [Hkept [_ [_ [_ Hagain]]]]]]].
  exists result, made. auto.
Defined.

(** X24: each strategy, run on a reference that names a table, returns
    what it returns as a function of that table.  Publication Trend
    leaves the store with one table more, the one that [dropna] has
    made (none when the column is not there); the five others leave
    the store as it was. *)
Theorem strategies_on_a_reference
  (str_to_num : string -> option num) (float : Type)
  (linregress : list Z -> list Z -> exc (LinregressResult float))
  (square : float -> float) (format_2f : float -> string)
  (data : Store.ref) (df : DataFrame) (s : Store.t) :
  nth_error s data = Some df ->
  InStore.PublicationTrendAnalyzer.analyze
    str_to_num float linregress square format_2f data s
  = (PublicationTrendAnalyzer.analyze
       str_to_num float linregress square format_2f df,
     match pd.dropna df "publication date" with
     | Ok dropped => s ++ [dropped]
     | Raise _ => s
     end)
  /\ InStore.AuthorsAnalyzer.analyze data s = (AuthorsAnalyzer.analyze df, s)
  /\ InStore.LanguageDistributionAnalyzer.analyze data s
     = (LanguageDistributionAnalyzer.analyze df, s)
  /\ InStore.PublisherAnalyzer.analyze data s
     = (PublisherAnalyzer.analyze df, s)
  /\ InStore.MissingISBNAnalyzer.analyze data s
     = (MissingISBNAnalyzer.analyze df, s)
  /\ InStore.LanguageYearAnalyzer.analyze data s
     = (LanguageYearAnalyzer.analyze df, s).
Proof.
  intros H. split.
  { unfold InStore.PublicationTrendAnalyzer.analyze,
      PublicationTrendAnalyzer.analyze.
    unfold Store.bind at 1. rewrite (run_dropna _ _ _ _ H).
    destruct (pd.dropna df "publication date") as [dropped|e]; cbn [bind];
      [|reflexivity].
    unfold Store.bind at 1.
    rewrite (run_getitem _ _ _ _ (nth_error_new s dropped)).
    destruct (pd.getitem dropped "publication date") as [col|e];
      cbn [bind]; [|reflexivity].
    unfold Store.bind at 1, Store.lift at 1.
    destruct (pd.astype_int
                (pd.dropna_values (pd.to_numeric str_to_num col)))
      as [years|e]; cbn [bind]; [|reflexivity].
    destruct (negb (empty _)); [|reflexivity].
    unfold Store.bind, Store.lift.
    now destruct (linregress _ _). }
  split; [now apply authors_run|].
  split; [now apply language_distribution_run|].
  split; [now apply publisher_run|].
  split; [now apply missing_isbn_run|].
  now apply language_year_run.
Qed.

Lemma strategies_on_a_reference_witness :
  nth_error [empty_data; sample_data] 1 = Some sample_data
  /\ InStore.MissingISBNAnalyzer.analyze 1%nat [empty_data; sample_data]
     = (Ok [(Str "Missing ISBN", 2); (Str "With ISBN", 6)],
        [empty_data; sample_data]).
Proof.
  split; [reflexivity|].
  exact (proj1 (proj2 (proj2 (proj2 (proj2
           (strategies_on_a_reference decimal_str_to_num unit
              linregress_shape (fun r => r) (fun _ => "nan")
              1%nat sample_data [empty_data; sample_data] eq_refl)))))).
Defined.

(** X25: [load_data] adds one table to the store, the cleaned form of
    the table read, and returns the reference to it; the tables that
    were there stay as they were, and nothing is added when the file
    cannot be read. *)
Theorem load_data_in_store (str_to_num : string -> option num)
  (read_csv : string -> nat -> CSVDataLoader.read_result)
  (str : exn -> string)
  (self : CSVDataLoader.t) (file_path : string) (s : Store.t) :
  InStore.CSVDataLoader.load_data str_to_num read_csv str self file_path s =
  match CSVDataLoader.load_data str_to_num read_csv self file_path with
  | CSVDataLoader.Loaded df =>
      (InStore.CSVDataLoader.Loaded (List.length s), s ++ [df])
  | CSVDataLoader.FileNotFoundError message =>
      (InStore.CSVDataLoader.FileNotFoundError message, s)
  | CSVDataLoader.LoadException message =>
      (InStore.CSVDataLoader.LoadException message, s)
  end.
Proof.
  unfold InStore.CSVDataLoader.load_data, CSVDataLoader.load_data.
  destruct (read_csv file_path (CSVDataLoader.limit self)) as [frame| |text];
    try reflexivity.
  unfold Store.bind at 1, Store.new at 1.
  unfold Store.bind at 1.
  rewrite (run_has_column _ _ _ _ (nth_error_new s frame)).
  unfold CSVDataLoader.coerce_publication_date.
  destruct (has_column frame "publication date") eqn:E; [|reflexivity].
  unfold Store.bind at 1.
  rewrite (run_getitem _ _ _ _ (nth_error_new s frame)).
  unfold pd.getitem. rewrite E.
  unfold Store.bind at 1.
  rewrite (run_setitem _ _ _ _ _ (nth_error_new s frame)).
  now rewrite replace_new.
Qed.



(* ================================================================== *)
(** * Top ten and 'Other' *)

Lemma setitem_new (s : Series cell) (key : cell) (v : Z) :
  mem key (index s) = false -> pd.setitem s key v = s ++ [(key, v)].
Proof.
  unfold mem, index. induction s as [|[k n] s IH]; simpl.
  - reflexivity.
  - intros H. apply orb_false_iff in H. destruct H as [Hk Hs].
    rewrite Hk. now rewrite IH.
Qed.

(** X10: the collapsing when none of the first ten labels is 'Other': a
    series of more than ten entries becomes its first ten entries
    followed by 'Other' with the sum of the others, eleven entries with
    the sum of the whole; a shorter series is passed on as it is. *)
Lemma top_languages_collapse (result : Series cell) :
  mem (Str "Other") (index (firstn 10 result)) = false ->
  ((10 < List.length result)%nat ->
     CLI.top_languages result =
       firstn 10 result
       ++ [(Str "Other", sum (values (skipn 10 result)))]
     /\ List.length (CLI.top_languages result) = 11%nat
     /\ sum (values (CLI.top_languages result)) = sum (values result))
  /\ ((List.length result <= 10)%nat -> CLI.top_languages result = result).
Proof.
  intros Hother. unfold CLI.top_languages, pd.head, pd.iloc_from. split.
  - intros Hlen.
    destruct (10 <? Z.of_nat (List.length result)) eqn:E; [|lia].
    rewrite (setitem_new _ _ _ Hother).
    split; [reflexivity|]. split.
    + rewrite length_app, length_firstn, Nat.min_l by lia. reflexivity.
    + unfold values. rewrite map_app, sum_app.
      rewrite <- (firstn_skipn 10 result) at 3.
      rewrite map_app, sum_app. simpl. lia.
  - intros Hlen.
    destruct (10 <? Z.of_nat (List.length result)) eqn:E; [lia|reflexivity].
Qed.

Lemma top_publishers_collapse (result : Series cell) :
  CLI.top_publishers result = CLI.top_languages result.
Proof. reflexivity. Qed.

(** C9, at a distribution of eleven languages whose most frequent one
    is called 'Other': the assignment to the label 'Other' replaces the
    count of that language, so the series that is drawn has ten
    entries, not eleven, and its sum is 55, not the 66 of the
    distribution. *)
Theorem top_languages_other_label :
  List.length other_series = 11%nat
  /\ CLI.top_languages other_series =
       [ (Str "Other", 1); (Str "English", 10); (Str "Tamil", 9);
         (Str "French", 8); (Str "Spanish", 7); (Str "German", 6);
         (Str "Hindi", 5); (Str "Sinhala", 4); (Str "Arabic", 3);
         (Str "Latin", 2) ]
  /\ CLI.top_publishers other_series = CLI.top_languages other_series
  /\ List.length (CLI.top_languages other_series) = 10%nat
  /\ sum (values (CLI.top_languages other_series)) = 55
  /\ sum (values other_series) = 66.
Proof. repeat (split; [reflexivity|]). reflexivity. Qed.

(* ================================================================== *)
(** * Distributions *)

Lemma sum_values_bump {K : Type} (eqb : K -> K -> bool) (x : K)
  (s : Series K) :
  sum (values (pd.bump eqb x s)) = sum (values s) + 1.
Proof.
  unfold values. induction s as [|[k n] s IH]; simpl.
  - reflexivity.
  - destruct (eqb k x); simpl; lia.
Qed.

Lemma sum_values_tally {K : Type} (eqb : K -> K -> bool) (xs : list K) :
  sum (values (pd.tally eqb xs)) = Z.of_nat (List.length xs).
Proof.
  induction xs as [|x xs IH] using rev_ind.
  - reflexivity.
  - rewrite tally_snoc, sum_values_bump, IH, length_app. simpl. lia.
Qed.

Lemma sum_values_perm {K : Type} (s s' : Series K) :
  Permutation s s' -> sum (values s) = sum (values s').
Proof.
  unfold values.
  induction 1 as [|e s s' Hp IH|e1 e2 s|s s' s'' H1 IH1 H2 IH2]; simpl; lia.
Qed.

Lemma sum_value_counts_cells (col : list cell) :
  sum (values (pd.value_counts_cells col)) =
  Z.of_nat (List.length (filter notna col)).
Proof.
  unfold pd.value_counts_cells.
  rewrite (sum_values_perm _ _ (value_counts_perm cell_eqb _)).
  apply sum_values_tally.
Qed.

Lemma count_present_column (df : DataFrame) (c : string) :
  Z.of_nat (List.length (filter notna (column df c))) = count_present df c.
Proof.
  unfold count_present, count_rows, column.
  now rewrite filter_map_swap, length_map.
Qed.

(** What [value_counts] makes of a column of cells. *)
Lemma distribution_of_column (col : list cell) :
  let res := pd.value_counts_cells col in
  distinct_keys cell_eqb res
  /\ (forall k n, In (k, n) res ->
        notna k = true /\ 0 < n /\ n = occurrences cell_eqb k col)
  /\ (forall x, In x col -> notna x = true ->
        exists e, In e res /\ cell_eqb (fst e) x = true)
  /\ non_increasing (values res)
  /\ (forall a b, before a b res -> snd a = snd b ->
        met_before cell_eqb (fst a) (fst b) col = true)
  /\ sum (values res) = Z.of_nat (List.length (filter notna col)).
Proof.
  intros res. unfold res.
  split. { apply (value_counts_distinct cell_eqb cell_eqb_sym). }
  split. { intros k n. apply value_counts_cells_In. }
  split.
  { intros x Hx Hn.
    apply (value_counts_has_key cell_eqb cell_eqb_refl cell_eqb_sym
             cell_eqb_trans).
    apply filter_In. auto. }
  split. { apply value_counts_non_increasing. }
  split.
  { intros a b Hb Hc.
    assert (Ha : notna (fst a) = true).
    { destruct a as [k n]. apply before_In_l in Hb.
      now apply value_counts_cells_In in Hb. }
    assert (Hb' : notna (fst b) = true).
    { destruct b as [k n]. apply before_In_r in Hb.
      now apply value_counts_cells_In in Hb. }
    rewrite <- (met_before_notna _ _ col Ha Hb').
    now apply (value_counts_ties cell_eqb cell_eqb_refl cell_eqb_sym
                 cell_eqb_trans). }
  apply sum_value_counts_cells.
Qed.

(** X1: on a table that has a 'language' column the Language
    Distribution strategy leaves no language out: every language of
    the column has its entry, the entries have distinct languages and
    the exact numbers of rows, most frequent first with ties in the
    order in which the languages are first met, and the counts add up
    to the number of rows that have a language. *)
Theorem language_distribution (df : DataFrame) :
  has_column df "language" = true ->
  exists res,
    LanguageDistributionAnalyzer.analyze df = Ok res
    /\ distinct_keys cell_eqb res
    /\ (forall k n, In (k, n) res ->
          notna k = true /\ 0 < n
          /\ n = occurrences cell_eqb k (column df "language"))
    /\ (forall x, In x (column df "language") -> notna x = true ->
          exists e, In e res /\ cell_eqb (fst e) x = true)
    /\ non_increasing (values res)
    /\ (forall a b, before a b res -> snd a = snd b ->
          met_before cell_eqb (fst a) (fst b) (column df "language") = true)
    /\ sum (values res) = count_present df "language".
Proof.
  intros Hcol. unfold LanguageDistributionAnalyzer.analyze.
  rewrite (getitem_column df _ Hcol). cbn [bind].
  eexists. split; [reflexivity|].
  rewrite <- count_present_column. apply distribution_of_column.
Qed.

Lemma language_distribution_witness :
  has_column sample_data "language" = true
  /\ exists res,
       LanguageDistributionAnalyzer.analyze sample_data = Ok res
       /\ sum (values res) = 8.
Proof.
  split; [reflexivity|].
  destruct (language_distribution sample_data eq_refl)
    as [res [H1 [_ [_ [_ [_ [_ H7]]]]]]].
  exists res. split; [exact H1 | exact H7].
Defined.

(** X2: on a table that has a 'book publisher' column the Publisher
    Counts strategy leaves no publisher out: every publisher of the
    column has its entry, the entries have distinct publishers and the
    exact numbers of rows, most frequent first with ties in the order
    in which the publishers are first met, and the counts add up to the
    number of rows that have a publisher. *)
Theorem publisher_counts (df : DataFrame) :
  has_column df "book publisher" = true ->
  exists res,
    PublisherAnalyzer.analyze df = Ok res
    /\ distinct_keys cell_eqb res
    /\ (forall k n, In (k, n) res ->
          notna k = true /\ 0 < n
          /\ n = occurrences cell_eqb k (column df "book publisher"))
    /\ (forall x, In x (column df "book publisher") -> notna x = true ->
          exists e, In e res /\ cell_eqb (fst e) x = true)
    /\ non_increasing (values res)
    /\ (forall a b, before a b res -> snd a = snd b ->
          met_before cell_eqb (fst a) (fst b)
            (column df "book publisher") = true)
    /\ sum (values res) = count_present df "book publisher".
Proof.
  intros Hcol. unfold PublisherAnalyzer.analyze.
  rewrite (getitem_column df _ Hcol). cbn [bind].
  eexists. split; [reflexivity|].
  rewrite <- count_present_column. apply distribution_of_column.
Qed.

Lemma publisher_counts_witness :
  has_column sample_data "book publisher" = true
  /\ exists res,
       PublisherAnalyzer.analyze sample_data = Ok res
       /\ sum (values res) = 8.
Proof.
  split; [reflexivity|].
  destruct (publisher_counts sample_data eq_refl)
    as [res [H1 [_ [_ [_ [_ [_ H7]]]]]]].
  exists res. split; [exact H1 | exact H7].
Defined.

(** X3: Top Authors is the head of the full distribution of the authors:
    its counts add up to at most the number of rows that have an
    author, and to exactly that number when the column has at most five
    distinct authors, in which case no author is left out. *)
Theorem top_authors_total (df : DataFrame) :
  has_column df "author" = true ->
  exists res,
    AuthorsAnalyzer.analyze df = Ok res
    /\ res = firstn 5 (pd.value_counts_cells (column df "author"))
    /\ sum (values res) <= count_present df "author"
    /\ ((List.length (pd.value_counts_cells (column df "author")) <= 5)%nat ->
        sum (values res) = count_present df "author"
        /\ forall x, In x (column df "author") -> notna x = true ->
             exists e, In e res /\ cell_eqb (fst e) x = true).
Proof.
  intros Hcol. unfold AuthorsAnalyzer.analyze.
  rewrite (getitem_column df _ Hcol). cbn [bind]. unfold pd.head.
  set (vc := pd.value_counts_cells (column df "author")).
  exists (firstn 5 vc). split; [reflexivity|]. split; [reflexivity|].
  assert (Hsum : sum (values vc) = count_present df "author").
  { unfold vc. rewrite sum_value_counts_cells. apply count_present_column. }
  split.
  - rewrite <- Hsum. rewrite <- (firstn_skipn 5 vc) at 2.
    unfold values. rewrite map_app, sum_app.
    assert (Hpos : 0 <= sum (map snd (skipn 5 vc))).
    { assert (Hf : Forall (fun e : cell * Z => 0 < snd e) (skipn 5 vc)).
      { apply Forall_forall. intros [k n] He.
        assert (Hin : In (k, n) vc).
        { rewrite <- (firstn_skipn 5 vc). apply in_or_app. now right. }
        apply value_counts_cells_In in Hin. simpl. tauto. }
      induction Hf as [|e l He Hl IH]; simpl; lia. }
    lia.
  - intros Hlen. rewrite (firstn_all2 vc Hlen). split; [exact Hsum|].
    intros x Hx Hn.
    apply (value_counts_has_key cell_eqb cell_eqb_refl cell_eqb_sym
             cell_eqb_trans).
    apply filter_In. auto.
Qed.

Lemma top_authors_total_witness :
  has_column sample_data "author" = true
  /\ exists res,
       AuthorsAnalyzer.analyze sample_data = Ok res
       /\ sum (values res) <= count_present sample_data "author".
Proof.
  split; [reflexivity|].
  destruct (top_authors_total sample_data eq_refl) as [res [H1 [_ [H3 _]]]].
  exists res. split; [exact H1 | exact H3].
Defined.

(* ================================================================== *)
(** * Tables without the column of a strategy *)

Lemma getitem_missing (df : DataFrame) (c : string) :
  has_column df c = false -> pd.getitem df c = Raise (KeyError c).
Proof. intros H. unfold pd.getitem. now rewrite H. Qed.

(** X4: a strategy raises KeyError, with the name of its column, on a
    table that does not have the column; the Language-by-Year Grid
    names the publication date first and the language when only the
    language is not there. *)
Theorem strategies_need_their_column
  (str_to_num : string -> option num) (float : Type)
  (linregress : list Z -> list Z -> exc (LinregressResult float))
  (square : float -> float) (format_2f : float -> string)
  (df : DataFrame) :
  (has_column df "publication date" = false ->
     PublicationTrendAnalyzer.analyze
       str_to_num float linregress square format_2f df
     = Raise (KeyError "publication date")
     /\ LanguageYearAnalyzer.analyze df
        = Raise (KeyError "publication date"))
  /\ (has_column df "publication date" = true ->
      has_column df "language" = false ->
      LanguageYearAnalyzer.analyze df = Raise (KeyError "language"))
  /\ (has_column df "author" = false ->
      AuthorsAnalyzer.analyze df = Raise (KeyError "author"))
  /\ (has_column df "language" = false ->
      LanguageDistributionAnalyzer.analyze df = Raise (KeyError "language"))
  /\ (has_column df "book publisher" = false ->
      PublisherAnalyzer.analyze df = Raise (KeyError "book publisher"))
  /\ (has_column df "ISBN" = false ->
      MissingISBNAnalyzer.analyze df = Raise (KeyError "ISBN")).
Proof.
  split.
  { intros H. split.
    - unfold PublicationTrendAnalyzer.analyze, pd.dropna. now rewrite H.
    - unfold LanguageYearAnalyzer.analyze, pd.groupby_size.
      now rewrite (getitem_missing df _ H). }
  split.
  { intros H1 H2. unfold LanguageYearAnalyzer.analyze, pd.groupby_size.
    now rewrite (getitem_column df _ H1), (getitem_missing df _ H2). }
  split.
  { intros H. unfold AuthorsAnalyzer.analyze.
    now rewrite (getitem_missing df _ H). }
  split.
  { intros H. unfold LanguageDistributionAnalyzer.analyze.
    now rewrite (getitem_missing df _ H). }
  split.
  { intros H. unfold PublisherAnalyzer.analyze.
    now rewrite (getitem_missing df _ H). }
  intros H. unfold MissingISBNAnalyzer.analyze.
  now rewrite (getitem_missing df _ H).
Qed.

Lemma strategies_need_their_column_witness :
  has_column no_date_data "publication date" = false
  /\ LanguageYearAnalyzer.analyze no_date_data
     = Raise (KeyError "publication date").
Proof.
  split; [reflexivity|].
  exact (proj2 (proj1 (strategies_need_their_column decimal_str_to_num unit
                         linregress_shape (fun r => r) (fun _ => "nan")
                         no_date_data) eq_refl)).
Defined.

(* ================================================================== *)
(** * More on the Publication Trend *)

Section TrendExtras.

Variable str_to_num : string -> option num.
Variable float : Type.
Variable linregress : list Z -> list Z -> exc (LinregressResult float).
Variable square : float -> float.
Variable format_2f : float -> string.

Local Abbreviation analyze :=
  (PublicationTrendAnalyzer.analyze
     str_to_num float linregress square format_2f).

Local Abbreviation trends df :=
  (pd.sort_index Z.leb (pd.value_counts Z.eqb (years_of str_to_num df))).

Lemma trend_no_column (df : DataFrame) :
  has_column df "publication date" = false ->
  analyze df = Raise (KeyError "publication date").
Proof.
  intros H. unfold PublicationTrendAnalyzer.analyze, pd.dropna.
  now rewrite H.
Qed.

Section WithContract.

Hypothesis linregress_returns :
  forall x y, x <> [] -> List.length x = List.length y ->
    (amax x = amin x -> (List.length x <= 1)%nat) ->
    exists r, linregress x y = Ok r.

Lemma trend_returns_series (df : DataFrame) :
  has_column df "publication date" = true ->
  has_infinite_date str_to_num df = false ->
  exists res, analyze df = Ok res /\ counts res = trends df.
Proof.
  intros Hcol Hfin.
  rewrite (analyze_unfold str_to_num float linregress square format_2f
             df Hcol Hfin). cbv zeta.
  destruct (empty (trends df)) eqn:E; cbn [negb].
  - eexists. split; reflexivity.
  - destruct (linregress_on_series float linregress linregress_returns
                (years_of str_to_num df)) as [r Hr].
    { intros H. rewrite H in E. discriminate. }
    rewrite Hr. cbn [bind]. eexists. split; reflexivity.
Qed.

(** X5: the Publication Trend strategy raises on exactly two kinds of
    table: one without a 'publication date' column (KeyError), and one
    with the column and an infinite date in it (IntCastingNaNError);
    on every other table it returns. *)
Theorem publication_trend_raises (df : DataFrame) :
  raises (analyze df) =
    negb (has_column df "publication date")
    || has_infinite_date str_to_num df
  /\ (has_column df "publication date" = false ->
      analyze df = Raise (KeyError "publication date"))
  /\ (has_column df "publication date" = true ->
      has_infinite_date str_to_num df = true ->
      analyze df = Raise IntCastingNaNError).
Proof.
  split; [|split].
  - destruct (has_column df "publication date") eqn:Hcol; cbn [negb orb].
    + destruct (has_infinite_date str_to_num df) eqn:Hinf.
      * now rewrite (analyze_infinite str_to_num float linregress square
                       format_2f df Hcol Hinf).
      * destruct (trend_returns_series df Hcol Hinf) as [res [Hres _]].
        now rewrite Hres.
    + now rewrite (trend_no_column df Hcol).
  - apply trend_no_column.
  - apply analyze_infinite.
Qed.

End WithContract.

End TrendExtras.

Lemma publication_trend_raises_witness :
  (forall x y, x <> [] -> List.length x = List.length y ->
     (amax x = amin x -> (List.length x <= 1)%nat) ->
     exists r, linregress_shape x y = Ok r)
  /\ raises (PublicationTrendAnalyzer.analyze decimal_str_to_num unit
               linregress_shape (fun r => r) (fun _ => "nan") sample_data)
     = false
  /\ raises (PublicationTrendAnalyzer.analyze decimal_str_to_num unit
               linregress_shape (fun r => r) (fun _ => "nan")
               infinite_date_data)
     = true.
Proof.
  split; [exact linregress_shape_returns|].
  split.
  - exact (proj1 (publication_trend_raises decimal_str_to_num unit
                    linregress_shape (fun r => r) (fun _ => "nan")
                    linregress_shape_returns sample_data)).
  - exact (proj1 (publication_trend_raises decimal_str_to_num unit
                    linregress_shape (fun r => r) (fun _ => "nan")
                    linregress_shape_returns infinite_date_data)).
Defined.

Lemma publication_trend_counts_witness :
  (forall x y, x <> [] -> List.length x = List.length y ->
     (amax x = amin x -> (List.length x <= 1)%nat) ->
     exists r, linregress_shape x y = Ok r)
  /\ has_column sample_data "publication date" = true
  /\ has_infinite_date decimal_str_to_num sample_data = false
  /\ exists res,
       PublicationTrendAnalyzer.analyze decimal_str_to_num unit
         linregress_shape (fun r => r) (fun _ => "nan") sample_data = Ok res
       /\ StronglySorted Z.lt (index (counts res))
       /\ Forall (fun y => 1000 < y < 2100) (index (counts res)).
Proof.
  split; [exact linregress_shape_returns|].
  split; [reflexivity|]. split; [reflexivity|].
  destruct (publication_trend_counts decimal_str_to_num unit linregress_shape
              (fun r => r) (fun _ => "nan") linregress_shape_returns
              sample_data eq_refl eq_refl) as [res [H1 [H2 [H3 _]]]].
  exists res. auto.
Defined.

Lemma sorted_length_bound (hi : Z) (l : list Z) (lo : Z) :
  lo <= hi + 1 ->
  StronglySorted Z.lt l -> Forall (fun y => lo <= y <= hi) l ->
  Z.of_nat (List.length l) <= hi - lo + 1.
Proof.
  revert lo. induction l as [|a l IH]; intros lo Hlo Hs Hf.
  - simpl. lia.
  - inversion Hs as [|? ? Hs' Ha]; subst. inversion Hf as [|? ? Hb Hf']; subst.
    assert (Hl : Z.of_nat (List.length l) <= hi - (a + 1) + 1).
    { apply IH; [lia | exact Hs'|].
      rewrite Forall_forall in *. intros y Hy.
      specialize (Ha y Hy). specialize (Hf' y Hy). lia. }
    simpl List.length. lia.
Qed.

Lemma length_years_of (str_to_num : string -> option num) (df : DataFrame) :
  Z.of_nat (List.length (years_of str_to_num df)) =
  count_rows (fun r => match year_of str_to_num (r "publication date") with
                       | Some _ => true
                       | None => false
                       end) df.
Proof.
  unfold years_of, count_rows, year_cell. f_equal.
  induction (rows df) as [|r l IH]; simpl; [reflexivity|].
  destruct (year_of str_to_num (r "publication date")); simpl; now rewrite IH.
Qed.

Lemma filter_length_perm {A : Type} (p : A -> bool) (l l' : list A) :
  Permutation l l' ->
  List.length (filter p l) = List.length (filter p l').
Proof.
  induction 1 as [|x l l' Hp IH|x y l|l l' l'' H1 IH1 H2 IH2]; simpl.
  - reflexivity.
  - destruct (p x); simpl; now rewrite IH.
  - destruct (p x), (p y); reflexivity.
  - congruence.
Qed.

Lemma existsb_perm {A : Type} (p : A -> bool) (l l' : list A) :
  Permutation l l' -> existsb p l = existsb p l'.
Proof.
  induction 1 as [|x l l' Hp IH|x y l|l l' l'' H1 IH1 H2 IH2]; simpl.
  - reflexivity.
  - now rewrite IH.
  - now destruct (p x), (p y).
  - congruence.
Qed.

(** Two series with strictly ascending keys and the same entries are the
    same series. *)
Lemma sorted_series_unique (s s' : Series Z) :
  StronglySorted Z.lt (index s) -> StronglySorted Z.lt (index s') ->
  (forall e, In e s <-> In e s') -> s = s'.
Proof.
  unfold index. revert s'.
  induction s as [|a t IH]; intros [|b u] Hs Hs' Hsame.
  - reflexivity.
  - exfalso. apply (proj2 (Hsame b)). now left.
  - exfalso. apply (proj1 (Hsame a)). now left.
  - simpl in Hs, Hs'.
    inversion Hs as [|? ? Hst Hat]; subst.
    inversion Hs' as [|? ? Hsu Hbu]; subst.
    rewrite Forall_forall in Hat, Hbu.
    assert (Hab : a = b).
    { destruct (proj1 (Hsame a) (or_introl eq_refl)) as [Hba|Hau];
        [now symmetry|].
      destruct (proj2 (Hsame b) (or_introl eq_refl)) as [Hab|Hbt];
        [exact Hab|].
      assert (H1 := Hbu _ (in_map fst _ _ Hau)).
      assert (H2 := Hat _ (in_map fst _ _ Hbt)). lia. }
    subst b. f_equal. apply IH; try assumption.
    intros e. split; intros He.
    + destruct (proj1 (Hsame e) (or_intror He)) as [Hae|Heu]; [|exact Heu].
      subst e. assert (H1 := Hat _ (in_map fst _ _ He)). lia.
    + destruct (proj2 (Hsame e) (or_intror He)) as [Hae|Het]; [|exact Het].
      subst e. assert (H1 := Hbu _ (in_map fst _ _ He)). lia.
Qed.

Section TrendInvariance.

Variable str_to_num : string -> option num.
Variable float : Type.
Variable linregress : list Z -> list Z -> exc (LinregressResult float).
Variable square : float -> float.
Variable format_2f : float -> string.

Local Abbreviation analyze :=
  (PublicationTrendAnalyzer.analyze
     str_to_num float linregress square format_2f).

Local Abbreviation trends df :=
  (pd.sort_index Z.leb (pd.value_counts Z.eqb (years_of str_to_num df))).

Lemma trends_sum (df : DataFrame) :
  sum (values (trends df)) =
  Z.of_nat (List.length (years_of str_to_num df)).
Proof.
  rewrite (sum_values_perm _ _ (year_series_perm _)).
  apply sum_values_tally.
Qed.

Lemma trends_same_rows (df df' : DataFrame) :
  Permutation (rows df) (rows df') -> trends df = trends df'.
Proof.
  intros Hp. apply sorted_series_unique; try apply year_series_sorted.
  intros [y n]. rewrite !year_series_In, !occurrences_years.
  unfold rows_of_year, count_rows.
  now rewrite (filter_length_perm _ _ _ Hp).
Qed.

(** X8: the Publication Trend strategy does not see the order of the
    rows: on two tables with the same columns and the same rows in any
    order it gives the same result, or raises the same exception. *)
Theorem publication_trend_row_order (df df' : DataFrame) :
  columns df = columns df' ->
  Permutation (rows df) (rows df') ->
  analyze df = analyze df'.
Proof.
  intros Hc Hp.
  assert (Hcol : has_column df' "publication date"
                 = has_column df "publication date")
    by (unfold has_column; now rewrite Hc).
  assert (Hinf : has_infinite_date str_to_num df'
                 = has_infinite_date str_to_num df)
    by (unfold has_infinite_date; symmetry; now apply existsb_perm).
  destruct (has_column df "publication date") eqn:E.
  - destruct (has_infinite_date str_to_num df) eqn:E'.
    + rewrite (analyze_infinite str_to_num float linregress square format_2f
                 df E E').
      now rewrite (analyze_infinite str_to_num float linregress square
                     format_2f df' Hcol Hinf).
    + rewrite (analyze_unfold str_to_num float linregress square format_2f
                 df E E').
      rewrite (analyze_unfold str_to_num float linregress square format_2f
                 df' Hcol Hinf).
      now rewrite (trends_same_rows df df' Hp).
  - rewrite (trend_no_column str_to_num float linregress square format_2f
               df E).
    now rewrite (trend_no_column str_to_num float linregress square
                   format_2f df' Hcol).
Qed.

Hypothesis linregress_returns :
  forall x y, x <> [] -> List.length x = List.length y ->
    (amax x = amin x -> (List.length x <= 1)%nat) ->
    exists r, linregress x y = Ok r.

(** X7: on a table that has a 'publication date' column and no
    infinite date in it, the counts of the trend series add up to the
    number of rows whose date gives a year strictly between 1000 and
    2100, and the series has at most 1099 entries. *)
Theorem publication_trend_totals (df : DataFrame) :
  has_column df "publication date" = true ->
  has_infinite_date str_to_num df = false ->
  exists res,
    analyze df = Ok res
    /\ sum (values (counts res)) =
       count_rows (fun r =>
                     match year_of str_to_num (r "publication date") with
                     | Some _ => true
                     | None => false
                     end) df
    /\ (List.length (counts res) <= 1099)%nat.
Proof.
  intros Hcol Hfin.
  destruct (trend_returns_series str_to_num float linregress square format_2f
              linregress_returns df Hcol Hfin) as [res [Hres Hc]].
  exists res. split; [exact Hres|]. rewrite Hc. split.
  - rewrite trends_sum. apply length_years_of.
  - assert (Hb : Z.of_nat (List.length (index (trends df)))
                 <= 2099 - 1001 + 1).
    { apply sorted_length_bound; [lia | apply year_series_sorted|].
      apply Forall_forall. intros y Hy. unfold index in Hy.
      apply in_map_iff in Hy. destruct Hy as [[y' n] [<- He]]. simpl.
      apply year_series_In in He. destruct He as [Hn Hpos].
      rewrite Hn in Hpos. apply occurrences_positive in Hpos.
      destruct Hpos as [x [Hx Hxy]]. apply Z.eqb_eq in Hxy. subst x.
      apply years_of_range in Hx. lia. }
    unfold index in Hb. rewrite length_map in Hb. lia.
Qed.

End TrendInvariance.

Lemma publication_trend_row_order_witness :
  columns sample_data = columns sample_data_reversed
  /\ Permutation (rows sample_data) (rows sample_data_reversed)
  /\ PublicationTrendAnalyzer.analyze decimal_str_to_num unit
       linregress_shape (fun r => r) (fun _ => "nan") sample_data
     = PublicationTrendAnalyzer.analyze decimal_str_to_num unit
         linregress_shape (fun r => r) (fun _ => "nan") sample_data_reversed.
Proof.
  split; [reflexivity|].
  assert (Hp : Permutation (rows sample_data) (rows sample_data_reversed))
    by apply Permutation_rev.
  split; [exact Hp|].
  exact (publication_trend_row_order decimal_str_to_num unit linregress_shape
           (fun r => r) (fun _ => "nan") sample_data sample_data_reversed
           eq_refl Hp).
Defined.

Lemma publication_trend_totals_witness :
  (forall x y, x <> [] -> List.length x = List.length y ->
     (amax x = amin x -> (List.length x <= 1)%nat) ->
     exists r, linregress_shape x y = Ok r)
  /\ has_column sample_data "publication date" = true
  /\ has_infinite_date decimal_str_to_num sample_data = false
  /\ exists res,
       PublicationTrendAnalyzer.analyze decimal_str_to_num unit
         linregress_shape (fun r => r) (fun _ => "nan") sample_data = Ok res
       /\ sum (values (counts res)) = 5.
Proof.
  split; [exact linregress_shape_returns|].
  split; [reflexivity|]. split; [reflexivity|].
  destruct (publication_trend_totals decimal_str_to_num unit linregress_shape
              (fun r => r) (fun _ => "nan") linregress_shape_returns
              sample_data eq_refl eq_refl) as [res [H1 [H2 _]]].
  exists res. split; [exact H1 | exact H2].
Defined.

(* ================================================================== *)
(** * The shape of the grid *)

(** X9: on a table that has the columns 'publication date' and
    'language' the grid is rectangular, one line of cells for each
    date and one cell in it for each language; no cell is negative;
    no date and no language of the grid is missing; and every line and
    every column has a cell that is not 0. *)
Theorem language_year_grid_shape (df : DataFrame) :
  has_column df "publication date" = true ->
  has_column df "language" = true ->
  exists g,
    LanguageYearAnalyzer.analyze df = Ok g
    /\ List.length (pd.grid_values g) = List.length (pd.grid_index g)
    /\ Forall (fun line => List.length line = List.length (pd.grid_columns g))
         (pd.grid_values g)
    /\ Forall (Forall (fun n => 0 <= n)) (pd.grid_values g)
    /\ Forall (fun y => notna y = true) (pd.grid_index g)
    /\ Forall (fun l => notna l = true) (pd.grid_columns g)
    /\ (forall i y, nth_error (pd.grid_index g) i = Some y ->
          exists j n, grid_cell g i j = Some n /\ 0 < n)
    /\ (forall j l, nth_error (pd.grid_columns g) j = Some l ->
          exists i n, grid_cell g i j = Some n /\ 0 < n).
Proof.
  intros H1 H2. rewrite (language_year_unfold df H1 H2).
  set (g := pd.unstack 0 (group_sizes df)).
  exists g. split; [reflexivity|].
  assert (Hidx : forall y, In y (pd.grid_index g) ->
            exists r, In r (rows df) /\ both_present r = true
                      /\ cell_eqb (r "publication date") y = true).
  { intros y Hy. apply mem_grid_index. apply mem_true. exists y.
    split; [exact Hy | apply cell_eqb_refl]. }
  assert (Hcols : forall l, In l (pd.grid_columns g) ->
            exists r, In r (rows df) /\ both_present r = true
                      /\ cell_eqb (r "language") l = true).
  { intros l Hl. apply mem_grid_columns. apply mem_true. exists l.
    split; [exact Hl | apply cell_eqb_refl]. }
  assert (Hrow_in : forall r, In r (rows df) -> both_present r = true ->
            exists i y, nth_error (pd.grid_index g) i = Some y
                        /\ cell_eqb (r "publication date") y = true).
  { intros r Hr Hb.
    assert (Hm : mem (r "publication date") (pd.grid_index g) = true).
    { apply mem_grid_index. exists r. repeat split; auto.
      apply cell_eqb_refl. }
    apply mem_true in Hm. destruct Hm as [y [Hy Hyr]].
    apply In_nth_error in Hy. destruct Hy as [i Hi].
    exists i, y. split; [exact Hi | now rewrite cell_eqb_sym]. }
  assert (Hcol_in : forall r, In r (rows df) -> both_present r = true ->
            exists j l, nth_error (pd.grid_columns g) j = Some l
                        /\ cell_eqb (r "language") l = true).
  { intros r Hr Hb.
    assert (Hm : mem (r "language") (pd.grid_columns g) = true).
    { apply mem_grid_columns. exists r. repeat split; auto.
      apply cell_eqb_refl. }
    apply mem_true in Hm. destruct Hm as [l [Hl Hlr]].
    apply In_nth_error in Hl. destruct Hl as [j Hj].
    exists j, l. split; [exact Hj | now rewrite cell_eqb_sym]. }
  assert (Hcell : forall r i j y l, In r (rows df) -> both_present r = true ->
            nth_error (pd.grid_index g) i = Some y ->
            nth_error (pd.grid_columns g) j = Some l ->
            cell_eqb (r "publication date") y = true ->
            cell_eqb (r "language") l = true ->
            exists n, grid_cell g i j = Some n /\ 0 < n).
  { intros r i j y l Hr Hb Hi Hj Hy Hl. eexists. split.
    - apply (grid_cell_value df i j y l); eassumption.
    - apply occurrences_positive.
      exists (r "publication date", r "language"). split.
      + apply group_keys_In. now exists r.
      + rewrite pair_eqb_cells. simpl. now rewrite Hy, Hl. }
  split. { unfold g, pd.unstack; cbn [pd.grid_values pd.grid_index].
           now rewrite length_map. }
  split.
  { unfold g, pd.unstack; cbn [pd.grid_values pd.grid_columns].
    apply Forall_forall. intros line Hline.
    apply in_map_iff in Hline. destruct Hline as [y [<- _]].
    now rewrite length_map. }
  split.
  { unfold g, pd.unstack; cbn [pd.grid_values]. apply Forall_forall.
    intros line Hline. apply in_map_iff in Hline.
    destruct Hline as [y [<- _]]. apply Forall_forall. intros n Hn.
    apply in_map_iff in Hn. destruct Hn as [l [<- _]].
    cbn [group_sizes pd.entries].
    rewrite lookup_grouped. apply occurrences_nonneg. }
  split.
  { apply Forall_forall. intros y Hy. now apply (grid_index_notna df). }
  split.
  { apply Forall_forall. intros l Hl. now apply (grid_columns_notna df). }
  split.
  - intros i y Hi.
    destruct (Hidx y (nth_error_In _ _ Hi)) as [r [Hr [Hb Hy]]].
    destruct (Hcol_in r Hr Hb) as [j [l [Hj Hl]]].
    exists j. now apply (Hcell r i j y l).
  - intros j l Hj.
    destruct (Hcols l (nth_error_In _ _ Hj)) as [r [Hr [Hb Hl]]].
    destruct (Hrow_in r Hr Hb) as [i [y [Hi Hy]]].
    exists i. now apply (Hcell r i j y l).
Qed.

Lemma language_year_grid_shape_witness :
  has_column sample_data "publication date" = true
  /\ has_column sample_data "language" = true
  /\ exists g,
       LanguageYearAnalyzer.analyze sample_data = Ok g
       /\ List.length (pd.grid_values g) = List.length (pd.grid_index g).
Proof.
  split; [reflexivity|]. split; [reflexivity|].
  destruct (language_year_grid_shape sample_data eq_refl eq_refl)
    as [g [H1 [H2 _]]].
  exists g. split; [exact H1 | exact H2].
Defined.

Lemma language_in_level (df : DataFrame) (r : row) :
  In r (rows df) -> notna (r "language") = true ->
  exists v, In v (pd.level1 (group_sizes df))
            /\ cell_eqb v (r "language") = true.
Proof.
  intros Hr Hn.
  assert (Hm : mem (r "language") (pd.level1 (group_sizes df)) = true).
  { cbn [group_sizes pd.level1]. rewrite mem_levels. apply mem_true.
    exists (r "language"). split; [|apply cell_eqb_refl].
    apply filter_In. split; [|exact Hn].
    unfold column. apply (in_map (fun r : row => r "language")), Hr. }
  now apply mem_true in Hm.
Qed.

(** X23: the order of the columns of the grid.  When every language of
    the table stands in some row that has a publication date, the
    columns are in ascending order.  When some language only stands in
    rows without publication date, [unstack] rebuilds the level of the
    languages, and the columns come in the order in which the groups,
    taken in ascending order of date and language, first use them. *)
Theorem language_year_columns_order (df : DataFrame) :
  has_column df "publication date" = true ->
  has_column df "language" = true ->
  exists g,
    LanguageYearAnalyzer.analyze df = Ok g
    /\ ((forall r, In r (rows df) -> notna (r "language") = true ->
           exists r', In r' (rows df) /\ both_present r' = true
                      /\ cell_eqb (r' "language") (r "language") = true) ->
        StronglySorted cell_lt (pd.grid_columns g))
    /\ ((exists r, In r (rows df) /\ notna (r "language") = true
                   /\ forall r', In r' (rows df) -> both_present r' = true ->
                        cell_eqb (r' "language") (r "language") = false) ->
        forall l1 l2, before l1 l2 (pd.grid_columns g) ->
          met_before cell_eqb l1 l2
            (map (fun e : cell * cell * Z => snd (fst e))
               (pd.entries (group_sizes df))) = true).
Proof.
  intros H1 H2. rewrite (language_year_unfold df H1 H2).
  exists (pd.unstack 0 (group_sizes df)). split; [reflexivity|].
  unfold pd.unstack; cbn [pd.grid_columns]. split.
  - intros Hused. rewrite remove_unused_none.
    + cbn [group_sizes pd.level1]. apply levels_sorted.
    + intros v Hv.
      assert (Hm : mem v (pd.level1 (group_sizes df)) = true).
      { apply mem_true. exists v. split; [exact Hv | apply cell_eqb_refl]. }
      cbn [group_sizes pd.level1] in Hm. rewrite mem_levels in Hm.
      apply mem_true in Hm. destruct Hm as [k [Hk Hkv]].
      apply filter_In in Hk. destruct Hk as [Hk Hn].
      unfold column in Hk. apply in_map_iff in Hk.
      destruct Hk as [r [<- Hr]].
      destruct (Hused r Hr Hn) as [r' [Hr' [Hb Heq]]].
      rewrite <- (mem_congr _ _ _ Hkv).
      cbn [group_sizes pd.entries]. apply mem_second_level.
      now exists r'.
  - intros [r [Hr [Hn Hnone]]] l1 l2 Hb.
    destruct (language_in_level df r Hr Hn) as [v [Hv Hvr]].
    rewrite (remove_unused_some _ _ v Hv) in Hb.
    + now apply (tally_order cell_eqb cell_eqb_refl cell_eqb_sym
                   cell_eqb_trans).
    + rewrite (mem_congr _ _ _ Hvr).
      destruct (mem (r "language") _) eqn:E; [|reflexivity].
      cbn [group_sizes pd.entries] in E. apply mem_second_level in E.
      destruct E as [r' [Hr' [Hb' Heq]]].
      rewrite (Hnone r' Hr' Hb') in Heq. discriminate.
Qed.

(** In [unused_language_data] French is not used: Spanish, of 1900,
    comes before English, of 2020. *)
Lemma language_year_columns_order_witness :
  has_column unused_language_data "publication date" = true
  /\ has_column unused_language_data "language" = true
  /\ exists g,
       LanguageYearAnalyzer.analyze unused_language_data = Ok g
       /\ pd.grid_columns g = [Str "Spanish"; Str "English"]
       /\ forall l1 l2, before l1 l2 (pd.grid_columns g) ->
            met_before cell_eqb l1 l2
              (map (fun e : cell * cell * Z => snd (fst e))
                 (pd.entries (group_sizes unused_language_data))) = true.
Proof.
  split; [reflexivity|]. split; [reflexivity|].
  destruct (language_year_columns_order unused_language_data eq_refl eq_refl)
    as [g [Hg [_ Horder]]].
  exists g. split; [exact Hg|]. split.
  - assert (Hcols : option_map pd.grid_columns
                      (match LanguageYearAnalyzer.analyze unused_language_data
                       with Ok g' => Some g' | Raise _ => None end)
                    = Some [Str "Spanish"; Str "English"]) by reflexivity.
    rewrite Hg in Hcols. simpl in Hcols. congruence.
  - apply Horder.
    exists (nth 2 (rows unused_language_data) (fun _ => Missing)).
    split; [simpl; tauto|]. split; [reflexivity|].
    intros r' Hr' Hb. simpl in Hr'.
    destruct Hr' as [<-|[<-|[<-|[]]]]; [reflexivity | reflexivity|].
    discriminate.
Defined.

(** The grid of [unused_language_data], and the grid of the same table
    without the row that has no publication date: the two columns
    change places. *)
Lemma grid_of_unused_language_data :
  LanguageYearAnalyzer.analyze unused_language_data =
    Ok {| pd.grid_index := [Num (Fin (Qmake 1900 1)); Num (Fin (Qmake 2020 1))];
          pd.grid_columns := [Str "Spanish"; Str "English"];
          pd.grid_values := [[1; 0]; [0; 1]] |}
  /\ LanguageYearAnalyzer.analyze
       {| columns := columns unused_language_data;
          rows := filter both_present (rows unused_language_data) |} =
    Ok {| pd.grid_index := [Num (Fin (Qmake 1900 1)); Num (Fin (Qmake 2020 1))];
          pd.grid_columns := [Str "English"; Str "Spanish"];
          pd.grid_values := [[0; 1]; [1; 0]] |}.
Proof. split; reflexivity. Qed.

(** The grid of the fixture as the loader cleans it: 'Invalid' is no
    date any more, French is not used, and the columns stand in the
    order of the dates 1900, 2020, 2021 and 2150 that first use
    them. *)
Lemma grid_of_cleaned_fixture :
  LanguageYearAnalyzer.analyze
    (CSVDataLoader.coerce_publication_date decimal_str_to_num sample_data) =
    Ok {| pd.grid_index :=
            [Num (Fin (Qmake 1900 1)); Num (Fin (Qmake 2020 1));
             Num (Fin (Qmake 2021 1)); Num (Fin (Qmake 2022 1));
             Num (Fin (Qmake 2150 1))];
          pd.grid_columns :=
            [Str "Spanish"; Str "English"; Str "Tamil"; Str "German"];
          pd.grid_values :=
            [[1; 0; 0; 0]; [0; 2; 0; 0]; [0; 0; 1; 0]; [0; 0; 1; 0];
             [0; 0; 0; 1]] |}.
Proof. reflexivity. Qed.

(* ================================================================== *)
(** * More on the collapsing *)

Lemma top_languages_collapse_witness :
  mem (Str "Other") (index (firstn 10 twelve_languages)) = false
  /\ (10 < List.length twelve_languages)%nat
  /\ List.length (CLI.top_languages twelve_languages) = 11%nat
  /\ sum (values (CLI.top_languages twelve_languages))
     = sum (values twelve_languages).
Proof.
  assert (Hlen : (10 < List.length twelve_languages)%nat) by (simpl; lia).
  split; [reflexivity|]. split; [exact Hlen|].
  destruct (proj1 (top_languages_collapse twelve_languages eq_refl) Hlen)
    as [_ [H2 H3]].
  split; [exact H2 | exact H3].
Defined.

Lemma setitem_length (s : Series cell) (key : cell) (v : Z) :
  (List.length s <= List.length (pd.setitem s key v) <= S (List.length s))%nat.
Proof.
  induction s as [|[k n] s IH]; simpl.
  - lia.
  - destruct (cell_eqb k key); simpl; lia.
Qed.

Lemma lookup_setitem (s : Series cell) (key : cell) (v : Z) :
  lookup_label (pd.setitem s key v) key = Some v.
Proof.
  unfold lookup_label. induction s as [|[k n] s IH]; simpl.
  - now rewrite cell_eqb_refl.
  - destruct (cell_eqb k key) eqn:E; simpl; rewrite E; [reflexivity|exact IH].
Qed.

(** X11: whatever the distribution, the series that choice 3 and
    choice 4 draw has at most 11 entries; when the distribution has
    more than ten entries the drawn series has ten or eleven, and its
    label 'Other' holds the sum of the counts after the tenth. *)
Theorem collapsed_series_bounds (result : Series cell) :
  (List.length (CLI.top_languages result) <= 11)%nat
  /\ CLI.top_publishers result = CLI.top_languages result
  /\ ((10 < List.length result)%nat ->
      (10 <= List.length (CLI.top_languages result))%nat
      /\ lookup_label (CLI.top_languages result) (Str "Other")
         = Some (sum (values (skipn 10 result)))).
Proof.
  unfold CLI.top_publishers, CLI.top_languages, pd.head, pd.iloc_from.
  destruct (10 <? Z.of_nat (List.length result)) eqn:E.
  - assert (Hlen : (10 < List.length result)%nat) by lia.
    pose proof (setitem_length (firstn 10 result) (Str "Other")
                  (sum (values (skipn 10 result)))) as Hs.
    rewrite length_firstn, Nat.min_l in Hs by lia.
    split; [lia|]. split; [reflexivity|]. intros _.
    split; [lia | apply lookup_setitem].
  - split; [lia|]. split; [reflexivity|]. intros H. lia.
Qed.

(* ================================================================== *)
(** * The cleaning pass of the loader *)

Section LoaderFacts.

Variable str_to_num : string -> option num.

Local Abbreviation coerce :=
  (CSVDataLoader.coerce_publication_date str_to_num).

Lemma combine_map_r {A B : Type} (f : A -> B) (l : list A) :
  combine l (map f l) = map (fun a => (a, f a)) l.
Proof. induction l as [|a l IH]; simpl; [reflexivity|]. now rewrite IH. Qed.

Lemma coerce_rows (df : DataFrame) :
  has_column df "publication date" = true ->
  rows (coerce df) =
  map (fun (r : row) (c : string) =>
         if (c =? "publication date")%string
         then CSVDataLoader.to_cell
                (numeric_value str_to_num (r "publication date"))
         else r c) (rows df).
Proof.
  intros H. unfold CSVDataLoader.coerce_publication_date. rewrite H.
  unfold CSVDataLoader.setcolumn, pd.to_numeric. cbn [rows].
  rewrite !map_map, combine_map_r, map_map. reflexivity.
Qed.

Lemma coerce_columns (df : DataFrame) : columns (coerce df) = columns df.
Proof.
  unfold CSVDataLoader.coerce_publication_date.
  destruct (has_column df "publication date") eqn:H; [|reflexivity].
  unfold CSVDataLoader.setcolumn. cbn [columns]. now rewrite H.
Qed.

Lemma coerce_has_column (df : DataFrame) (c : string) :
  has_column (coerce df) c = has_column df c.
Proof. unfold has_column. now rewrite coerce_columns. Qed.

Lemma coerce_other_column (df : DataFrame) (c : string) :
  c <> "publication date" -> column (coerce df) c = column df c.
Proof.
  intros Hc. destruct (has_column df "publication date") eqn:H.
  - unfold column. rewrite (coerce_rows df H), map_map.
    apply map_ext. intros r.
    destruct (String.eqb_spec c "publication date"); [contradiction|].
    reflexivity.
  - unfold CSVDataLoader.coerce_publication_date. now rewrite H.
Qed.

Lemma coerce_date_column (df : DataFrame) :
  has_column df "publication date" = true ->
  column (coerce df) "publication date" =
  map (fun c => CSVDataLoader.to_cell (numeric_value str_to_num c))
    (column df "publication date").
Proof.
  intros H. unfold column. rewrite (coerce_rows df H), !map_map.
  apply map_ext. intros r. reflexivity.
Qed.

Lemma coerce_length (df : DataFrame) :
  List.length (rows (coerce df)) = List.length (rows df).
Proof.
  destruct (has_column df "publication date") eqn:H.
  - now rewrite (coerce_rows df H), length_map.
  - unfold CSVDataLoader.coerce_publication_date. now rewrite H.
Qed.

Lemma numeric_value_to_cell (c : cell) :
  numeric_value str_to_num
    (CSVDataLoader.to_cell (numeric_value str_to_num c))
  = numeric_value str_to_num c.
Proof.
  destruct c as [x|s|]; simpl; try reflexivity.
  now destruct (str_to_num s).
Qed.

(** X12: the cleaning pass keeps the column names and the number of
    rows and touches no column but 'publication date'; in that column,
    when the table has it, a string that is no number becomes missing,
    every other date keeps its numeric value, and no string is left. *)
Theorem cleaning_pass (df : DataFrame) :
  columns (coerce df) = columns df
  /\ List.length (rows (coerce df)) = List.length (rows df)
  /\ (forall c, c <> "publication date" ->
        column (coerce df) c = column df c)
  /\ (has_column df "publication date" = true ->
      Forall (fun c => numeric_or_missing c = true)
        (column (coerce df) "publication date")
      /\ map (numeric_value str_to_num)
           (column (coerce df) "publication date")
         = map (numeric_value str_to_num) (column df "publication date")).
Proof.
  split; [apply coerce_columns|]. split; [apply coerce_length|].
  split; [apply coerce_other_column|].
  intros H. rewrite (coerce_date_column df H). split.
  - apply Forall_forall. intros c Hc. apply in_map_iff in Hc.
    destruct Hc as [c0 [<- _]].
    now destruct (numeric_value str_to_num c0).
  - rewrite map_map. apply map_ext. apply numeric_value_to_cell.
Qed.

(** The numbers that reach [astype(int)] are the same before and after
    the cleaning pass. *)
Lemma coerce_floats (col : list cell) :
  pd.dropna_values
    (pd.to_numeric str_to_num
       (filter notna
          (map (fun c => CSVDataLoader.to_cell (numeric_value str_to_num c))
             col)))
  = pd.dropna_values (pd.to_numeric str_to_num (filter notna col)).
Proof.
  induction col as [|c col IH]; simpl; [reflexivity|].
  destruct c as [x|s|]; simpl.
  - now rewrite IH.
  - destruct (str_to_num s) as [x|]; simpl; now rewrite IH.
  - exact IH.
Qed.

Variable float : Type.
Variable linregress : list Z -> list Z -> exc (LinregressResult float).
Variable square : float -> float.
Variable format_2f : float -> string.

(** X13: the Publication Trend strategy gives on the cleaned table what
    it gives on the table as read: the same result, or the same
    exception. *)
Theorem publication_trend_after_cleaning (df : DataFrame) :
  PublicationTrendAnalyzer.analyze
    str_to_num float linregress square format_2f (coerce df)
  = PublicationTrendAnalyzer.analyze
      str_to_num float linregress square format_2f df.
Proof.
  destruct (has_column df "publication date") eqn:H.
  - assert (H' : has_column (coerce df) "publication date" = true)
      by now rewrite coerce_has_column.
    unfold PublicationTrendAnalyzer.analyze, pd.dropna.
    rewrite H, H'. cbn [bind].
    rewrite !getitem_column by (unfold has_column; cbn [columns];
      first [exact H' | exact H]).
    cbn [bind]. unfold column at 1 2. cbn [rows].
    rewrite <- !(filter_map_swap notna (fun r : row => r "publication date")).
    fold (column (coerce df) "publication date").
    fold (column df "publication date").
    rewrite (coerce_date_column df H), coerce_floats. reflexivity.
  - unfold CSVDataLoader.coerce_publication_date. now rewrite H.
Qed.

End LoaderFacts.

(** X14: the strategies that read another column than the publication
    date give on the cleaned table what they give on the table as
    read. *)
Theorem other_strategies_after_cleaning
  (str_to_num : string -> option num) (df : DataFrame) :
  let cleaned := CSVDataLoader.coerce_publication_date str_to_num df in
  AuthorsAnalyzer.analyze cleaned = AuthorsAnalyzer.analyze df
  /\ LanguageDistributionAnalyzer.analyze cleaned
     = LanguageDistributionAnalyzer.analyze df
  /\ PublisherAnalyzer.analyze cleaned = PublisherAnalyzer.analyze df
  /\ MissingISBNAnalyzer.analyze cleaned = MissingISBNAnalyzer.analyze df.
Proof.
  intros cleaned.
  assert (Hget : forall c, c <> "publication date" ->
                   pd.getitem cleaned c = pd.getitem df c).
  { intros c Hc. unfold pd.getitem, cleaned.
    rewrite coerce_has_column.
    fold (column (CSVDataLoader.coerce_publication_date str_to_num df) c).
    fold (column df c). now rewrite coerce_other_column. }
  assert (Hlen : pd.len cleaned = pd.len df).
  { unfold pd.len, cleaned.
    now rewrite coerce_length. }
  unfold AuthorsAnalyzer.analyze, LanguageDistributionAnalyzer.analyze,
    PublisherAnalyzer.analyze, MissingISBNAnalyzer.analyze.
  rewrite Hlen, !Hget by discriminate. auto.
Qed.



(** X16: a table that [load_data] returns is the cleaned form of the
    table that was read: it has the names and the number of rows of
    that table, hence at most [limit] rows when the reader gives no
    more rows than it is asked for, and no string is left in its
    'publication date' column. *)
Theorem load_data_returns (str_to_num : string -> option num)
  (read_csv : string -> nat -> CSVDataLoader.read_result)
  (self : CSVDataLoader.t) (file_path : string) (loaded : DataFrame) :
  CSVDataLoader.load_data str_to_num read_csv self file_path
    = CSVDataLoader.Loaded loaded ->
  exists df,
    read_csv file_path (CSVDataLoader.limit self) = CSVDataLoader.ReadOk df
    /\ loaded = CSVDataLoader.coerce_publication_date str_to_num df
    /\ columns loaded = columns df
    /\ List.length (rows loaded) = List.length (rows df)
    /\ ((List.length (rows df) <= CSVDataLoader.limit self)%nat ->
        (List.length (rows loaded) <= CSVDataLoader.limit self)%nat)
    /\ (has_column loaded "publication date" = true ->
        Forall (fun c => numeric_or_missing c = true)
          (column loaded "publication date")).
Proof.
  unfold CSVDataLoader.load_data.
  destruct (read_csv file_path (CSVDataLoader.limit self)) as [df| |text];
    try discriminate.
  intros H. injection H as <-. exists df.
  split; [reflexivity|]. split; [reflexivity|].
  split; [apply coerce_columns|].
  split; [apply coerce_length|].
  split; [rewrite coerce_length; auto|].
  rewrite coerce_has_column. intros Hcol.
  rewrite (coerce_date_column str_to_num df Hcol).
  apply Forall_forall. intros c Hc. apply in_map_iff in Hc.
  destruct Hc as [c0 [<- _]].
  now destruct (numeric_value str_to_num c0).
Qed.

Lemma load_data_returns_witness :
  let self := CSVDataLoader.init (Some 5%nat) in
  exists loaded,
    CSVDataLoader.load_data decimal_str_to_num read_sample self
      "Dataset Books.csv" = CSVDataLoader.Loaded loaded
    /\ (List.length (rows loaded) <= 5)%nat
    /\ Forall (fun c => numeric_or_missing c = true)
         (column loaded "publication date").
Proof.
  intros self. eexists. split; [reflexivity|].
  destruct (load_data_returns decimal_str_to_num read_sample self
              "Dataset Books.csv" _ eq_refl)
    as [df [Hread [_ [_ [_ [Hlimit Hdates]]]]]].
  split.
  - apply Hlimit. injection Hread as <-. simpl. lia.
  - apply Hdates. reflexivity.
Defined.

(* ================================================================== *)
(** * More on the session *)

Section SessionExtras.

Variable float : Type.

Local Abbreviation t := (CLI.t float).

Lemma iteration_toggle (self : t) (choice : string) :
  lower choice = "v" ->
  CLI.iteration float self choice =
  (CLI.menu float self,
   CLI.Next float
     {| CLI.file_path := CLI.file_path float self;
        CLI.analyzers := CLI.analyzers float self;
        CLI.data := CLI.data float self;
        CLI.viz_type :=
          if (CLI.viz_type float self =? "matplotlib")%string
          then "plotly" else "matplotlib" |}).
Proof.
  intros Hv. unfold CLI.iteration. rewrite Hv. cbn [String.eqb Ascii.eqb].
  simpl. now destruct (CLI.viz_type float self =? "matplotlib")%string.
Qed.

Lemma iteration_quit (self : t) (choice : string) :
  is_quit choice = true ->
  CLI.iteration float self choice = (CLI.menu float self, CLI.Break float self).
Proof.
  unfold is_quit, CLI.iteration. now intros ->.
Qed.

(** The loop on the lines [pre ++ more], when the lines [pre] do not
    end it: what it writes for [pre], then the loop on [more]. *)
Lemma loop_app (pre : list string) (self self' : t) :
  after self pre = Some self' ->
  exists evs, forall more,
    CLI.loop float self (pre ++ more) =
    (evs ++ fst (CLI.loop float self' more),
     snd (CLI.loop float self' more)).
Proof.
  revert self. induction pre as [|choice pre IH]; intros self; simpl.
  - intros H; injection H as <-. exists []. intros more. simpl.
    now destruct (CLI.loop float self more).
  - destruct (CLI.iteration float self choice) as [evs o] eqn:E.
    destruct o as [next| |]; try discriminate.
    intros H. destruct (IH next H) as [evs' Hevs'].
    exists (evs ++ evs'). intros more. rewrite (Hevs' more).
    now rewrite app_assoc.
Qed.

(** X17: each toggle command switches the visualizer and nothing else
    does: after any lines that do not end the loop, a session that
    started with 'matplotlib' has 'matplotlib' after an even number of
    toggle commands and 'plotly' after an odd number. *)
Theorem toggle_parity (inputs : list string) (self self' : t) :
  after self inputs = Some self' ->
  CLI.viz_type float self = "matplotlib" ->
  CLI.viz_type float self' =
    if Nat.even (toggles inputs) then "matplotlib" else "plotly".
Proof.
  intros Hafter Hstart.
  assert (Hboth :
    forall inputs (self self' : t), after self inputs = Some self' ->
      (CLI.viz_type float self = "matplotlib" ->
       CLI.viz_type float self' =
         if Nat.even (toggles inputs) then "matplotlib" else "plotly")
      /\ (CLI.viz_type float self = "plotly" ->
          CLI.viz_type float self' =
            if Nat.even (toggles inputs) then "plotly" else "matplotlib")).
  { clear. induction inputs as [|choice rest IH]; intros self self'; simpl.
    - intros H; injection H as <-. auto.
    - destruct (CLI.iteration float self choice) as [evs o] eqn:E.
      destruct o as [next| |]; try discriminate.
      intros H. destruct (IH next self' H) as [IHm IHp].
      unfold toggles in *. simpl filter.
      destruct (String.eqb_spec (lower choice) "v") as [Hv|Hv].
      + rewrite (iteration_toggle self choice Hv) in E.
        injection E as _ <-. simpl List.length.
        rewrite Nat.even_succ, <- Nat.negb_even.
        cbn [CLI.viz_type] in IHm, IHp.
        split; intros Hs; rewrite Hs in *; cbn in IHm, IHp.
        * rewrite (IHp eq_refl). now destruct (Nat.even _).
        * rewrite (IHm eq_refl). now destruct (Nat.even _).
      + destruct (iteration_next float self next choice evs E)
          as [_ [_ [_ Hsame]]].
        rewrite (Hsame Hv) in *. auto. }
  exact (proj1 (Hboth inputs self self' Hafter) Hstart).
Qed.

(** X18: the loop ends at the first quit command: the lines typed after
    it are never read, and [run] returns with the session as it was
    when the command was typed. *)
Theorem quit_ends_the_loop (pre : list string) (choice : string)
  (self self' : t) :
  after self pre = Some self' ->
  is_quit choice = true ->
  exists evs, forall rest,
    CLI.loop float self (pre ++ choice :: rest) = (evs, CLI.Break float self').
Proof.
  intros Hafter Hq. destruct (loop_app pre self self' Hafter) as [evs Hevs].
  exists (evs ++ CLI.menu float self'). intros rest.
  rewrite (Hevs (choice :: rest)). simpl.
  now rewrite (iteration_quit self' choice Hq).
Qed.

(** X19: the loop has no handler around a strategy: when the analyzer
    of the selected key raises on the loaded table, the exception
    leaves the loop, and no further line is read. *)
Theorem strategy_exception_ends_the_loop (pre : list string)
  (choice : string) (self self' : t) (analyzer : IAnalyzer float)
  (df : DataFrame) (e : exn) :
  after self pre = Some self' ->
  lower choice <> "q" -> lower choice <> "v" ->
  AnalysisContext.get_analyzer (CLI.analyzers float self) choice
    = Some analyzer ->
  CLI.data float self = Some df ->
  analyze analyzer df = Raise e ->
  exists evs, forall rest,
    CLI.loop float self (pre ++ choice :: rest)
    = (evs, CLI.Uncaught float e).
Proof.
  intros Hafter Hq Hv Hget Hdata Hraise.
  destruct (loop_app pre self self' Hafter) as [evs Hevs].
  destruct (after_fields float pre self self' Hafter) as [_ [Ha Hd]].
  assert (Hit : CLI.iteration float self' choice =
                (CLI.menu float self'
                 ++ [CLI.Print float
                       (nl ++ "Performing: " ++ name analyzer ++ "...")],
                 CLI.Uncaught float e)).
  { unfold CLI.iteration.
    destruct (String.eqb_spec (lower choice) "q"); [contradiction|].
    destruct (String.eqb_spec (lower choice) "v"); [contradiction|].
    now rewrite Ha, Hget, Hd, Hdata, Hraise. }
  eexists. intros rest. rewrite (Hevs (choice :: rest)). simpl.
  rewrite Hit. reflexivity.
Qed.

End SessionExtras.

Lemma toggle_parity_witness :
  after sample_session ["v"; "5"; "V"] = Some sample_session
  /\ CLI.viz_type unit sample_session = "matplotlib"
  /\ CLI.viz_type unit sample_session =
       if Nat.even (toggles ["v"; "5"; "V"]) then "matplotlib" else "plotly".
Proof.
  assert (H : after sample_session ["v"; "5"; "V"] = Some sample_session)
    by reflexivity.
  split; [exact H|]. split; [reflexivity|].
  exact (toggle_parity unit ["v"; "5"; "V"] sample_session sample_session
           H eq_refl).
Defined.

Lemma quit_ends_the_loop_witness :
  after sample_session ["5"] = Some sample_session
  /\ is_quit "Q" = true
  /\ exists evs, forall rest,
       CLI.loop unit sample_session (["5"] ++ "Q" :: rest)
       = (evs, CLI.Break unit sample_session).
Proof.
  assert (H : after sample_session ["5"] = Some sample_session)
    by reflexivity.
  split; [exact H|]. split; [reflexivity|].
  exact (quit_ends_the_loop unit ["5"] "Q" sample_session sample_session
           H eq_refl).
Defined.

Lemma strategy_exception_ends_the_loop_witness :
  after infinite_session [] = Some infinite_session
  /\ lower "1" <> "q" /\ lower "1" <> "v"
  /\ exists evs, forall rest,
       CLI.loop unit infinite_session ([] ++ "1" :: rest)
       = (evs, CLI.Uncaught unit IntCastingNaNError).
Proof.
  assert (Hq : lower "1" <> "q") by discriminate.
  assert (Hv : lower "1" <> "v") by discriminate.
  split; [reflexivity|]. split; [exact Hq|]. split; [exact Hv|].
  exact (strategy_exception_ends_the_loop unit [] "1"
           infinite_session infinite_session
           (CLI.publication_trend decimal_str_to_num unit linregress_shape
              (fun r => r) (fun _ => "nan"))
           infinite_date_data IntCastingNaNError
           eq_refl Hq Hv eq_refl eq_refl eq_refl).
Defined.

(* ================================================================== *)
(** * Choice 5 *)


Section ChoiceFive.

Variable str_to_num : string -> option num.
Variable float : Type.
Variable linregress : list Z -> list Z -> exc (LinregressResult float).
Variable square : float -> float.
Variable format_2f : float -> string.

Local Abbreviation registry path :=
  (CLI.analyzers float
     (CLI.init str_to_num float linregress square format_2f path)).



End ChoiceFive.


(* ================================================================== *)
(** * How the loop ends, and what it does not accept *)

Section LoopExtras.

Variable float : Type.

Lemma iteration_break (self s : CLI.t float) (choice : string)
  (evs : list (CLI.event float)) :
  CLI.iteration float self choice = (evs, CLI.Break float s) ->
  is_quit choice = true /\ s = self.
Proof.
  unfold CLI.iteration, is_quit.
  destruct (lower choice =? "q")%string.
  - intros H; injection H as _ <-. auto.
  - destruct (lower choice =? "v")%string.
    + destruct (CLI.viz_type float self =? "matplotlib")%string; discriminate.
    + destruct (AnalysisContext.get_analyzer _ choice) as [analyzer|];
        [|discriminate].
      destruct (CLI.data float self) as [df|]; [|discriminate].
      destruct (analyze analyzer df) as [result|e]; [|discriminate].
      destruct (CLI.visualization float self choice (name analyzer) result)
        as [drawn [e|]]; discriminate.
Qed.

(** X22: the loop returns only by a quit command: when it has returned,
    one of the lines typed was a quit command, no line before it had
    ended the loop, and the session is the one those lines led to.
    Lines that do not end the loop leave it waiting for input, which is
    an EOFError when there is none. *)
Theorem loop_returns_by_quit (inputs : list string) (self s : CLI.t float) :
  snd (CLI.loop float self inputs) = CLI.Break float s ->
  exists pre choice rest,
    inputs = pre ++ choice :: rest
    /\ is_quit choice = true
    /\ after self pre = Some s
    /\ snd (CLI.loop float self pre) = CLI.Uncaught float EOFError.
Proof.
  revert self. induction inputs as [|c rest IH]; intros self; simpl.
  - discriminate.
  - destruct (CLI.iteration float self c) as [evs o] eqn:E.
    destruct o as [next|stop|e]; simpl.
    + destruct (CLI.loop float next rest) as [evs' o'] eqn:El. simpl.
      intros Ho. specialize (IH next). rewrite El in IH.
      destruct (IH Ho) as [pre [choice [rest' [Hin [Hq [Ha He]]]]]].
      exists (c :: pre), choice, rest'. simpl. rewrite E.
      repeat split; try assumption.
      * now rewrite Hin.
      * destruct (CLI.loop float next pre). exact He.
    + intros H; injection H as <-.
      destruct (iteration_break self stop c evs E) as [Hq ->].
      exists [], c, rest. simpl. auto.
    + discriminate.
Qed.

End LoopExtras.

Lemma loop_returns_by_quit_witness :
  snd (CLI.loop unit sample_session ["5"; "q"; "v"])
    = CLI.Break unit sample_session
  /\ exists pre choice rest,
       ["5"; "q"; "v"] = pre ++ choice :: rest
       /\ is_quit choice = true
       /\ after sample_session pre = Some sample_session.
Proof.
  assert (H : snd (CLI.loop unit sample_session ["5"; "q"; "v"])
              = CLI.Break unit sample_session) by reflexivity.
  split; [exact H|].
  destruct (loop_returns_by_quit unit ["5"; "q"; "v"] sample_session
              sample_session H) as [pre [choice [rest [H1 [H2 [H3 _]]]]]].
  exists pre, choice, rest. auto.
Defined.

Section Selections.

Variable str_to_num : string -> option num.
Variable float : Type.
Variable linregress : list Z -> list Z -> exc (LinregressResult float).
Variable square : float -> float.
Variable format_2f : float -> string.

Local Abbreviation registry path :=
  (CLI.analyzers float
     (CLI.init str_to_num float linregress square format_2f path)).

(** X21: with the registry of [__init__] the selections are the keys
    "1" to "6", in this order; any other line that is no quit and no
    toggle command, such as "7", " 1" or the empty line, is answered
    with "Invalid selection." and leaves the session as it is. *)
Theorem invalid_selection (self : CLI.t float) (path choice : string) :
  CLI.analyzers float self = registry path ->
  lower choice <> "q" -> lower choice <> "v" ->
  ~ In choice ["1"; "2"; "3"; "4"; "5"; "6"] ->
  AnalysisContext.get_available_analyses (CLI.analyzers float self)
    = ["1"; "2"; "3"; "4"; "5"; "6"]
  /\ CLI.iteration float self choice =
     (CLI.menu float self ++ [CLI.Print float "Invalid selection."],
      CLI.Next float self).
Proof.
  intros Hreg Hq Hv Hnot. split; [now rewrite Hreg|].
  assert (Hget : AnalysisContext.get_analyzer (CLI.analyzers float self) choice
                 = None).
  { assert (Hlist : registry path =
      [("1", CLI.publication_trend str_to_num float linregress square
               format_2f);
       ("2", CLI.authors float); ("3", CLI.language_distribution float);
       ("4", CLI.publisher float); ("5", CLI.missing_isbn float);
       ("6", CLI.language_year float)]) by reflexivity.
    rewrite Hreg, Hlist. unfold AnalysisContext.get_analyzer.
    cbn [find fst]. simpl in Hnot.
    destruct (String.eqb_spec "1" choice); [tauto|].
    destruct (String.eqb_spec "2" choice); [tauto|].
    destruct (String.eqb_spec "3" choice); [tauto|].
    destruct (String.eqb_spec "4" choice); [tauto|].
    destruct (String.eqb_spec "5" choice); [tauto|].
    destruct (String.eqb_spec "6" choice); [tauto|].
    reflexivity. }
  unfold CLI.iteration.
  destruct (String.eqb_spec (lower choice) "q"); [contradiction|].
  destruct (String.eqb_spec (lower choice) "v"); [contradiction|].
  now rewrite Hget.
Qed.

End Selections.

Lemma invalid_selection_witness :
  lower "7" <> "q" /\ lower "7" <> "v"
  /\ ~ In "7" ["1"; "2"; "3"; "4"; "5"; "6"]
  /\ CLI.iteration unit sample_session "7" =
     (CLI.menu unit sample_session ++ [CLI.Print unit "Invalid selection."],
      CLI.Next unit sample_session).
Proof.
  assert (Hq : lower "7" <> "q") by discriminate.
  assert (Hv : lower "7" <> "v") by discriminate.
  assert (Hn : ~ In "7" ["1"; "2"; "3"; "4"; "5"; "6"]).
  { simpl. intros H.
    repeat (destruct H as [H|H]; [discriminate|]). exact H. }
  split; [exact Hq|]. split; [exact Hv|]. split; [exact Hn|].
  exact (proj2 (invalid_selection decimal_str_to_num unit linregress_shape
                  (fun r => r) (fun _ => "nan") sample_session
                  "Dataset Books.csv" "7" eq_refl Hq Hv Hn)).
Defined.

Lemma cleaning_pass_witness :
  has_column sample_data "publication date" = true
  /\ Forall (fun c => numeric_or_missing c = true)
       (column (CSVDataLoader.coerce_publication_date decimal_str_to_num
                  sample_data) "publication date").
Proof.
  split; [reflexivity|].
  exact (proj1 (proj2 (proj2 (proj2
           (cleaning_pass decimal_str_to_num sample_data))) eq_refl)).
Defined.
